(** * CurrencyTradeBot: a shallow embedding of the bot's Python sources

    The development follows the layout of [cryptocurrency_bot/]:

    - [Py]         : exceptions, results and string helpers;
    - [Dt]         : [utils/dt.py], with the parts of [datetime] it uses;
    - [Decorators] : [utils/decorators.py] ([rangetest]);
    - [Main]       : [main.py];
    - [Logger]     : [models/logger.py];
    - [PyFloat], [Parsers] : [models/parsers.py];
    - [Db]         : [models/db.py], with the parts of SQLite it relies on.

    Each module is followed by a module of facts about it ([DtFacts],
    [DecoratorsFacts], ...).  The second half of the file goes through the
    same sources again, for the functions the first half leaves out:

    - [Country], [CountryFacts], [ClockFacts] : [utils/dt.py];
    - [RangetestFacts], [GuardFacts] : [utils/decorators.py];
    - [LoopFacts] : [main.py];
    - [LoggerCalls], [LoggerCallsFacts] : [models/logger.py];
    - [Requests], [Deltas] and their facts : [models/parsers.py];
    - [Sqlite], [HandlerFacts], [UserRates], [Listings], [ChangeUser],
      [Sessions] and their facts : [models/db.py].

    Python [float]s are IEEE 754 binary64 numbers and are modelled by Rocq's
    primitive floats, Python [int]s by [Z], [str] by [string] (a byte string,
    so that lengths are sizes in bytes), [dict]s whose order is irrelevant by
    stdpp's [gmap], and rows and keyword arguments, whose order matters, by
    association lists.  The clock and the network are arguments of the
    functions that read them.  SQLite keeps integers of 64 bits and counts
    the length of a text in characters: [Sqlite] has both. *)

From Stdlib Require Import ZArith Floats String Ascii List Bool.
From stdpp Require Import base option list gmap strings pretty.

Set Warnings "-inexact-float".

(** ** Python values and exceptions *)

Module Py.

(** The exception classes the modelled code raises, with the message where
    the source fixes one. *)
Inductive exn : Type :=
| AssertionError (msg : string)
| ValueError (msg : string)
| TypeError (msg : string)
| KeyError (key : string)
| IndexError (msg : string)
| ZeroDivisionError
| IntegrityError (msg : string)
| OperationalError (msg : string)
| InterfaceError (msg : string)
| ParsingError (msg : string)
| CurrencyDoesNotExistError (msg : string)
| ConnectionError
| OverflowError (msg : string).

(** A call either returns a value or raises. *)
Inductive result (A : Type) : Type :=
| Ok (a : A)
| Raise (e : exn).
Arguments Ok {A} a.
Arguments Raise {A} e.

Definition bind {A B} (r : result A) (k : A -> result B) : result B :=
  match r with
  | Ok a => k a
  | Raise e => Raise e
  end.

Definition is_ok {A} (r : result A) : bool :=
  match r with Ok _ => true | Raise _ => false end.

(** [assert cond, msg] *)
Definition py_assert (cond : bool) (msg : string) : result unit :=
  if cond then Ok tt else Raise (AssertionError msg).

(** [str.lower] and [str.upper], on the ASCII letters. *)
Definition ascii_lower (c : ascii) : ascii :=
  let n := nat_of_ascii c in
  if (65 <=? n)%nat && (n <=? 90)%nat then ascii_of_nat (n + 32) else c.

Definition ascii_upper (c : ascii) : ascii :=
  let n := nat_of_ascii c in
  if (97 <=? n)%nat && (n <=? 122)%nat then ascii_of_nat (n - 32) else c.

Fixpoint map_string (f : ascii -> ascii) (s : string) : string :=
  match s with
  | EmptyString => EmptyString
  | String c rest => String (f c) (map_string f rest)
  end.

Definition lower : string -> string := map_string ascii_lower.
Definition upper : string -> string := map_string ascii_upper.

End Py.
Export Py.

(** [result] is used through stdpp's monad notations [x ← r; k] and
    [r;; k]. *)
#[global] Instance result_ret : MRet result := fun _ a => Ok a.
#[global] Instance result_bind : MBind result := fun _ _ k r => bind r k.
#[global] Instance result_fmap : FMap result := fun _ _ f r => bind r (fun a => Ok (f a)).

(** ** utils/dt.py *)

Module Dt.
Open Scope Z_scope.

(** [datetime.datetime]: the civil fields and the optional [tzinfo], a fixed
    offset [datetime.timezone(delta)] kept as the microseconds of [delta]
    (the resolution of [timedelta]). *)
Record datetime : Type := mk_datetime {
  year : Z;
  month : Z;
  day : Z;
  hour : Z;
  minute : Z;
  second : Z;
  microsecond : Z;
  tzinfo : option Z
}.

Definition is_leap (y : Z) : bool :=
  (y mod 4 =? 0) && (negb (y mod 100 =? 0) || (y mod 400 =? 0)).

Definition days_in_month (y m : Z) : Z :=
  if m =? 2 then (if is_leap y then 29 else 28)
  else if (m =? 4) || (m =? 6) || (m =? 9) || (m =? 11) then 30
  else 31.

(** The checks of the [datetime] constructor, in its order (date fields, then
    time fields), with CPython's messages. *)
Definition check_date_fields (y m d : Z) : result unit :=
  if negb ((1 <=? y) && (y <=? 9999)) then Raise (ValueError "year is out of range")
  else if negb ((1 <=? m) && (m <=? 12)) then Raise (ValueError "month must be in 1..12")
  else if negb ((1 <=? d) && (d <=? days_in_month y m))
       then Raise (ValueError "day is out of range for month")
  else Ok tt.

Definition check_time_fields (h mi s us : Z) : result unit :=
  if negb ((0 <=? h) && (h <=? 23)) then Raise (ValueError "hour must be in 0..23")
  else if negb ((0 <=? mi) && (mi <=? 59)) then Raise (ValueError "minute must be in 0..59")
  else if negb ((0 <=? s) && (s <=? 59)) then Raise (ValueError "second must be in 0..59")
  else if negb ((0 <=? us) && (us <=? 999999))
       then Raise (ValueError "microsecond must be in 0..999999")
  else Ok tt.

(** [datetime(year, month, day, hour, minute, second, microsecond, tzinfo)] *)
Definition datetime_new (y m d h mi s us : Z) (tz : option Z) : result datetime :=
  check_date_fields y m d;;
  check_time_fields h mi s us;;
  Ok (mk_datetime y m d h mi s us tz).

(** A value the constructor accepts; [utcnow()] always returns one, naive. *)
Definition valid_datetime (d : datetime) : bool :=
  is_ok (datetime_new (year d) (month d) (day d) (hour d) (minute d)
                      (second d) (microsecond d) (tzinfo d)).

(** [timedelta(0, seconds)], in microseconds. *)
Definition timedelta_seconds (seconds : Z) : Z := seconds * 1000000.

(** [datetime.timezone(delta)]: the offset must lie strictly between -24h
    and 24h. *)
Definition timezone (delta : Z) : result Z :=
  if (timedelta_seconds (-86400) <? delta) && (delta <? timedelta_seconds 86400)
  then Ok delta
  else Raise (ValueError "offset must be a timedelta strictly between -timedelta(hours=24) and timedelta(hours=24)").

(** [def add_offset(d, utcoffset=0): return d.replace(tzinfo=timezone(...))] *)
Definition add_offset (d : datetime) (utcoffset : Z) : result datetime :=
  tz ← timezone (timedelta_seconds (utcoffset * 60 * 60));
  datetime_new (year d) (month d) (day d) (hour d) (minute d) (second d)
               (microsecond d) (Some tz).

(** [utcoffset in range(-11, 13)] *)
Definition in_offset_range (utcoffset : Z) : bool :=
  (-11 <=? utcoffset) && (utcoffset <? 13).

Definition offset_msg : string := "time zones are in range from -11 to +12".

(** [get_current_datetime]; the clock reading [dt.datetime.utcnow()] is the
    argument [utcnow].  [//] and [%] are floor division and its remainder,
    which is what [Z.div] and [Z.modulo] are for a positive divisor. *)
Definition get_current_datetime (utcnow : datetime) (utcoffset : Z) : result datetime :=
  py_assert (in_offset_range utcoffset) offset_msg;;
  let n := utcnow in
  n ← datetime_new (year n) (month n)
         (day n + ((hour n + utcoffset) / 24))
         ((hour n + utcoffset) mod 24)
         (minute n) (second n) 0 (tzinfo n);
  add_offset n utcoffset.

(** Proleptic Gregorian ordinal of a date ([datetime.toordinal]). *)
Definition days_before_year (y : Z) : Z :=
  let y := y - 1 in y * 365 + y / 4 - y / 100 + y / 400.

Fixpoint days_before_month_aux (y : Z) (m : nat) : Z :=
  match m with
  | O => 0
  | S k => days_before_month_aux y k + days_in_month y (Z.of_nat (S k))
  end.

Definition days_before_month (y m : Z) : Z :=
  days_before_month_aux y (Z.to_nat (m - 1)).

Definition toordinal (d : datetime) : Z :=
  days_before_year (year d) + days_before_month (year d) (month d) + day d.

(** Microseconds on the civil time line, before the offset is applied. *)
Definition civil_microseconds (d : datetime) : Z :=
  (((toordinal d * 24 + hour d) * 60 + minute d) * 60 + second d) * 1000000
  + microsecond d.

(** The instant of an aware datetime with offset [off], in microseconds on
    the UTC line. *)
Definition utc_microseconds (d : datetime) (off : Z) : Z :=
  civil_microseconds d - off.

Definition naive_msg : string := "can compare only timezone-aware datetime".

(** [check_datetime_in_future]: [(now - up_to_date).total_seconds() <= 0];
    the difference of two aware datetimes is the difference of their
    instants. *)
Definition check_datetime_in_future (utcnow : datetime) (up_to_date : datetime)
    (utcoffset : Z) : result bool :=
  py_assert (bool_decide (tzinfo up_to_date <> None)) naive_msg;;
  py_assert (in_offset_range utcoffset) offset_msg;;
  now ← get_current_datetime utcnow utcoffset;
  match tzinfo now, tzinfo up_to_date with
  | Some off_now, Some off_utd =>
      Ok (utc_microseconds now off_now - utc_microseconds up_to_date off_utd <=? 0)
  | _, _ => Raise (TypeError "can't subtract offset-naive and offset-aware datetimes")
  end.

(** Decimal text of a field, zero-padded to [width] digits ([%02d], [%04d]). *)
Definition zero_pad (width : nat) (z : Z) : string :=
  let digits := pretty z in
  String.concat "" (replicate (width - String.length digits) "0") +:+ digits.

(** [d.strftime('%Y-%m-%d %H:%M:%S')], for years of four digits. *)
Definition strftime_ymd_hms (d : datetime) : string :=
  zero_pad 4 (year d) +:+ "-" +:+ zero_pad 2 (month d) +:+ "-" +:+ zero_pad 2 (day d)
  +:+ " " +:+ zero_pad 2 (hour d) +:+ ":" +:+ zero_pad 2 (minute d) +:+ ":"
  +:+ zero_pad 2 (second d).

(** [str(d)], that is [d.isoformat(sep=' ')]:
    [YYYY-MM-DD HH:MM:SS[.ffffff][+HH:MM[:SS[.ffffff]]]]. *)
Definition format_offset (off : Z) : string :=
  let a := Z.abs off in
  let us := a mod 1000000 in
  let s := (a / 1000000) mod 60 in
  let m := (a / 60000000) mod 60 in
  let h := a / 3600000000 in
  (if off <? 0 then "-" else "+") +:+ zero_pad 2 h +:+ ":" +:+ zero_pad 2 m
  +:+ (if (s =? 0) && (us =? 0) then "" else ":" +:+ zero_pad 2 s)
  +:+ (if us =? 0 then "" else "." +:+ zero_pad 6 us).

Definition str_datetime (d : datetime) : string :=
  strftime_ymd_hms d
  +:+ (if microsecond d =? 0 then "" else "." +:+ zero_pad 6 (microsecond d))
  +:+ match tzinfo d with
      | Some off => format_offset off
      | None => ""
      end.

(** *** [datetime.strptime]

    The directives of the two formats the handlers use.  [strptime] turns
    the format into a regular expression and matches it at the start of the
    text; the alternatives of each directive are tried in the order the
    expression lists them, with backtracking. *)
Inductive directive : Type :=
| DY | Dm | Dd | DH | DM | DS | Dz
| Dlit (c : ascii)
| Dspace.

(** ['%Y-%m-%d %H:%M:%S'] and ['%Y-%m-%d %H:%M:%S%z'] *)
Definition format_ymd_hms : list directive :=
  [DY; Dlit "-"; Dm; Dlit "-"; Dd; Dspace; DH; Dlit ":"; DM; Dlit ":"; DS].
Definition format_ymd_hms_z : list directive := format_ymd_hms ++ [Dz].

Definition digit (c : ascii) : option Z :=
  let n := nat_of_ascii c in
  if (48 <=? n)%nat && (n <=? 57)%nat then Some (Z.of_nat (n - 48)) else None.

(** The characters [\s] matches. *)
Definition is_space (c : ascii) : bool :=
  let n := nat_of_ascii c in ((9 <=? n)%nat && (n <=? 13)%nat) || (n =? 32)%nat.

(** What the groups of a match hold; [pz] is the offset read by [%z], or the
    [ValueError] its text leads to. *)
Record parsed : Type := {
  pY : Z; pm : Z; pd : Z; pH : Z; pM : Z; pS : Z;
  pz : option (result Z)
}.

Definition no_groups : parsed :=
  {| pY := 0; pm := 0; pd := 0; pH := 0; pM := 0; pS := 0; pz := None |}.

(** One digit, or two, read as a number that [ok] accepts. *)
Definition one_digit (ok : Z -> bool) (s : string) : list (Z * string) :=
  match s with
  | String c rest =>
      match digit c with
      | Some a => if ok a then [(a, rest)] else []
      | None => []
      end
  | EmptyString => []
  end.

Definition two_digits (ok : Z -> bool) (s : string) : list (Z * string) :=
  match s with
  | String c1 (String c2 rest) =>
      match digit c1, digit c2 with
      | Some a, Some b => if ok (10 * a + b) then [(10 * a + b, rest)] else []
      | _, _ => []
      end
  | _ => []
  end.

Definition between (lo hi v : Z) : bool := (lo <=? v) && (v <=? hi).

(** [\d\d\d\d] *)
Definition four_digits (s : string) : list (Z * string) :=
  '(hi, rest) ← two_digits (between 0 99) s;
  '(lo, rest) ← two_digits (between 0 99) rest;
  [(100 * hi + lo, rest)].

(** The non-empty runs of white space at the head of [s], longest first. *)
Fixpoint spaces (s : string) : list string :=
  match s with
  | String c rest => if is_space c then spaces rest ++ [rest] else []
  | EmptyString => []
  end.

(** The first, greedy, match of
    [[+-]\d\d:?[0-5]\d(:?[0-5]\d(\.\d{1,6})?)?|Z] and the offset, in
    microseconds, that [strptime] computes from its text.  A colon in one
    place and not in the other leaves [strptime] with a [ValueError]. *)
Definition optional_colon (s : string) : bool * string :=
  match s with
  | String ":" rest => (true, rest)
  | _ => (false, s)
  end.

Fixpoint fraction (n : nat) (s : string) (acc : Z) : Z * string :=
  match n, s with
  | S k, String c rest =>
      match digit c with
      | Some a => fraction k rest (10 * acc + a)
      | None => (acc * 10 ^ Z.of_nat n, s)
      end
  | _, _ => (acc * 10 ^ Z.of_nat n, s)
  end.

Definition optional_fraction (s : string) : Z * string :=
  match s with
  | String "." (String c rest as digits) =>
      match digit c with
      | Some _ => fraction 6 digits 0
      | None => (0, s)
      end
  | _ => (0, s)
  end.

Definition inconsistent_colon : exn := ValueError "Inconsistent use of : in offset".

Definition zone (s : string) : list (result Z * string) :=
  match s with
  | String "Z" rest => [(Ok 0, rest)]
  | String sign rest =>
      if negb (Ascii.eqb sign "+" || Ascii.eqb sign "-") then [] else
      '(h, rest) ← two_digits (between 0 99) rest;
      let '(colon1, rest) := optional_colon rest in
      '(m, rest) ← two_digits (between 0 59) rest;
      let '(colon2, rest2) := optional_colon rest in
      let sgn := if Ascii.eqb sign "-" then -1 else 1 in
      match two_digits (between 0 59) rest2 with
      | (sec, rest3) :: _ =>
          let '(us, rest4) := optional_fraction rest3 in
          [(if Bool.eqb colon1 colon2
            then Ok (sgn * (timedelta_seconds (h * 60 * 60 + m * 60 + sec) + us))
            else Raise inconsistent_colon, rest4)]
      | [] => [(Ok (sgn * timedelta_seconds (h * 60 * 60 + m * 60)), rest)]
      end
  | EmptyString => []
  end.

(** The matches of one directive at the head of [s]: how the groups change,
    and the text left. *)
Definition alternatives (d : directive) (s : string) : list ((parsed -> parsed) * string) :=
  let set (f : Z -> parsed -> parsed) (l : list (Z * string)) :=
    (fun '(v, rest) => (f v, rest)) <$> l in
  match d with
  | DY => set (fun v p => {| pY := v; pm := pm p; pd := pd p; pH := pH p;
                             pM := pM p; pS := pS p; pz := pz p |}) (four_digits s)
  | Dm => set (fun v p => {| pY := pY p; pm := v; pd := pd p; pH := pH p;
                             pM := pM p; pS := pS p; pz := pz p |})
            (two_digits (between 1 12) s ++ one_digit (between 1 9) s)
  | Dd => set (fun v p => {| pY := pY p; pm := pm p; pd := v; pH := pH p;
                             pM := pM p; pS := pS p; pz := pz p |})
            (two_digits (between 1 31) s ++ one_digit (between 1 9) s
             ++ match s with
                | String " " rest => one_digit (between 1 9) rest
                | _ => []
                end)
  | DH => set (fun v p => {| pY := pY p; pm := pm p; pd := pd p; pH := v;
                             pM := pM p; pS := pS p; pz := pz p |})
            (two_digits (between 0 23) s ++ one_digit (between 0 9) s)
  | DM => set (fun v p => {| pY := pY p; pm := pm p; pd := pd p; pH := pH p;
                             pM := v; pS := pS p; pz := pz p |})
            (two_digits (between 0 59) s ++ one_digit (between 0 9) s)
  | DS => set (fun v p => {| pY := pY p; pm := pm p; pd := pd p; pH := pH p;
                             pM := pM p; pS := v; pz := pz p |})
            (two_digits (between 0 61) s ++ one_digit (between 0 9) s)
  | Dz => (fun '(z, rest) =>
             (fun p => {| pY := pY p; pm := pm p; pd := pd p; pH := pH p;
                          pM := pM p; pS := pS p; pz := Some z |}, rest)) <$> zone s
  | Dlit c =>
      match s with
      | String c' rest => if Ascii.eqb c c' then [(id, rest)] else []
      | EmptyString => []
      end
  | Dspace => (fun rest => (id, rest)) <$> spaces s
  end.

(** The first element of [l] on which [f] succeeds. *)
Fixpoint first_some {A B : Type} (f : A -> option B) (l : list A) : option B :=
  match l with
  | [] => None
  | a :: rest =>
      match f a with
      | Some b => Some b
      | None => first_some f rest
      end
  end.

(** The first way to match the whole format at the head of [s]. *)
Fixpoint match_format (ds : list directive) (s : string) (acc : parsed)
    : option (parsed * string) :=
  match ds with
  | [] => Some (acc, s)
  | d :: ds' =>
      first_some (fun '(upd, rest) => match_format ds' rest (upd acc))
        (alternatives d s)
  end.

(** [datetime.strptime(data, format)], for a format given by its text
    [format] and its directives [ds]: the text must match and be used up;
    the offset, the date and the time are then checked in this order. *)
Definition strptime (data format : string) (ds : list directive) : result datetime :=
  match match_format ds data no_groups with
  | None =>
      Raise (ValueError ("time data '" +:+ data +:+ "' does not match format '"
                         +:+ format +:+ "'"))
  | Some (p, rest) =>
      if negb (String.eqb rest "")
      then Raise (ValueError ("unconverted data remains: " +:+ rest))
      else
        off ← match pz p with
              | Some z => Some <$> z
              | None => Ok None
              end;
        check_date_fields (pY p) (pm p) (pd p);;
        tz ← match off with
             | Some off => Some <$> timezone off
             | None => Ok None
             end;
        datetime_new (pY p) (pm p) (pd p) (pH p) (pM p) (pS p) 0 tz
  end.

End Dt.

(** ** Properties of utils/dt.py *)

Module DtFacts.
Import Dt.
Open Scope Z_scope.

Lemma in_offset_range_spec (o : Z) :
  in_offset_range o = true <-> -11 <= o <= 12.
Proof. unfold in_offset_range. rewrite andb_true_iff, Z.leb_le, Z.ltb_lt. lia. Qed.

(** Outside [-11, 12] the assertion fails before the clock is even used. *)
Lemma get_current_datetime_out_of_range (utcnow : datetime) (o : Z) :
  o < -11 \/ 12 < o ->
  get_current_datetime utcnow o = Raise (AssertionError offset_msg).
Proof.
  intros H. unfold get_current_datetime.
  destruct (in_offset_range o) eqn:E; [|reflexivity].
  apply in_offset_range_spec in E. lia.
Qed.

Lemma timezone_hours (o : Z) :
  -11 <= o <= 12 ->
  timezone (timedelta_seconds (o * 60 * 60)) = Ok (o * 3600000000).
Proof.
  intros H. unfold timezone, timedelta_seconds.
  replace (o * 60 * 60 * 1000000) with (o * 3600000000) by lia.
  destruct (-86400 * 1000000 <? o * 3600000000) eqn:E1; [|apply Z.ltb_ge in E1; lia].
  destruct (o * 3600000000 <? 86400 * 1000000) eqn:E2; [|apply Z.ltb_ge in E2; lia].
  reflexivity.
Qed.

Lemma valid_datetime_inv (d : datetime) :
  valid_datetime d = true ->
  (1 <= year d <= 9999) /\ (1 <= month d <= 12) /\
  (1 <= day d <= days_in_month (year d) (month d)) /\
  (0 <= hour d <= 23) /\ (0 <= minute d <= 59) /\ (0 <= second d <= 59) /\
  (0 <= microsecond d <= 999999).
Proof.
  unfold valid_datetime, datetime_new, check_date_fields, check_time_fields.
  repeat match goal with
  | |- context [negb (?a && ?b)] => destruct a eqn:?, b eqn:?; simpl; try discriminate
  end.
  intros _. repeat match goal with
  | H : (_ <=? _) = true |- _ => apply Z.leb_le in H
  end. lia.
Qed.

Lemma datetime_new_ok (y m d h mi s us : Z) (tz : option Z) :
  1 <= y <= 9999 -> 1 <= m <= 12 -> 1 <= d <= days_in_month y m ->
  0 <= h <= 23 -> 0 <= mi <= 59 -> 0 <= s <= 59 -> 0 <= us <= 999999 ->
  datetime_new y m d h mi s us tz = Ok (mk_datetime y m d h mi s us tz).
Proof.
  intros. unfold datetime_new, check_date_fields, check_time_fields.
  repeat match goal with
  | |- context [negb (?a <=? ?b)%Z] => idtac
  | |- context [(?a <=? ?b)] =>
      let E := fresh in destruct (a <=? b) eqn:E; [|apply Z.leb_gt in E; lia]
  end.
  reflexivity.
Qed.

Lemma datetime_new_bad_day (y m d h mi s us : Z) (tz : option Z) :
  1 <= y <= 9999 -> 1 <= m <= 12 -> ~ (1 <= d <= days_in_month y m) ->
  datetime_new y m d h mi s us tz = Raise (ValueError "day is out of range for month").
Proof.
  intros Hy Hm Hd. unfold datetime_new, check_date_fields.
  destruct (1 <=? y) eqn:E1; [|apply Z.leb_gt in E1; lia].
  destruct (y <=? 9999) eqn:E2; [|apply Z.leb_gt in E2; lia].
  destruct (1 <=? m) eqn:E3; [|apply Z.leb_gt in E3; lia].
  destruct (m <=? 12) eqn:E4; [|apply Z.leb_gt in E4; lia].
  destruct (1 <=? d) eqn:E5; [|reflexivity].
  destruct (d <=? days_in_month y m) eqn:E6; [|reflexivity].
  apply Z.leb_le in E5, E6. lia.
Qed.

(** When the shifted hour stays inside the current month the function
    returns, with the claimed hour and time zone. *)
Lemma get_current_datetime_same_month (utcnow : datetime) (o : Z) :
  valid_datetime utcnow = true ->
  -11 <= o <= 12 ->
  1 <= day utcnow + (hour utcnow + o) / 24 <= days_in_month (year utcnow) (month utcnow) ->
  get_current_datetime utcnow o =
    Ok (mk_datetime (year utcnow) (month utcnow)
          (day utcnow + (hour utcnow + o) / 24) ((hour utcnow + o) mod 24)
          (minute utcnow) (second utcnow) 0 (Some (o * 3600000000))).
Proof.
  intros Hv Ho Hd. apply valid_datetime_inv in Hv.
  unfold get_current_datetime.
  destruct (in_offset_range o) eqn:E; [|apply not_true_iff_false in E;
    rewrite in_offset_range_spec in E; lia].
  simpl.
  pose proof (Z.mod_pos_bound (hour utcnow + o) 24 ltac:(lia)) as Hmod.
  rewrite datetime_new_ok by lia. simpl.
  unfold add_offset. rewrite timezone_hours by lia. simpl.
  rewrite datetime_new_ok by lia. reflexivity.
Qed.

(** When the shifted hour leaves the current month, [replace] is handed a
    day number the month does not have and raises. *)
Lemma get_current_datetime_month_edge (utcnow : datetime) (o : Z) :
  valid_datetime utcnow = true ->
  -11 <= o <= 12 ->
  ~ (1 <= day utcnow + (hour utcnow + o) / 24 <= days_in_month (year utcnow) (month utcnow)) ->
  get_current_datetime utcnow o = Raise (ValueError "day is out of range for month").
Proof.
  intros Hv Ho Hd. apply valid_datetime_inv in Hv.
  unfold get_current_datetime.
  destruct (in_offset_range o) eqn:E; [|apply not_true_iff_false in E;
    rewrite in_offset_range_spec in E; lia].
  simpl. rewrite datetime_new_bad_day by lia. reflexivity.
Qed.

(** 31 January 2021, 23:30:00 UTC *)
Definition jan31_2330 : datetime := mk_datetime 2021 1 31 23 30 0 0 None.

(** C4. [get_current_datetime] does not return a timestamp for every offset
    in [-11, 12] and every instant: on 31 January at 23:30 UTC with offset
    [+1] the offset is accepted and the clock reading is a valid datetime,
    yet the call raises [ValueError] (day 32) instead of returning a
    timestamp whose hour is [(23 + 1) mod 24 = 0]. *)
Theorem get_current_datetime_month_end_raises :
  in_offset_range 1 = true /\
  valid_datetime jan31_2330 = true /\
  (hour jan31_2330 + 1) mod 24 = 0 /\
  get_current_datetime jan31_2330 1 = Raise (ValueError "day is out of range for month").
Proof. repeat split. Qed.

End DtFacts.

(** ** utils/decorators.py: [rangetest] *)

Module Decorators.

Section Rangetest.
(** The wrapper is polymorphic in the objects it compares: [V] is the type
    of the argument values, [lt] and [le] are Python's [<] and [<=] on them
    (which may raise, e.g. [TypeError] for [0 < None]) and [repr] is the
    text ['{}'.format(value)] puts in the message.  [R] is what the wrapped
    function returns. *)
Context {V R : Type}.
Variable lt le : V -> V -> result bool.
Variable repr : V -> string.

(** The keyword arguments and [privates = kargs]: dictionaries in
    insertion order. *)
Definition kwargs_t : Type := list (string * V).
Definition privates_t : Type := list (string * (V * V)).

(** [kwargs.get(argname)], which is also the test [argname in kwargs]. *)
Fixpoint kwargs_get (argname : string) (kwargs : kwargs_t) : option V :=
  match kwargs with
  | [] => None
  | (k, v) :: rest => if String.eqb k argname then Some v else kwargs_get argname rest
  end.

(** [allvars.index(argname)], [None] when [argname not in allvars]. *)
Fixpoint index (argname : string) (allvars : list string) : option nat :=
  match allvars with
  | [] => None
  | a :: rest => if String.eqb a argname then Some O else S <$> index argname rest
  end.

Definition unexpected (value : V) (argname : string) : string :=
  "unexpected value '" +:+ repr value +:+ "' for argument '" +:+ argname +:+ "'".

(** [low < value < high] and [low <= value <= high]: the second comparison
    is evaluated only when the first holds. *)
Definition chained (cmp : V -> V -> result bool) (low value high : V) : result bool :=
  b ← cmp low value;
  if b : bool then cmp value high else Ok false.

Definition assert_in_range (strict_range : bool) (low high value : V)
    (argname : string) : result unit :=
  b ← chained (if strict_range then lt else le) low value high;
  py_assert b (unexpected value argname).

(** One turn of [for argname, (low, high) in privates.items()]. *)
Definition check_arg (strict_range : bool) (allvars : list string) (args : list V)
    (kwargs : kwargs_t) (entry : string * (V * V)) : result unit :=
  let '(argname, (low, high)) := entry in
  match kwargs_get argname kwargs with
  | Some value => assert_in_range strict_range low high value argname
  | None =>
      match index argname allvars with
      | Some pos =>
          match args !! pos with
          | Some value => assert_in_range strict_range low high value argname
          | None => Raise (IndexError "tuple index out of range")
          end
      | None => Ok tt
      end
  end.

Fixpoint check_args (strict_range : bool) (allvars : list string) (args : list V)
    (kwargs : kwargs_t) (privates : privates_t) : result unit :=
  match privates with
  | [] => Ok tt
  | entry :: rest =>
      check_arg strict_range allvars args kwargs entry;;
      check_args strict_range allvars args kwargs rest
  end.

(** The [wrapper] that [rangetest(strict_range, privates)] builds around
    [func], called with positional [args] and keyword [kwargs];
    [allargs = code.co_varnames[:code.co_argcount]] are the parameter names
    of [func]. *)
Definition wrapper (strict_range : bool) (privates : privates_t)
    (allargs : list string) (func : list V -> kwargs_t -> result R)
    (args : list V) (kwargs : kwargs_t) : result R :=
  let allvars := take (length args) allargs in
  check_args strict_range allvars args kwargs privates;;
  func args kwargs.

(** The parameter [argname] is supplied by the call: by keyword, or among
    the names bound by the positional arguments. *)
Definition supplied (allargs : list string) (args : list V) (kwargs : kwargs_t)
    (argname : string) : bool :=
  bool_decide (is_Some (kwargs_get argname kwargs))
  || bool_decide (is_Some (index argname (take (length args) allargs))).

(** [privates] without the entry for [argname]. *)
Definition unguard (argname : string) (privates : list (string * (V * V)))
    : list (string * (V * V)) :=
  filter (fun entry => entry.1 <> argname) privates.

End Rangetest.

End Decorators.

Module DecoratorsFacts.
Import Decorators.

Section Rangetest.
Context {V R : Type}.
Variable lt le : V -> V -> result bool.
Variable repr : V -> string.

Lemma supplied_false (allargs : list string) (args : list V)
    (kwargs : kwargs_t) (argname : string) :
  supplied allargs args kwargs argname = false ->
  kwargs_get argname kwargs = None /\
  index argname (take (length args) allargs) = None.
Proof.
  unfold supplied. rewrite orb_false_iff, !bool_decide_eq_false.
  intros [H1 H2]. split.
  - destruct (kwargs_get argname kwargs); [destruct H1; eauto | done].
  - destruct (index argname _); [destruct H2; eauto | done].
Qed.

(** The loop turn of a parameter the call omits does nothing. *)
Lemma check_arg_omitted (strict : bool) (allargs : list string) (args : list V)
    (kwargs : kwargs_t) (argname : string) (low high : V) :
  supplied allargs args kwargs argname = false ->
  check_arg lt le repr strict (take (length args) allargs) args kwargs
    (argname, (low, high)) = Ok tt.
Proof.
  intros [H1 H2]%supplied_false. unfold check_arg. by rewrite H1, H2.
Qed.

Lemma check_args_unguard (strict : bool) (allargs : list string) (args : list V)
    (kwargs : kwargs_t) (argname : string) (privates : privates_t) :
  supplied allargs args kwargs argname = false ->
  check_args lt le repr strict (take (length args) allargs) args kwargs privates =
  check_args lt le repr strict (take (length args) allargs) args kwargs
    (unguard argname privates).
Proof.
  intros Hs. induction privates as [|[name [low high]] rest IH]; [done|].
  unfold unguard. rewrite filter_cons. fold (unguard (V:=V) argname rest).
  destruct (decide ((name, (low, high)).1 <> argname)) as [Hne|Heq].
  - cbn [check_args]. by rewrite IH.
  - cbn [check_args]. simpl in Heq. apply dec_stable in Heq. subst name.
    rewrite check_arg_omitted by done. exact IH.
Qed.

(** A parameter passed by keyword is checked against its bounds. *)
Lemma wrapper_keyword (strict : bool) (allargs : list string)
    (func : list V -> kwargs_t -> result R) (args : list V) (kwargs : kwargs_t)
    (argname : string) (low high value : V) :
  kwargs_get argname kwargs = Some value ->
  wrapper lt le repr strict [(argname, (low, high))] allargs func args kwargs =
  (assert_in_range lt le repr strict low high value argname;; func args kwargs).
Proof.
  intros H. unfold wrapper. cbn [check_args check_arg]. rewrite H.
  by destruct (assert_in_range _ _ _ _ _ _ _ _) as [[]|].
Qed.

(** So is a parameter passed positionally. *)
Lemma wrapper_positional (strict : bool) (allargs : list string)
    (func : list V -> kwargs_t -> result R) (args : list V) (kwargs : kwargs_t)
    (argname : string) (low high value : V) (pos : nat) :
  kwargs_get argname kwargs = None ->
  index argname (take (length args) allargs) = Some pos ->
  args !! pos = Some value ->
  wrapper lt le repr strict [(argname, (low, high))] allargs func args kwargs =
  (assert_in_range lt le repr strict low high value argname;; func args kwargs).
Proof.
  intros H1 H2 H3. unfold wrapper. cbn [check_args check_arg].
  rewrite H1, H2, H3.
  by destruct (assert_in_range _ _ _ _ _ _ _ _) as [[]|].
Qed.

(** C10. When the call omits a guarded parameter (it is neither a keyword
    argument nor among the parameters bound by the positional arguments, so
    the wrapped function falls back on its default), the wrapper behaves as
    if the parameter were not guarded at all: whatever the bounds, no check
    on it takes place, and a wrapper guarding only that parameter just
    calls the function. *)
Theorem rangetest_omitted_not_checked (strict : bool) (privates : privates_t)
    (allargs : list string) (func : list V -> kwargs_t -> result R)
    (args : list V) (kwargs : kwargs_t) (argname : string) :
  supplied allargs args kwargs argname = false ->
  wrapper lt le repr strict privates allargs func args kwargs =
    wrapper lt le repr strict (unguard argname privates) allargs func args kwargs
  /\ forall low high : V,
      wrapper lt le repr strict [(argname, (low, high))] allargs func args kwargs =
        func args kwargs.
Proof.
  intros Hs. split.
  - unfold wrapper. by rewrite <- check_args_unguard.
  - intros low high. unfold wrapper. cbn [check_args].
    by rewrite check_arg_omitted.
Qed.

End Rangetest.

(** Python's comparisons on integers, for the examples below. *)
Definition Z_lt (a b : Z) : result bool := Ok (a <? b)%Z.
Definition Z_le (a b : Z) : result bool := Ok (a <=? b)%Z.
Definition Z_repr (a : Z) : string := pretty a.

(** [def f(self, user_id, start_value=0): return start_value], guarded by
    [@rangetest(start_value=(0, 100))]: the third parameter, or its default. *)
Definition f_allargs : list string := ["self"; "user_id"; "start_value"].
Definition f (args : list Z) (kwargs : kwargs_t) : result Z :=
  match kwargs_get "start_value" kwargs with
  | Some v => Ok v
  | None => Ok (default 0%Z (args !! 2%nat))
  end.
Definition f_guard : privates_t := [("start_value", (0%Z, 100%Z))].

(** [f(self, 7)] passes although the default [0] is outside the strict range,
    while [f(self, 7, 0)] and [f(self, 7, start_value=0)] are rejected. *)
Example f_default_unchecked :
  wrapper Z_lt Z_le Z_repr true f_guard f_allargs f [1%Z; 7%Z] [] = Ok 0%Z.
Proof. reflexivity. Qed.

Example f_positional_checked :
  wrapper Z_lt Z_le Z_repr true f_guard f_allargs f [1%Z; 7%Z; 0%Z] [] =
  Raise (AssertionError "unexpected value '0' for argument 'start_value'").
Proof. vm_compute. reflexivity. Qed.

Example f_keyword_checked :
  wrapper Z_lt Z_le Z_repr true f_guard f_allargs f [1%Z; 7%Z] [("start_value", 0%Z)] =
  Raise (AssertionError "unexpected value '0' for argument 'start_value'").
Proof. vm_compute. reflexivity. Qed.

Lemma rangetest_omitted_witness :
  supplied f_allargs [1%Z; 7%Z] [] "start_value" = false /\
  wrapper Z_lt Z_le Z_repr true f_guard f_allargs f [1%Z; 7%Z] [] = Ok 0%Z.
Proof.
  split; [reflexivity|].
  exact (proj2 (rangetest_omitted_not_checked Z_lt Z_le Z_repr true f_guard
                  f_allargs f [1%Z; 7%Z] [] "start_value" eq_refl) 0%Z 100%Z).
Defined.

End DecoratorsFacts.

(** ** main.py *)

Module Main.

(** What one call of a long-running task does: it returns, or an exception
    escapes it.  A task is a callable without arguments that reads the
    outside world, so its calls may differ: [task k] is what the call number
    [k] does. *)
Inductive outcome : Type :=
| Returns
| Raises (e : exn).

Definition callable : Type := nat -> outcome.

(** [infinite_loop(func)]:
<<
    while True:
        try: func()
        except Exception as e: print(repr(e))
        else: break
>>
    [k] counts the calls made so far and [printed] the exceptions printed.
    The loop has no bound of its own; [fuel] bounds the turns observed. *)
Fixpoint infinite_loop (fuel : nat) (func : callable) (k : nat) (printed : list exn)
    : option (nat * list exn) :=
  match fuel with
  | O => None
  | S fuel' =>
      match func k with
      | Raises e => infinite_loop fuel' func (S k) (printed ++ [e])
      | Returns => Some (S k, printed)
      end
  end.

(** The end of a thread: how often its target was called and the exception
    that escaped the target, if any. *)
Record thread_end : Type := {
  calls : nat;
  died_with : option exn
}.

(** [threading.Thread(target=target, daemon=True).start()]: the thread's
    [run] calls [target()] once; an exception that escapes is reported by
    the threading machinery and the thread ends. *)
Definition thread_run (target : callable) : thread_end :=
  match target O with
  | Returns => {| calls := 1; died_with := None |}
  | Raises e => {| calls := 1; died_with := Some e |}
  end.

(** The entries of [targets] in the [__main__] block. *)
Inductive target : Type :=
| check_alarm_times
| update_rates
| check_premium_ended
| verify_predictions
| techsupport_main
| infinity_polling.

Definition targets : list target :=
  [check_alarm_times; update_rates; check_premium_ended; verify_predictions;
   techsupport_main; infinity_polling].

(** [for target in targets: threading.Thread(target=target, ...).start()]:
    each thread is handed the task itself. *)
Definition start_threads (body : target -> callable) : list (target * thread_end) :=
  map (fun t => (t, thread_run (body t))) targets.

(** The same start-up with every task run under [infinite_loop], which the
    file defines and never calls. *)
Definition start_threads_retrying (fuel : nat) (body : target -> callable)
    : list (target * option (nat * list exn)) :=
  map (fun t => (t, infinite_loop fuel (body t) O [])) targets.

End Main.

Module MainFacts.
Import Main.

(** [infinite_loop] calls again after every failure and stops at the first
    call that returns. *)
Lemma infinite_loop_retries (func : callable) (n : nat) :
  (forall k, (k < n)%nat -> exists e, func k = Raises e) ->
  func n = Returns ->
  forall fuel, (n < fuel)%nat ->
  exists printed, infinite_loop fuel func O [] = Some (S n, printed)
                  /\ length printed = n.
Proof.
  intros Hfail Hret.
  assert (G : forall m k printed fuel, (k + m = n)%nat -> (m < fuel)%nat ->
            exists printed', infinite_loop fuel func k printed = Some (S n, printed')
                             /\ length printed' = (length printed + m)%nat).
  { induction m as [|m IH]; intros k printed fuel Hk Hfuel.
    - destruct fuel as [|fuel]; [lia|]. simpl.
      replace k with n by lia. rewrite Hret. exists printed. split; [done|lia].
    - destruct fuel as [|fuel]; [lia|]. simpl.
      destruct (Hfail k ltac:(lia)) as [e ->].
      destruct (IH (S k) (printed ++ [e]) fuel ltac:(lia) ltac:(lia)) as (p & -> & Hl).
      exists p. split; [done|]. rewrite Hl, length_app. simpl. lia. }
  intros fuel Hfuel.
  destruct (G n O [] fuel ltac:(lia) Hfuel) as (p & Hp & Hl).
  exists p. split; [done|]. simpl in Hl. lia.
Qed.

(** Whatever the tasks do, every thread calls its task exactly once, and an
    exception that escapes the first call ends the thread. *)
Lemma start_threads_once (body : target -> callable) (t : target) (te : thread_end) :
  (t, te) ∈ start_threads body ->
  calls te = 1%nat /\
  died_with te = match body t O with Returns => None | Raises e => Some e end.
Proof.
  unfold start_threads. intros (t' & [= <- ->] & _)%list_elem_of_fmap.
  unfold thread_run. by destruct (body t O).
Qed.

(** A task whose first call fails (the network is down, say) and whose later
    calls return. *)
Definition fails_once : callable :=
  fun k => match k with O => Raises ConnectionError | S _ => Returns end.

(** C9. The six tasks are not run under the retry-forever policy.  When the
    first call of each task raises, every thread started by the entry point
    has called its task once and is dead with that exception: nothing is
    caught at the task boundary and nothing is restarted.  Under
    [infinite_loop] each task would have been called a second time. *)
Theorem tasks_not_restarted :
  start_threads (fun _ => fails_once) =
    map (fun t => (t, {| calls := 1; died_with := Some ConnectionError |})) targets
  /\ start_threads_retrying 2 (fun _ => fails_once) =
    map (fun t => (t, Some (2%nat, [ConnectionError]))) targets.
Proof. split; reflexivity. Qed.

End MainFacts.

(** ** models/logger.py *)

Module Logger.

(** [MAX_SIZE = 100 * 1024  # bytes] *)
Definition MAX_SIZE : nat := 100 * 1024.

Record level_info : Type := {
  color : string;
  level : Z
}.

(** [LOG_LEVELS.get(kind)] *)
Definition LOG_LEVELS (kind : string) : option level_info :=
  if String.eqb kind "error" then Some {| color := "red"; level := 40 |}
  else if String.eqb kind "warning" then Some {| color := "yellow"; level := 30 |}
  else if String.eqb kind "info" then Some {| color := "cyan"; level := 20 |}
  else if String.eqb kind "debug" then Some {| color := "green"; level := 10 |}
  else None.

(** A file of the log directory: its bytes, and whether the handle the
    logger opened on it has been closed. *)
Record file : Type := {
  content : string;
  closed : bool
}.

(** The logger object together with its directory [base_path]: [files] maps
    [n] to the file [log<n>.log], and [logfile] is the handle
    [self.logfile], kept as the number of the file it was opened on.
    [console] is what [cprint] has shown, with the colour. *)
Record Logger : Type := {
  log_count : nat;
  log_level : string;
  logfile : nat;
  files : gmap nat file;
  console : list (string * string)
}.

(** [os.path.getsize(path of log<n>.log)] *)
Definition getsize (self : Logger) (n : nat) : nat :=
  match files self !! n with
  | Some f => String.length (content f)
  | None => 0
  end.

(** [create_logfile]: bump [log_count] and [open(..., 'w')], which creates
    the file empty.  Returns the logger and the new handle. *)
Definition create_logfile (self : Logger) : Logger * nat :=
  let n := S (log_count self) in
  ({| log_count := n;
      log_level := log_level self;
      logfile := logfile self;
      files := <[n := {| content := ""; closed := false |}]> (files self);
      console := console self |}, n).

(** [Logger.__init__] in a fresh directory. *)
Definition init : Logger :=
  let self := {| log_count := 0; log_level := "info"; logfile := 0;
                 files := ∅; console := [] |} in
  let '(self, handle) := create_logfile self in
  {| log_count := log_count self; log_level := log_level self;
     logfile := handle; files := files self; console := console self |}.

(** [self.logfile.close()] *)
Definition close_logfile (self : Logger) : Logger :=
  {| log_count := log_count self;
     log_level := log_level self;
     logfile := logfile self;
     files := alter (fun f => {| content := content f; closed := true |})
                (logfile self) (files self);
     console := console self |}.

(** [update_logfile]: close the current file, open the next one. *)
Definition update_logfile (self : Logger) : Logger :=
  let self := close_logfile self in
  let '(self, handle) := create_logfile self in
  {| log_count := log_count self; log_level := log_level self;
     logfile := handle; files := files self; console := console self |}.

(** [logfile_size_ok] *)
Definition logfile_size_ok (self : Logger) : bool :=
  (getsize self (logfile self) <? MAX_SIZE)%nat.

(** [self.logfile.write(text); self.logfile.flush()] *)
Definition write (self : Logger) (text : string) : result Logger :=
  match files self !! logfile self with
  | Some f =>
      if closed f then Raise (ValueError "I/O operation on closed file.")
      else Ok {| log_count := log_count self;
                 log_level := log_level self;
                 logfile := logfile self;
                 files := <[logfile self :=
                            {| content := content f +:+ text; closed := false |}]>
                          (files self);
                 console := console self |}
  | None => Raise (ValueError "I/O operation on closed file.")
  end.

Definition cprint (self : Logger) (text colour : string) : Logger :=
  {| log_count := log_count self; log_level := log_level self;
     logfile := logfile self; files := files self;
     console := console self ++ [(text, colour)] |}.

(** The one-character string that ends a line. *)
Definition newline : string := String (ascii_of_nat 10) EmptyString.

(** The text of a log line, before the newline; [utcnow] is the clock. *)
Definition format_message (utcnow : Dt.datetime) (kind message : string) : string :=
  "[" +:+ Dt.strftime_ymd_hms utcnow +:+ "] [" +:+ upper kind +:+ "] " +:+ message.

(** Whether [log] lets a message of this kind through at the current
    level. *)
Definition accepted (self : Logger) (kind : string) : bool :=
  match LOG_LEVELS (log_level self), LOG_LEVELS (lower kind) with
  | Some current, Some info => (level current <=? level info)%Z
  | _, _ => false
  end.

(** [log(message, kind=kind)] *)
Definition log (self : Logger) (utcnow : Dt.datetime) (message kind : string)
    : result Logger :=
  match LOG_LEVELS (lower kind) with
  | None => Raise (AssertionError "unsupported message kind")
  | Some info =>
      match LOG_LEVELS (log_level self) with
      | None => Raise (KeyError (log_level self))
      | Some current =>
          if (level current <=? level info)%Z then
            let message := format_message utcnow kind message in
            self ← write self (message +:+ newline);
            let self := cprint self message (color info) in
            if negb (logfile_size_ok self) then Ok (update_logfile self)
            else Ok self
          else Ok self
      end
  end.

(** [set_level(level)] *)
Definition set_level (self : Logger) (level : string) : result Logger :=
  py_assert (bool_decide (is_Some (LOG_LEVELS level))) "unsupported logging level";;
  Ok {| log_count := log_count self; log_level := level;
        logfile := logfile self; files := files self; console := console self |}.

(** The loggers a program can hold: the fresh one, and what [log] and
    [set_level] turn a reachable one into. *)
Inductive reachable : Logger -> Prop :=
| reachable_init : reachable init
| reachable_log self utcnow message kind self' :
    reachable self -> log self utcnow message kind = Ok self' -> reachable self'
| reachable_set_level self level self' :
    reachable self -> set_level self level = Ok self' -> reachable self'.

End Logger.

Module LoggerFacts.
Import Logger.

Lemma MAX_SIZE_pos : 0 < MAX_SIZE.
Proof. unfold MAX_SIZE. lia. Qed.

(** The proofs below never need the value of [MAX_SIZE], a unary number of
    some hundred thousand successors. *)
#[local] Opaque MAX_SIZE.

Lemma length_append (a b : string) :
  String.length (a +:+ b) = String.length a + String.length b.
Proof. induction a as [|c a IH]; simpl; [done | by rewrite IH]. Qed.

(** The bytes one accepted call appends to the current file. *)
Definition line (utcnow : Dt.datetime) (kind message : string) : string :=
  format_message utcnow kind message +:+ newline.

(** What holds of every logger the program can hold: the handle is on the
    file numbered [log_count], that file is open and below [MAX_SIZE], and
    every other file of the directory has a smaller number, is closed and
    has reached [MAX_SIZE]. *)
Record inv (self : Logger) : Prop := {
  inv_handle : logfile self = log_count self;
  inv_level : is_Some (LOG_LEVELS (log_level self));
  inv_current : exists f, files self !! log_count self = Some f
                          /\ closed f = false
                          /\ String.length (content f) < MAX_SIZE;
  inv_previous : forall k f, files self !! k = Some f -> k <> log_count self ->
                   k < log_count self /\ closed f = true
                   /\ MAX_SIZE <= String.length (content f)
}.

(** The files after an accepted call that found [f] as the current file. *)
Definition files_after (self : Logger) (f : file) (text : string) : gmap nat file :=
  let new := content f +:+ text in
  if (MAX_SIZE <=? String.length new)%nat then
    <[S (log_count self) := {| content := ""; closed := false |}]>
      (<[log_count self := {| content := new; closed := true |}]> (files self))
  else <[log_count self := {| content := new; closed := false |}]> (files self).

Definition log_count_after (self : Logger) (f : file) (text : string) : nat :=
  if (MAX_SIZE <=? String.length (content f +:+ text))%nat
  then S (log_count self) else log_count self.

(** An accepted call, run on a logger whose handle is open on the file
    numbered [log_count]. *)
Lemma log_accepted (self : Logger) (utcnow : Dt.datetime) (message kind : string)
    (f : file) :
  logfile self = log_count self ->
  files self !! log_count self = Some f ->
  closed f = false ->
  accepted self kind = true ->
  exists self',
    log self utcnow message kind = Ok self'
    /\ log_level self' = log_level self
    /\ logfile self' = log_count self'
    /\ log_count self' = log_count_after self f (line utcnow kind message)
    /\ files self' = files_after self f (line utcnow kind message).
Proof.
  intros Hh Hf Hc Ha. unfold accepted in Ha. unfold log.
  destruct (LOG_LEVELS (log_level self)) as [current|]; [|done].
  destruct (LOG_LEVELS (lower kind)) as [info|]; [|done].
  rewrite Ha. unfold write. rewrite Hh, Hf, Hc. cbn [mbind result_bind bind].
  unfold logfile_size_ok, getsize, cprint, files_after, log_count_after, line.
  cbn [files logfile]. rewrite lookup_insert_eq. cbn [content].
  set (new := content f +:+ format_message utcnow kind message +:+ newline).
  destruct (Nat.ltb_spec (String.length new) MAX_SIZE) as [Hlt|Hge];
    destruct (Nat.leb_spec MAX_SIZE (String.length new)); try lia; cbn [negb].
  - eexists. split; [reflexivity|]. done.
  - eexists. split; [reflexivity|].
    unfold update_logfile, close_logfile, create_logfile.
    cbn [files logfile log_count log_level console].
    by rewrite alter_insert_eq.
Qed.

(** A call below the current level, or of an unknown kind, changes
    nothing. *)
Lemma log_rejected (self : Logger) (utcnow : Dt.datetime) (message kind : string)
    (self' : Logger) :
  accepted self kind = false ->
  log self utcnow message kind = Ok self' ->
  self' = self.
Proof.
  unfold accepted, log.
  destruct (LOG_LEVELS (lower kind)) as [info|]; [|done].
  destruct (LOG_LEVELS (log_level self)) as [current|]; [|done].
  intros ->. congruence.
Qed.

Lemma inv_init : inv init.
Proof.
  split; cbn.
  - done.
  - by eexists.
  - eexists. split; [apply lookup_insert_eq|]. split; [done|]. apply MAX_SIZE_pos.
  - intros k f Hk Hne. rewrite lookup_insert_ne, lookup_empty in Hk by done. done.
Qed.

Lemma inv_log (self : Logger) (utcnow : Dt.datetime) (message kind : string)
    (self' : Logger) :
  inv self -> log self utcnow message kind = Ok self' -> inv self'.
Proof.
  intros Hinv Hlog. destruct (accepted self kind) eqn:Ha.
  2:{ by rewrite (log_rejected _ _ _ _ _ Ha Hlog). }
  destruct Hinv as [Hh Hl (f & Hf & Hc & Hsz) Hprev].
  destruct (log_accepted self utcnow message kind f Hh Hf Hc Ha)
    as (s2 & Hlog2 & Hlvl & Hh2 & Hcount & Hfiles).
  rewrite Hlog in Hlog2. injection Hlog2 as <-.
  unfold log_count_after in Hcount. unfold files_after in Hfiles.
  destruct (Nat.leb_spec MAX_SIZE
              (String.length (content f +:+ line utcnow kind message))) as [Hge|Hlt].
  - split.
    + done.
    + by rewrite Hlvl.
    + rewrite Hcount, Hfiles. eexists. split; [apply lookup_insert_eq|].
      split; [done|]. apply MAX_SIZE_pos.
    + intros k g Hk Hne. rewrite Hcount in Hne |- *. rewrite Hfiles in Hk.
      rewrite lookup_insert_ne in Hk by done.
      destruct (decide (k = log_count self)) as [->|Hne2].
      * rewrite lookup_insert_eq in Hk. injection Hk as <-. cbn. split; [lia|done].
      * rewrite lookup_insert_ne in Hk by done.
        destruct (Hprev k g Hk Hne2) as (? & ? & ?). split; [lia|done].
  - split.
    + done.
    + by rewrite Hlvl.
    + rewrite Hcount, Hfiles. eexists. split; [apply lookup_insert_eq|]. done.
    + intros k g Hk Hne. rewrite Hcount in Hne |- *. rewrite Hfiles in Hk.
      rewrite lookup_insert_ne in Hk by done. by apply Hprev.
Qed.

Lemma inv_set_level (self : Logger) (level : string) (self' : Logger) :
  inv self -> set_level self level = Ok self' -> inv self'.
Proof.
  intros [Hh Hl Hcur Hprev]. unfold set_level, py_assert.
  case_bool_decide as Hsome; [|done]. cbn. intros [= <-]. by split.
Qed.

Lemma reachable_inv (self : Logger) : reachable self -> inv self.
Proof.
  induction 1 as [|s ? ? ? s' _ IH Hlog|s ? s' _ IH Hset].
  - apply inv_init.
  - by eapply inv_log.
  - by eapply inv_set_level.
Qed.

(** C8, as the code has it.  An accepted message is written to the current
    numbered file, which is open and below [MAX_SIZE] before the write; no
    file with a smaller number is touched.  The size is tested after the
    write: when it has reached [MAX_SIZE] the file is closed and an empty
    file with the next number becomes current, otherwise the number stays.
    All files but the current one are closed, so no later write reaches them.
    Hence a file is not capped at [MAX_SIZE]: its size stays below [MAX_SIZE]
    plus the length of the last line written to it. *)
Theorem log_rotation (self : Logger) (utcnow : Dt.datetime) (message kind : string)
    (self' : Logger) :
  reachable self ->
  log self utcnow message kind = Ok self' ->
  accepted self kind = true ->
  exists f,
    files self !! log_count self = Some f
    /\ closed f = false
    /\ String.length (content f) < MAX_SIZE
    /\ let text := line utcnow kind message in
       let new := content f +:+ text in
       files self' !! log_count self =
         Some {| content := new; closed := (MAX_SIZE <=? String.length new)%nat |}
       /\ (forall k, k < log_count self -> files self' !! k = files self !! k)
       /\ (if (MAX_SIZE <=? String.length new)%nat
           then log_count self' = S (log_count self)
                /\ files self' !! S (log_count self) =
                   Some {| content := ""; closed := false |}
           else log_count self' = log_count self)
       /\ (forall k g, files self' !! k = Some g -> k <> log_count self' ->
             closed g = true)
       /\ String.length new < MAX_SIZE + String.length text.
Proof.
  intros Hr Hlog Ha.
  pose proof (reachable_inv self' (reachable_log _ _ _ _ _ Hr Hlog)) as Hinv'.
  destruct (reachable_inv self Hr) as [Hh Hl (f & Hf & Hc & Hsz) Hprev].
  destruct (log_accepted self utcnow message kind f Hh Hf Hc Ha)
    as (s2 & Hlog2 & Hlvl & Hh2 & Hcount & Hfiles).
  rewrite Hlog in Hlog2. injection Hlog2 as <-.
  exists f. repeat split; try done.
  - rewrite Hfiles. unfold files_after.
    destruct (MAX_SIZE <=? _)%nat.
    + rewrite lookup_insert_ne by lia. by rewrite lookup_insert_eq.
    + by rewrite lookup_insert_eq.
  - intros k Hk. rewrite Hfiles. unfold files_after.
    destruct (MAX_SIZE <=? _)%nat; rewrite !lookup_insert_ne by lia; done.
  - rewrite Hcount, Hfiles. unfold log_count_after, files_after.
    destruct (MAX_SIZE <=? _)%nat; [|done]. split; [done|]. by rewrite lookup_insert_eq.
  - intros k g Hk Hne. by destruct (inv_previous _ Hinv' k g Hk Hne) as (_ & ? & _).
  - rewrite length_append. lia.
Qed.

(** Noon of 1 March 2021, and a first message. *)
Definition noon : Dt.datetime := Dt.mk_datetime 2021 3 1 12 0 0 0 None.

Lemma log_rotation_witness :
  exists self',
    log init noon "Bot started" "info" = Ok self'
    /\ accepted init "info" = true
    /\ exists f, files init !! log_count init = Some f
                 /\ String.length (content f) < MAX_SIZE
                 /\ files self' !! log_count init =
                    Some {| content := content f +:+ line noon "info" "Bot started";
                            closed := (MAX_SIZE <=? String.length
                              (content f +:+ line noon "info" "Bot started"))%nat |}.
Proof.
  destruct (log_accepted init noon "Bot started" "info"
              {| content := ""; closed := false |} eq_refl eq_refl eq_refl eq_refl)
    as (self' & Hlog & _).
  exists self'. split; [exact Hlog|]. split; [reflexivity|].
  destruct (log_rotation init noon "Bot started" "info" self'
              reachable_init Hlog eq_refl) as (f & Hf & _ & Hsz & Hw & _).
  exists f. split; [exact Hf|]. split; [exact Hsz|]. exact Hw.
Defined.

(** A message of [MAX_SIZE] bytes. *)
Fixpoint repeat_char (c : ascii) (n : nat) : string :=
  match n with
  | O => EmptyString
  | S k => String c (repeat_char c k)
  end.

Definition big : string := repeat_char "a"%char MAX_SIZE.

Lemma length_repeat_char (c : ascii) (n : nat) : String.length (repeat_char c n) = n.
Proof. induction n as [|n IH]; simpl; [done | by rewrite IH]. Qed.

(** C8, as stated, fails: the first call of a fresh logger, with a message of
    [MAX_SIZE] bytes, leaves [log1.log] closed and larger than [MAX_SIZE]. *)
Lemma log_file_exceeds_max_size :
  exists self' f,
    log init noon big "info" = Ok self'
    /\ files self' !! 1 = Some f
    /\ closed f = true
    /\ MAX_SIZE < String.length (content f).
Proof.
  destruct (log_accepted init noon big "info"
              {| content := ""; closed := false |} eq_refl eq_refl eq_refl eq_refl)
    as (self' & Hlog & _ & _ & _ & Hfiles).
  assert (Hlen : MAX_SIZE < String.length (line noon "info" big)).
  { unfold line, format_message. rewrite !length_append.
    unfold big. rewrite length_repeat_char.
    change (String.length "[") with 1. lia. }
  unfold files_after in Hfiles. cbn [content log_count init create_logfile] in Hfiles.
  change ("" +:+ line noon "info" big) with (line noon "info" big) in Hfiles.
  destruct (Nat.leb_spec MAX_SIZE (String.length (line noon "info" big))); [|lia].
  eexists self', _. split; [exact Hlog|]. rewrite Hfiles.
  split; [by rewrite lookup_insert_ne, lookup_insert_eq|]. split; [done|exact Hlen].
Qed.

End LoggerFacts.

(** ** Python floats *)

Module PyFloat.
Open Scope float_scope.

(** [float(k)] for an [int] below [2^63] in size *)
Definition of_Z (k : Z) : float :=
  match k with
  | Z0 => 0
  | Zpos _ => of_uint63 (Uint63.of_Z k)
  | Zneg p => - of_uint63 (Uint63.of_Z (Zpos p))
  end.

(** [a / b]: true division raises on a zero divisor. *)
Definition truediv (a b : float) : result float :=
  if b =? 0 then Raise ZeroDivisionError else Ok (a / b).

(** [max(a, b)]: the first argument unless the second is greater. *)
Definition max (a b : float) : float := if a <? b then b else a.

(** Truth value of an optional number: [None] and zeros are false. *)
Definition truthy (x : option float) : bool :=
  match x with
  | Some f => negb (f =? 0)
  | None => false
  end.

End PyFloat.

(** ** models/parsers.py *)

Module Parsers.
Open Scope float_scope.

(** The values of the dictionaries the parsers return. *)
Inductive dval : Type :=
| Num (f : float)
| Str (s : string).

Section Parsers.

(** [utils.prettify_float], whose source is not part of the files at hand:
    it is a parameter of the parsers. *)
Variable prettify_float : float -> float.

(** [CurrencyParser.calculate_difference(old, new)] *)
Definition calculate_difference (old new : float) : result (gmap string dval) :=
  q ← PyFloat.truediv (old - new) (PyFloat.max old new);
  Ok (<["difference" := Num (prettify_float (- (old - new)))]>
     (<["percentage_difference" := Num (- prettify_float q)]>
     (<["new" := Num new]>
     (<["old" := Num old]> ∅)))).

(** A [CurrencyParser] object: its iso, the cached [value], and [page], what
    fetching and parsing its link yields at the moment (the number shown, or
    the exception raised on the way). *)
Record CurrencyParser : Type := {
  iso : string;
  value : option float;
  page : result float
}.

(** [CurrencyParser.get_rate()]: [{self.iso: 1, 'USD': number}] *)
Definition get_rate (self : CurrencyParser) : result (gmap string float) :=
  number ← page self;
  Ok (<["USD" := number]> (<[iso self := 1]> ∅)).

(** [dict[key]] *)
Definition getitem {A} (d : gmap string A) (key : string) : result A :=
  match d !! key with
  | Some v => Ok v
  | None => Raise (KeyError key)
  end.

Definition none_operand : exn :=
  TypeError "unsupported operand type(s) for -: 'NoneType' and 'float'".

(** [CurrencyParser.check_delta(old=None, new=None, percent_delta=0.01)] *)
Definition check_delta (self : CurrencyParser) (old new : option float)
    (percent_delta : float) : result (gmap string dval) :=
  let old := if PyFloat.truthy old then old else value self in
  new ← (if PyFloat.truthy new then Ok new
         else rate ← get_rate self; Ok (rate !! "USD"));
  res ← match old, new with
        | Some old, Some new => calculate_difference old new
        | _, _ => Raise none_operand
        end;
  let res := <["currency_from" := Str (iso self)]> res in
  let res := <["currency_to" := Str "USD"]> res in
  match res !! "percentage_difference" with
  | Some (Num pd) =>
      if abs pd <? percent_delta
      then Ok (delete "difference" (delete "percentage_difference" (delete "new" res)))
      else Ok res
  | _ => Raise (TypeError "bad operand type for abs()")
  end.

(** The outside world of the aggregator: [dedicated iso] is what the page of
    the dedicated parser for [iso] yields, [fiat_exists iso] whether the
    fiat site answers for [iso] ([check_currency_exists], which swallows
    every exception), and [fiat iso_from iso_to] what the fiat calculator
    page yields. *)
Record Network : Type := {
  dedicated : string -> result float;
  fiat_exists : string -> bool;
  fiat : string -> string -> result float
}.

(** The keys of [CurrencyExchanger.parsers]: [RTSParser.iso],
    [BitcoinParser.iso] and [InvestingParser.AVAILABLE_PRODUCTS]. *)
Definition parsers : list string :=
  ["RTS"; "BTC"; "Gold"; "Silver"; "Palladium"; "Copper"; "Platinum";
   "BRENT"; "CRUDE"; "GAS"; "GAS-OIL"].

(** [FreecurrencyratesParser.get_rate(iso_from, iso_to)] *)
Definition fiat_get_rate (net : Network) (iso_from iso_to : string)
    : result (gmap string float) :=
  let iso_from := upper iso_from in
  let iso_to := upper iso_to in
  if String.eqb iso_from iso_to then Ok (<[iso_from := 1]> ∅)
  else number ← fiat net iso_from iso_to;
       Ok (<[iso_to := number]> (<[iso_from := 1]> ∅)).

(** [FreecurrencyratesParser.check_currency_exists(currency)] *)
Definition check_currency_exists (net : Network) (currency : string) : bool :=
  fiat_exists net (upper currency).

(** [x in self.parsers or self.default_parser.check_currency_exists(x)] *)
Definition resolvable (net : Network) (x : string) : bool :=
  bool_decide (x ∈ parsers) || check_currency_exists net x.

(** [CurrencyExchanger.check_rate_exists] *)
Definition check_rate_exists (net : Network) (iso_from iso_to : string) : bool :=
  forallb (resolvable net) [iso_from; iso_to].

(** The rate dictionary the parser chosen for [x] returns:
    [p.get_rate(x) if getattr(p, 'iso', None) is None else p.get_rate()]
    with [p = self.parsers.get(x, self.default_parser)]. *)
Definition parser_rate (net : Network) (x : string) : result (gmap string float) :=
  if bool_decide (x ∈ parsers)
  then get_rate {| iso := x; value := None; page := dedicated net x |}
  else fiat_get_rate net x "USD".

Definition not_found : exn :=
  CurrencyDoesNotExistError "some of the currencies do not exist".
Definition parsing_failed : exn :=
  ParsingError "`iso_from` or `iso_to` is invalid or network cannot be reached".

(** The body of the [try] block of [CurrencyExchanger.get_rate]. *)
Definition get_rate_body (net : Network) (iso_from iso_to : string)
    : result (gmap string float) :=
  rate_from ← parser_rate net iso_from;
  rate_to ← parser_rate net iso_to;
  to_usd ← getitem rate_to "USD";
  inv ← PyFloat.truediv 1 to_usd;
  match rate_from !! "USD" with
  | Some from_usd =>
      Ok (<[iso_to := prettify_float (inv * from_usd)]> (<[iso_from := 1]> ∅))
  | None => Raise (TypeError "unsupported operand type(s) for *: 'float' and 'NoneType'")
  end.

(** [CurrencyExchanger.get_rate(iso_from, iso_to)] *)
Definition exchanger_get_rate (net : Network) (iso_from iso_to : string)
    : result (gmap string float) :=
  if negb (check_rate_exists net iso_from iso_to) then Raise not_found
  else match get_rate_body net iso_from iso_to with
       | Ok rate => Ok rate
       | Raise _ => Raise parsing_failed
       end.

(** The USD value the parser chosen for [x] reports: the ['USD'] entry of
    its rate dictionary. *)
Definition usd_rate (net : Network) (x : string) : result float :=
  rate ← parser_rate net x;
  getitem rate "USD".

End Parsers.

End Parsers.

(** ** Order facts on binary64 numbers

    The comparisons of primitive floats are specified by [SFcompare] on
    [spec_float]; the facts below are read off that specification. *)

Module PyFloatFacts.
Open Scope float_scope.

Ltac order_cases :=
  repeat match goal with
  | |- context [PosDef.Pos.compare_cont Eq ?a ?b] =>
      change (PosDef.Pos.compare_cont Eq a b) with (Pos.compare a b)
  end;
  repeat match goal with
  | |- context [Z.compare ?a ?b] => destruct (Z.compare_spec a b); subst
  | |- context [Pos.compare ?a ?b] => destruct (Pos.compare_spec a b); subst
  end; cbn [CompOpp]; try done; try lia.

Lemma SFleb_trans (a b c : spec_float) :
  SFleb a b = true -> SFleb b c = true -> SFleb a c = true.
Proof.
  unfold SFleb, SFcompare.
  destruct a as [[]|[]| |[] ma ea], b as [[]|[]| |[] mb eb], c as [[]|[]| |[] mc ec];
    try done; order_cases.
Qed.

Lemma SFleb_ltb_trans (a b c : spec_float) :
  SFleb a b = true -> SFltb b c = true -> SFltb a c = true.
Proof.
  unfold SFleb, SFltb, SFcompare.
  destruct a as [[]|[]| |[] ma ea], b as [[]|[]| |[] mb eb], c as [[]|[]| |[] mc ec];
    try done; order_cases.
Qed.

Lemma SFltb_leb_trans (a b c : spec_float) :
  SFltb a b = true -> SFleb b c = true -> SFltb a c = true.
Proof.
  unfold SFleb, SFltb, SFcompare.
  destruct a as [[]|[]| |[] ma ea], b as [[]|[]| |[] mb eb], c as [[]|[]| |[] mc ec];
    try done; order_cases.
Qed.

Lemma SFleb_opp (a b : spec_float) :
  SFleb a b = true -> SFleb (SFopp b) (SFopp a) = true.
Proof.
  unfold SFleb, SFcompare, SFopp.
  destruct a as [[]|[]| |[] ma ea], b as [[]|[]| |[] mb eb];
    try done; cbn [negb]; order_cases.
Qed.

Lemma SFabs_nonneg (x t : spec_float) :
  SFleb (S754_zero false) x = true -> SFltb (SFabs x) t = SFltb x t.
Proof.
  unfold SFleb, SFltb, SFcompare, SFabs.
  destruct x as [[]|[]| |[] mx ex], t as [[]|[]| |[] mt et]; done.
Qed.

Lemma leb_trans (a b c : float) :
  (a <=? b) = true -> (b <=? c) = true -> (a <=? c) = true.
Proof. rewrite !leb_spec. apply SFleb_trans. Qed.

Lemma leb_ltb_trans (a b c : float) :
  (a <=? b) = true -> (b <? c) = true -> (a <? c) = true.
Proof. rewrite !leb_spec, !ltb_spec. apply SFleb_ltb_trans. Qed.

Lemma ltb_leb_trans (a b c : float) :
  (a <? b) = true -> (b <=? c) = true -> (a <? c) = true.
Proof. rewrite !leb_spec, !ltb_spec. apply SFltb_leb_trans. Qed.

(** Negation reverses the order. *)
Lemma leb_opp (a b : float) :
  (a <=? b) = true -> (- b <=? - a) = true.
Proof. rewrite !leb_spec, !opp_spec. apply SFleb_opp. Qed.

(** A number known to lie in [[a, b]] with [0 <= a] and [b < t] has an
    absolute value below [t]. *)
Lemma abs_ltb_between (a b t x : float) :
  (0 <=? a) = true -> (a <=? x) = true -> (x <=? b) = true -> (b <? t) = true ->
  (abs x <? t) = true.
Proof.
  intros H0 Ha Hb Ht.
  pose proof (leb_trans _ _ _ H0 Ha) as Hx.
  pose proof (leb_ltb_trans _ _ _ Hb Ht) as Hxt.
  rewrite ltb_spec, abs_spec. rewrite leb_spec in Hx. rewrite ltb_spec in Hxt.
  change (Prim2SF 0) with (S754_zero false) in Hx.
  by rewrite SFabs_nonneg.
Qed.

Lemma SFleb_not_ltb (t x : spec_float) :
  SFleb t x = true -> SFltb x t = false.
Proof.
  unfold SFleb, SFltb, SFcompare.
  destruct t as [[]|[]| |[] mt et], x as [[]|[]| |[] mx ex]; try done; order_cases.
Qed.

(** A number known to be at least [a], with [0 <= a] and [t <= a], has no
    absolute value below [t]. *)
Lemma abs_ltb_above (a t x : float) :
  (0 <=? a) = true -> (t <=? a) = true -> (a <=? x) = true ->
  (abs x <? t) = false.
Proof.
  intros H0 Ht Ha.
  pose proof (leb_trans _ _ _ H0 Ha) as Hx.
  pose proof (leb_trans _ _ _ Ht Ha) as Htx.
  rewrite ltb_spec, abs_spec. rewrite leb_spec in Hx, Htx.
  change (Prim2SF 0) with (S754_zero false) in Hx.
  rewrite SFabs_nonneg by done. by apply SFleb_not_ltb.
Qed.

End PyFloatFacts.

(** ** Properties of models/parsers.py *)

Module ParsersFacts.
Import Parsers.
Open Scope float_scope.

Section Difference.

Variable prettify_float : float -> float.

(** What the description of [prettify_float] as a rounding to a fixed,
    presentable precision is taken to mean here: it is monotone, and a value
    between -1 and 1 with at most four decimals is left as it is. *)
Hypothesis prettify_monotone : forall x y : float,
  (x <=? y) = true -> (prettify_float x <=? prettify_float y) = true.
Hypothesis prettify_keeps : forall k : Z,
  (-10000 <= k <= 10000)%Z ->
  prettify_float (PyFloat.of_Z k / 10000) = PyFloat.of_Z k / 10000.

(** The dictionary [calculate_difference] builds. *)
Definition difference_dict (old new pd diff : float) : gmap string dval :=
  <["difference" := Num diff]>
    (<["percentage_difference" := Num pd]>
    (<["new" := Num new]>
    (<["old" := Num old]> ∅))).

Lemma calculate_difference_ok (old new : float) :
  (PyFloat.max old new =? 0) = false ->
  calculate_difference prettify_float old new =
    Ok (difference_dict old new
          (- prettify_float ((old - new) / PyFloat.max old new))
          (prettify_float (- (old - new)))).
Proof. intros H. unfold calculate_difference, PyFloat.truediv. by rewrite H. Qed.

(** A value between two four-decimal numbers is rounded to a value between
    them. *)
Lemma prettify_between (lo hi : Z) (x : float) :
  (-10000 <= lo <= 10000)%Z -> (-10000 <= hi <= 10000)%Z ->
  (PyFloat.of_Z lo / 10000 <=? x) = true ->
  (x <=? PyFloat.of_Z hi / 10000) = true ->
  (PyFloat.of_Z lo / 10000 <=? prettify_float x) = true /\
  (prettify_float x <=? PyFloat.of_Z hi / 10000) = true.
Proof.
  intros Hlo Hhi H1 H2. split.
  - rewrite <- (prettify_keeps lo Hlo) at 1. by apply prettify_monotone.
  - rewrite <- (prettify_keeps hi Hhi) at 1. by apply prettify_monotone.
Qed.

(** The fields [check_delta] adds, and the ones it removes below the
    threshold. *)
Definition with_currencies (self : CurrencyParser) (d : gmap string dval)
    : gmap string dval :=
  <["currency_to" := Str "USD"]> (<["currency_from" := Str (iso self)]> d).

Definition suppressed (d : gmap string dval) : gmap string dval :=
  delete "difference" (delete "percentage_difference" (delete "new" d)).

(** [check_delta] on two given, non-zero values. *)
Lemma check_delta_given (self : CurrencyParser) (old new percent_delta : float) :
  (old =? 0) = false -> (new =? 0) = false -> (PyFloat.max old new =? 0) = false ->
  let pd := - prettify_float ((old - new) / PyFloat.max old new) in
  let d := with_currencies self
             (difference_dict old new pd (prettify_float (- (old - new)))) in
  check_delta prettify_float self (Some old) (Some new) percent_delta =
    Ok (if abs pd <? percent_delta then suppressed d else d).
Proof.
  intros Ho Hn Hm. unfold check_delta. cbn [PyFloat.truthy]. rewrite Ho, Hn.
  cbn [negb mbind result_bind bind]. rewrite calculate_difference_ok by done.
  cbn [mbind result_bind bind]. unfold difference_dict.
  rewrite lookup_insert_ne, lookup_insert_ne, lookup_insert_ne, lookup_insert_eq by done.
  by destruct (abs _ <? percent_delta).
Qed.

(** [x or fallback], for an optional number [x]: [None] and the zeros are
    false as conditions. *)
Definition or_else (x fallback : option float) : option float :=
  match x with
  | Some f => if f =? 0 then fallback else Some f
  | None => fallback
  end.

Lemma or_else_truthy (x fallback : option float) :
  or_else x fallback = if PyFloat.truthy x then x else fallback.
Proof. destruct x as [f|]; [|done]. cbn. by destruct (f =? 0). Qed.

(** The fields of a result of [check_delta], in full and suppressed. *)
Lemma report_fields (self : CurrencyParser) (o n pd diff : float) :
  let d := with_currencies self (difference_dict o n pd diff) in
  (d !! "old" = Some (Num o) /\ d !! "new" = Some (Num n)
   /\ d !! "percentage_difference" = Some (Num pd)
   /\ d !! "difference" = Some (Num diff)
   /\ d !! "currency_from" = Some (Str (iso self))
   /\ d !! "currency_to" = Some (Str "USD"))
  /\ (suppressed d !! "old" = Some (Num o) /\ suppressed d !! "new" = None
      /\ suppressed d !! "percentage_difference" = None
      /\ suppressed d !! "difference" = None
      /\ suppressed d !! "currency_from" = Some (Str (iso self))
      /\ suppressed d !! "currency_to" = Some (Str "USD")).
Proof.
  cbn zeta. unfold suppressed, with_currencies, difference_dict.
  repeat split; by simplify_map_eq.
Qed.

(** Below the threshold only [old] and the two currencies are left. *)
Lemma suppressed_only_old (self : CurrencyParser) (o n pd diff : float) :
  suppressed (with_currencies self (difference_dict o n pd diff))
  = with_currencies self (<["old" := Num o]> ∅).
Proof.
  unfold suppressed, with_currencies, difference_dict. apply map_eq. intros k.
  destruct (decide (k = "difference")) as [->|?]; [by simplify_map_eq|].
  destruct (decide (k = "percentage_difference")) as [->|?]; [by simplify_map_eq|].
  destruct (decide (k = "new")) as [->|?]; [by simplify_map_eq|].
  destruct (decide (k = "currency_to")) as [->|?]; [by simplify_map_eq|].
  destruct (decide (k = "currency_from")) as [->|?]; [by simplify_map_eq|].
  destruct (decide (k = "old")) as [->|?]; by simplify_map_eq.
Qed.

(** [check_delta] for the values it ends up comparing: [o], which is [old]
    or else the cached value, and [n], which is [new] or else the number on
    the page. *)
Lemma check_delta_compared (self : CurrencyParser) (old new : option float)
    (percent_delta o n : float) :
  or_else old (value self) = Some o ->
  or_else new None = Some n \/ (or_else new None = None /\ page self = Ok n) ->
  (PyFloat.max o n =? 0) = false ->
  let pd := - prettify_float ((o - n) / PyFloat.max o n) in
  let d := with_currencies self
             (difference_dict o n pd (prettify_float (- (o - n)))) in
  check_delta prettify_float self old new percent_delta =
    Ok (if abs pd <? percent_delta then suppressed d else d).
Proof.
  intros Ho Hn Hm. cbn zeta. unfold check_delta.
  rewrite or_else_truthy in Ho. rewrite Ho.
  assert (En : (if PyFloat.truthy new then Ok new
                else rate ← get_rate self; Ok (rate !! "USD")) = Ok (Some n)).
  { rewrite or_else_truthy in Hn. destruct (PyFloat.truthy new) eqn:Et.
    - destruct Hn as [Hn|[Hn _]]; rewrite Hn in *; done.
    - destruct Hn as [?|[_ Hp]]; [done|]. unfold get_rate. rewrite Hp.
      cbn [mbind result_bind bind]. by rewrite lookup_insert_eq. }
  rewrite En. cbn [mbind result_bind bind]. rewrite calculate_difference_ok by done.
  cbn [mbind result_bind bind]. unfold difference_dict.
  rewrite lookup_insert_ne, lookup_insert_ne, lookup_insert_ne, lookup_insert_eq by done.
  by destruct (abs _ <? percent_delta).
Qed.

(** C7. With a [prettify_float] as assumed above (monotone, and exact on
    values of at most four decimals): [calculate_difference(100, 101)] has
    the [percentage_difference] [-prettify_float((100 - 101) / 101)], the
    quotient being taken by the larger value, [101]; the quotient lies
    strictly between [-0.01] and [-0.0099], and the percentage between
    [0.0099] and [0.01], hence positive; the [difference] is [1].
    [calculate_difference(100, 99)] has the [percentage_difference] [-0.01]
    and the [difference] [-1].  [check_delta] compares [old], or else the
    cached value, with [new], or else the number on the page, the quotient
    taken by the larger of the two: its result holds [old] and the two
    currencies, and the fields [new], [percentage_difference] and
    [difference] are missing from it when the absolute percentage
    difference is below [percent_delta], so that nothing but [old] and the
    currencies is left, and present, with the values compared, when it is
    not.  With [old = 100], [new = 100.5] and [percent_delta = 0.01] they
    are missing; with [new = 102] they are there. *)
Theorem difference_and_delta :
  (let q := (100 - 101) / 101 in
   calculate_difference prettify_float 100 101
   = Ok (difference_dict 100 101 (- prettify_float q) 1)
   /\ (-0.01 <? q) = true /\ (q <? -0.0099) = true
   /\ (0.0099 <=? - prettify_float q) = true
   /\ (- prettify_float q <=? 0.01) = true
   /\ (0 <? - prettify_float q) = true)
  /\ calculate_difference prettify_float 100 99
     = Ok (difference_dict 100 99 (-0.01) (-1))
  /\ (forall (self : CurrencyParser) (old new : option float)
             (percent_delta o n : float),
      or_else old (value self) = Some o ->
      or_else new None = Some n \/ (or_else new None = None /\ page self = Ok n) ->
      let larger := if o <? n then n else o in
      (larger =? 0) = false ->
      let pd := - prettify_float ((o - n) / larger) in
      let diff := prettify_float (- (o - n)) in
      exists res,
        check_delta prettify_float self old new percent_delta = Ok res
        /\ res !! "old" = Some (Num o)
        /\ res !! "currency_from" = Some (Str (iso self))
        /\ res !! "currency_to" = Some (Str "USD")
        /\ if abs pd <? percent_delta
           then res !! "new" = None /\ res !! "percentage_difference" = None
                /\ res !! "difference" = None
                /\ res = with_currencies self (<["old" := Num o]> ∅)
           else res !! "new" = Some (Num n)
                /\ res !! "percentage_difference" = Some (Num pd)
                /\ res !! "difference" = Some (Num diff)
                /\ res = with_currencies self (difference_dict o n pd diff))
  /\ (forall self : CurrencyParser,
      check_delta prettify_float self (Some 100) (Some 100.5) 0.01 =
        Ok (<["currency_to" := Str "USD"]>
              (<["currency_from" := Str (iso self)]> (<["old" := Num 100]> ∅))))
  /\ (forall self : CurrencyParser,
      check_delta prettify_float self (Some 100) (Some 102) 0.01 =
        Ok (with_currencies self
              (difference_dict 100 102
                 (- prettify_float ((100 - 102) / 102))
                 (prettify_float (- (100 - 102)))))).
Proof.
  split; [|split; [|split; [|split]]].
  - cbn zeta. rewrite calculate_difference_ok by reflexivity.
    replace (prettify_float (- (100 - 101))) with 1.
    2:{ symmetry. exact (prettify_keeps 10000 ltac:(lia)). }
    split; [reflexivity|]. split; [reflexivity|]. split; [reflexivity|].
    destruct (prettify_between (-100) (-99) ((100 - 101) / 101)
                ltac:(lia) ltac:(lia) eq_refl eq_refl) as [H1 H2].
    apply PyFloatFacts.leb_opp in H1, H2.
    split; [exact H2|]. split; [exact H1|].
    exact (PyFloatFacts.ltb_leb_trans 0 0.0099 _ eq_refl H2).
  - rewrite calculate_difference_ok by reflexivity.
    replace (prettify_float (- (100 - 99))) with (-1).
    2:{ symmetry. exact (prettify_keeps (-10000) ltac:(lia)). }
    change ((100 - 99) / PyFloat.max 100 99) with (PyFloat.of_Z 100 / 10000).
    by rewrite prettify_keeps by lia.
  - intros self old new percent_delta o n Ho Hn larger Hl pd diff.
    assert (Em : PyFloat.max o n = larger) by reflexivity.
    pose proof (check_delta_compared self old new percent_delta o n Ho Hn) as H.
    rewrite Em in H. specialize (H Hl). cbn zeta in H. fold pd diff in H.
    destruct (report_fields self o n pd diff) as [Hfull Hless]. cbn zeta in Hfull, Hless.
    eexists. split; [exact H|].
    destruct (abs pd <? percent_delta).
    + destruct Hless as (? & ? & ? & ? & ? & ?).
      repeat split; first [done | apply suppressed_only_old].
    + destruct Hfull as (? & ? & ? & ? & ? & ?). done.
  - intros self. rewrite check_delta_given by reflexivity.
    destruct (prettify_between (-50) (-49) ((100 - 100.5) / PyFloat.max 100 100.5)
                ltac:(lia) ltac:(lia) eq_refl eq_refl) as [H1 H2].
    apply PyFloatFacts.leb_opp in H1, H2.
    change (PyFloat.max 100 100.5) with 100.5 in *.
    rewrite (PyFloatFacts.abs_ltb_between 0.0049 0.005 0.01 _ eq_refl H2 H1 eq_refl).
    by rewrite suppressed_only_old.
  - intros self. rewrite check_delta_given by reflexivity.
    destruct (prettify_between (-197) (-196) ((100 - 102) / 102)
                ltac:(lia) ltac:(lia) eq_refl eq_refl) as [H1 H2].
    apply PyFloatFacts.leb_opp in H1, H2.
    change (PyFloat.max 100 102) with 102 in *.
    by rewrite (PyFloatFacts.abs_ltb_above 0.0196 0.01 _ eq_refl eq_refl H2).
Qed.

End Difference.

(** A prettifier that changes nothing meets the two hypotheses. *)
Definition keep (x : float) : float := x.

Lemma difference_and_delta_witness :
  (forall x y : float, (x <=? y) = true -> (keep x <=? keep y) = true)
  /\ (forall k : Z, (-10000 <= k <= 10000)%Z ->
        keep (PyFloat.of_Z k / 10000) = PyFloat.of_Z k / 10000)
  /\ calculate_difference keep 100 101
     = Ok (difference_dict 100 101 0.009900990099009901 1)
  /\ (0.009900990099009901 <? 0.01) = true
  /\ calculate_difference keep 100 99 = Ok (difference_dict 100 99 (-0.01) (-1)).
Proof.
  split; [exact (fun _ _ H => H)|]. split; [exact (fun _ _ => eq_refl)|].
  pose proof (difference_and_delta keep (fun _ _ H => H) (fun _ _ => eq_refl))
    as (H1 & H2 & _).
  cbn zeta in H1. destruct H1 as (H1 & _).
  split; [exact H1|]. split; [reflexivity|exact H2].
Defined.

Section Exchanger.

Variable prettify_float : float -> float.

Lemma usd_rate_inv (net : Network) (x : string) (usd : float) :
  usd_rate net x = Ok usd ->
  exists rate, parser_rate net x = Ok rate /\ rate !! "USD" = Some usd.
Proof.
  unfold usd_rate, getitem. destruct (parser_rate net x) as [rate|]; [|done].
  cbn [mbind result_bind bind]. destruct (rate !! "USD") as [v|] eqn:E; [|done].
  intros [= ->]. eauto.
Qed.

Lemma check_rate_exists_false (net : Network) (iso_from iso_to : string) :
  check_rate_exists net iso_from iso_to = false <->
  resolvable net iso_from = false \/ resolvable net iso_to = false.
Proof.
  unfold check_rate_exists. cbn [forallb]. rewrite andb_true_r, andb_false_iff. tauto.
Qed.


End Exchanger.

(** A moment of the outside world: the Bitcoin page shows 20000, the fiat
    site knows EUR, at 1.25 USD, and nothing else. *)
Definition sample_network : Network := {|
  dedicated := fun x => if String.eqb x "BTC" then Ok 20000
                        else Raise (ParsingError "can not parse currency");
  fiat_exists := fun x => String.eqb x "EUR";
  fiat := fun x y => if String.eqb x "EUR" && String.eqb y "USD" then Ok 1.25
                     else Raise (ParsingError "some of the currencies do not exist")
|}.



End ParsersFacts.

(** ** models/db.py *)

Module Db.
Import Dt.
Open Scope Z_scope.

(** *** Python values *)

(** The objects that pass through the handler; [PObj] is an object of no
    interest to the code, such as the handler itself. *)
Inductive pyval : Type :=
| PNone
| PBool (b : bool)
| PInt (z : Z)
| PFloat (f : float)
| PStr (s : string)
| PDatetime (d : datetime)
| PObj (name : string).

(** Truth value, and [a or b]. *)
Definition truthy (v : pyval) : bool :=
  match v with
  | PNone => false
  | PBool b => b
  | PInt z => negb (z =? 0)
  | PFloat f => negb (f =? 0)%float
  | PStr s => negb (String.eqb s "")
  | PDatetime _ => true
  | PObj _ => true
  end.

Definition py_or (a b : pyval) : pyval := if truthy a then a else b.

(** [repr(v)], as far as the messages of the handler need it (the digits
    of a float are not spelled out). *)
Definition repr (v : pyval) : string :=
  match v with
  | PNone => "None"
  | PBool b => if b then "True" else "False"
  | PInt z => pretty z
  | PFloat _ => "<float>"
  | PStr s => "'" +:+ s +:+ "'"
  | PDatetime d => "datetime.datetime(" +:+ str_datetime d +:+ ")"
  | PObj name => "<" +:+ name +:+ ">"
  end.

(** An ordered dictionary with string keys: a row made by [dict_factory],
    or the keyword arguments of a call. *)
Definition pydict : Type := list (string * pyval).

(** [d[key] = value]: a known key keeps its place. *)
Fixpoint dict_set (key : string) (value : pyval) (d : pydict) : pydict :=
  match d with
  | [] => [(key, value)]
  | (k, v) :: rest =>
      if String.eqb k key then (k, value) :: rest else (k, v) :: dict_set key value rest
  end.

(** [d.get(key)], [None] when the key is missing. *)
Definition dict_get (key : string) (d : pydict) : pyval :=
  default PNone (Decorators.kwargs_get key d).

(** [key in d] *)
Definition dict_has (key : string) (d : pydict) : bool :=
  bool_decide (is_Some (Decorators.kwargs_get key d)).

(** [d[key]] for an arbitrary object [key]: the keys are strings, so only a
    string can be found; a slice is not even hashable. *)
Inductive subscript : Type :=
| Key (v : pyval)
| Slice.

Definition dict_getitem (d : pydict) (key : subscript) : result pyval :=
  match key with
  | Key (PStr k) =>
      match Decorators.kwargs_get k d with
      | Some v => Ok v
      | None => Raise (KeyError (repr (PStr k)))
      end
  | Key v => Raise (KeyError (repr v))
  | Slice => Raise (TypeError "unhashable type: 'slice'")
  end.

(** [list(d)]: the keys. *)
Definition dict_keys (d : pydict) : list string := fst <$> d.

(** [l[0]] *)
Definition first {A : Type} (l : list A) : result A :=
  match l with
  | a :: _ => Ok a
  | [] => Raise (IndexError "list index out of range")
  end.

(** *** Numbers in comparisons

    Python compares an [int] and a [float] by their exact values: the float
    is taken apart into its sign, mantissa and exponent. *)
Definition compare_float_Z (f : float) (z : Z) : option comparison :=
  match Prim2SF f with
  | S754_nan => None
  | S754_zero _ => Some (0 ?= z)
  | S754_infinity s => Some (if s then Lt else Gt)
  | S754_finite s m e =>
      let v := if s then Zneg m else Zpos m in
      Some (if 0 <=? e then v * 2 ^ e ?= z else v ?= z * 2 ^ (- e))
  end.

Definition compare_float (a b : float) : option comparison :=
  SFcompare (Prim2SF a) (Prim2SF b).

Definition not_comparable : exn :=
  TypeError "'<' not supported between these instances".

(** The order of two numbers; [None] when a NaN is involved.  Other
    objects do not compare with the numeric bounds the handler uses. *)
Definition py_compare (a b : pyval) : result (option comparison) :=
  let number (v : pyval) : option (Z + float) :=
    match v with
    | PInt z => Some (inl z)
    | PBool b => Some (inl (if b then 1 else 0))
    | PFloat f => Some (inr f)
    | _ => None
    end in
  match number a, number b with
  | Some (inl x), Some (inl y) => Ok (Some (x ?= y))
  | Some (inr x), Some (inr y) => Ok (compare_float x y)
  | Some (inr x), Some (inl y) => Ok (compare_float_Z x y)
  | Some (inl x), Some (inr y) => Ok (CompOpp <$> compare_float_Z y x)
  | _, _ => Raise not_comparable
  end.

(** [a < b] and [a <= b] *)
Definition py_lt (a b : pyval) : result bool :=
  c ← py_compare a b; Ok (bool_decide (c = Some Lt)).
Definition py_le (a b : pyval) : result bool :=
  c ← py_compare a b; Ok (bool_decide (c = Some Lt \/ c = Some Eq)).

(** *** SQLite values *)

Inductive sqlval : Type :=
| SNull
| SInteger (z : Z)
| SReal (f : float)
| SText (s : string).

(** How [sqlite3] binds a parameter; a [datetime] goes through the default
    adapter, [isoformat(' ')]. *)
Definition adapt (v : pyval) : result sqlval :=
  match v with
  | PNone => Ok SNull
  | PBool b => Ok (SInteger (if b then 1 else 0))
  | PInt z => Ok (SInteger z)
  | PFloat f => Ok (SReal f)
  | PStr s => Ok (SText s)
  | PDatetime d => Ok (SText (str_datetime d))
  | PObj _ => Raise (InterfaceError "Error binding parameter - probably unsupported type.")
  end.

(** What a column value comes back as.  None of the declared column types
    ([BOOLEAN], [DATETIME], ...) has a converter registered, so
    [PARSE_DECLTYPES] changes nothing. *)
Definition to_python (v : sqlval) : pyval :=
  match v with
  | SNull => PNone
  | SInteger z => PInt z
  | SReal f => PFloat f
  | SText s => PStr s
  end.

(** A decimal integer literal. *)
Fixpoint digits_value (s : string) (acc : Z) : option Z :=
  match s with
  | EmptyString => Some acc
  | String c rest =>
      match digit c with
      | Some a => digits_value rest (10 * acc + a)
      | None => None
      end
  end.

Definition integer_literal (s : string) : option Z :=
  match s with
  | EmptyString => None
  | String "-" (String _ _ as rest) => Z.opp <$> digits_value rest 0
  | String "+" (String _ _ as rest) => digits_value rest 0
  | _ => digits_value s 0
  end.

(** [column = ?] for a column that holds the integer [z]: the parameter is
    first given the column's INTEGER affinity, which turns a text that spells
    an integer into that integer (of the numeric spellings only decimal
    integers are modelled); values of different classes are not equal. *)
Definition equals_integer (z : Z) (p : sqlval) : bool :=
  match p with
  | SNull => false
  | SInteger z' => z =? z'
  | SReal f => bool_decide (compare_float_Z f z = Some Eq)
  | SText s =>
      match integer_literal s with
      | Some z' => z =? z'
      | None => false
      end
  end.

(** *** The tables

    The rows of the four tables [setup_db] creates, and the database behind
    the connection.  [sequence] is AUTOINCREMENT's record of the largest
    prediction id ever handed out. *)
Record user_row : Type := {
  u_user_id : Z;
  u_is_active : sqlval;
  u_is_pro : sqlval;
  u_is_staff : sqlval;
  u_to_notify_by_experts : sqlval;
  u_timezone : sqlval;
  u_language : sqlval
}.

Record rate_row : Type := {
  r_user_id : Z;
  r_iso : sqlval;
  r_start_value : sqlval;
  r_percent_delta : sqlval;
  r_check_times : sqlval
}.

Record prediction_row : Type := {
  p_id : Z;
  p_user_id : sqlval;
  p_iso_from : sqlval;
  p_iso_to : sqlval;
  p_value : sqlval;
  p_up_to_date : sqlval;
  p_is_by_experts : sqlval;
  p_real_value : sqlval
}.

Record reaction_row : Type := {
  x_pred_id : Z;
  x_user_id : Z;
  x_reaction : Z
}.

Record database : Type := {
  users : list user_row;
  users_rates : list rate_row;
  currency_predictions : list prediction_row;
  predictions_reactions : list reaction_row;
  sequence : Z
}.

(** [sqlite3.connect] on a new file, followed by [setup_db].  The connection
    never issues [PRAGMA foreign_keys = ON], and SQLite does not enforce
    FOREIGN KEY clauses unless asked to: the clauses of the schema, the
    [ON DELETE CASCADE] ones included, have no effect on any statement
    below. *)
Definition empty_database : database :=
  {| users := []; users_rates := []; currency_predictions := [];
     predictions_reactions := []; sequence := 0 |}.

(** The column names, as [cursor.description] reports them. *)
Definition users_columns : list string :=
  ["user_id"; "is_active"; "is_pro"; "is_staff"; "to_notify_by_experts";
   "timezone"; "language"].
Definition predictions_columns : list string :=
  ["id"; "user_id"; "iso_from"; "iso_to"; "value"; "up_to_date";
   "is_by_experts"; "real_value"].

Definition user_values (u : user_row) : list sqlval :=
  [SInteger (u_user_id u); u_is_active u; u_is_pro u; u_is_staff u;
   u_to_notify_by_experts u; u_timezone u; u_language u].
Definition prediction_values (p : prediction_row) : list sqlval :=
  [SInteger (p_id p); p_user_id p; p_iso_from p; p_iso_to p; p_value p;
   p_up_to_date p; p_is_by_experts p; p_real_value p].

(** [dict_factory(cursor, row)]:
    [{col[0]: row[idx] for idx, col in enumerate(cursor.description)}] *)
Definition dict_factory (description : list string) (row : list sqlval) : pydict :=
  foldl (fun d '(name, v) => dict_set name (to_python v) d) []
        (zip description row).

(** *** The handler's monad

    A method runs on the database, may change it, and returns or raises;
    what it changed before raising stays changed. *)
Definition M (A : Type) : Type := database -> database * result A.

#[global] Instance M_ret : MRet M := fun _ a db => (db, Ok a).
#[global] Instance M_bind : MBind M := fun _ _ k m db =>
  match m db with
  | (db', Ok a) => k a db'
  | (db', Raise e) => (db', Raise e)
  end.

Definition lift {A : Type} (r : result A) : M A := fun db => (db, r).
Definition raise {A : Type} (e : exn) : M A := lift (Raise e).
Definition query {A : Type} (f : database -> A) : M A := fun db => (db, Ok (f db)).
Definition modify (f : database -> database) : M unit := fun db => (f db, Ok tt).

(** [try: m  except ...: raise handler(e)] *)
Definition try_except {A : Type} (m : M A) (handler : exn -> exn) : M A := fun db =>
  match m db with
  | (db', Ok a) => (db', Ok a)
  | (db', Raise e) => (db', Raise (handler e))
  end.

(** [for x in l: body(x)] *)
Fixpoint for_each {A : Type} (l : list A) (body : A -> M unit) : M unit :=
  match l with
  | [] => mret tt
  | x :: rest => body x;; for_each rest body
  end.

(** [[f(x) for x in l]] *)
Fixpoint comprehension {A B : Type} (l : list A) (f : A -> M B) : M (list B) :=
  match l with
  | [] => mret []
  | x :: rest => y ← f x; ys ← comprehension rest f; mret (y :: ys)
  end.

(** *** SQLite's [datetime()]

    [datetime(text)] reads [YYYY-MM-DD], then, after blanks or [T]s,
    [HH:MM[:SS[.fff]]], then an optional zone [Z] or [+HH:MM]; anything else
    gives NULL.  Of the other things [datetime()] accepts (Julian day
    numbers, bare times, modifiers) none is modelled: they count as NULL.
    The result is kept as the number of seconds it denotes, which orders as
    the text [YYYY-MM-DD HH:MM:SS] does. *)
Definition strict_two (lo hi : Z) (s : string) : option (Z * string) :=
  head (two_digits (between lo hi) s).

Definition expect (c : ascii) (s : string) : option string :=
  match s with
  | String c' rest => if Ascii.eqb c c' then Some rest else None
  | EmptyString => None
  end.

Fixpoint skip (p : ascii -> bool) (s : string) : string :=
  match s with
  | String c rest => if p c then skip p rest else s
  | EmptyString => s
  end.

(** The digits after the decimal point: their value and their number. *)
Fixpoint decimals (s : string) (acc : Z) (n : nat) : Z * nat * string :=
  match s with
  | String c rest =>
      match digit c with
      | Some a => decimals rest (10 * acc + a) (S n)
      | None => (acc, n, s)
      end
  | EmptyString => (acc, n, s)
  end.

(** Days, counted as [toordinal] does. *)
Definition sqlite_date (s : string) : option (Z * string) :=
  '(y, s) ← head (four_digits s);
  s ← expect "-" s;
  '(m, s) ← strict_two 1 12 s;
  s ← expect "-" s;
  '(d, s) ← strict_two 1 31 s;
  Some (days_before_year y + days_before_month y m + d, s).

(** Milliseconds into the day; the seconds are rounded to the millisecond. *)
Definition sqlite_time (s : string) : option (Z * string) :=
  '(h, s) ← strict_two 0 24 s;
  s ← expect ":" s;
  '(m, s) ← strict_two 0 59 s;
  let hm := h * 3600000 + m * 60000 in
  match expect ":" s with
  | None => Some (hm, s)
  | Some s =>
      '(sec, s) ← strict_two 0 59 s;
      match s with
      | String "." (String c _ as frac) =>
          if bool_decide (is_Some (digit c)) then
            let '(v, n, s) := decimals frac 0 0 in
            let scale := 10 ^ Z.of_nat n in
            Some (hm + (2 * 1000 * (sec * scale + v) + scale) / (2 * scale), s)
          else Some (hm + sec * 1000, s)
      | _ => Some (hm + sec * 1000, s)
      end
  end.

(** Minutes east of UTC; the text must end here. *)
Definition sqlite_zone (s : string) : option Z :=
  let s := skip is_space s in
  let done (s : string) (tz : Z) :=
    if String.eqb (skip is_space s) "" then Some tz else None in
  match s with
  | EmptyString => Some 0
  | String c rest =>
      if Ascii.eqb c "Z" || Ascii.eqb c "z" then done rest 0
      else if Ascii.eqb c "+" || Ascii.eqb c "-" then
        '(h, s) ← strict_two 0 14 rest;
        s ← expect ":" s;
        '(m, s) ← strict_two 0 59 s;
        done s ((if Ascii.eqb c "-" then -1 else 1) * (h * 60 + m))
      else None
  end.

Definition sqlite_datetime (v : sqlval) : option Z :=
  match v with
  | SText s =>
      '(days, s) ← sqlite_date s;
      let s := skip (fun c => is_space c || Ascii.eqb c "T") s in
      '(ms, zone) ← match sqlite_time s with
                    | Some r => Some r
                    | None => if String.eqb s "" then Some (0, s) else None
                    end;
      tz ← sqlite_zone zone;
      Some ((days * 86400000 + ms - tz * 60000) / 1000)
  | _ => None
  end.

(** [datetime()], the current time, from the clock reading [utcnow]. *)
Definition sqlite_now (utcnow : datetime) : Z :=
  ((toordinal utcnow * 24 + hour utcnow) * 60 + minute utcnow) * 60 + second utcnow.

(** [datetime(up_to_date) > datetime()]; a NULL on the left is not true. *)
Definition still_future (utcnow : datetime) (p : prediction_row) : bool :=
  match sqlite_datetime (p_up_to_date p) with
  | Some t => sqlite_now utcnow <? t
  | None => false
  end.

(** *** The statements *)

(** What [self.execute(sql, params)] returns for a SELECT: the rows as
    [dict_factory] makes them. *)
Definition fetchall {A : Type} (description : list string) (values : A -> list sqlval)
    (rows : list A) : list pydict :=
  (fun r => dict_factory description (values r)) <$> rows.

(** [SELECT user_id FROM users WHERE user_id = ?] *)
Definition select_user_id (p : sqlval) : M (list pydict) :=
  query (fun db =>
    fetchall ["user_id"] (fun u => [SInteger (u_user_id u)])
      (filter (fun u => equals_integer (u_user_id u) p = true) (users db))).

(** [SELECT * FROM users WHERE user_id = ?] *)
Definition select_user (p : sqlval) : M (list pydict) :=
  query (fun db =>
    fetchall users_columns user_values
      (filter (fun u => equals_integer (u_user_id u) p = true) (users db))).

(** [INSERT INTO users (...) VALUES (...)]: the CHECK constraints on
    [timezone] and [language], then [UNIQUE(user_id) ON CONFLICT REPLACE].
    The length of the language is taken in bytes: its length in characters
    for the language codes of the bot, which are in ASCII. *)
Definition insert_user (user_id : Z) (is_active is_pro is_staff to_notify : sqlval)
    (timezone : Z) (language : string) : M unit := fun db =>
  if negb (between (-11) 12 timezone)
  then (db, Raise (IntegrityError "CHECK constraint failed: timezone"))
  else if negb (between 2 3 (Z.of_nat (String.length language)))
  then (db, Raise (IntegrityError "CHECK constraint failed: language"))
  else
    ({| users := filter (fun u => u_user_id u <> user_id) (users db)
                 ++ [{| u_user_id := user_id; u_is_active := is_active;
                        u_is_pro := is_pro; u_is_staff := is_staff;
                        u_to_notify_by_experts := to_notify;
                        u_timezone := SInteger timezone;
                        u_language := SText language |}];
        users_rates := users_rates db;
        currency_predictions := currency_predictions db;
        predictions_reactions := predictions_reactions db;
        sequence := sequence db |}, Ok tt).

(** [SELECT u_r.iso, u_r.start_value, u_r.percent_delta, u_r.check_times
     FROM users u JOIN users_rates u_r
     ON u.user_id = u_r.user_id AND u.user_id = ?] *)
Definition select_user_rates (p : sqlval) : M (list pydict) :=
  query (fun db =>
    fetchall ["iso"; "start_value"; "percent_delta"; "check_times"]
      (fun r => [r_iso r; r_start_value r; r_percent_delta r; r_check_times r])
      (u ← users db;
       r ← users_rates db;
       if (u_user_id u =? r_user_id r) && equals_integer (u_user_id u) p
       then [r] else [])).

(** [SELECT id FROM currency_predictions WHERE id = ?] *)
Definition select_prediction_id (p : sqlval) : M (list pydict) :=
  query (fun db =>
    fetchall ["id"] (fun r => [SInteger (p_id r)])
      (filter (fun r => equals_integer (p_id r) p = true) (currency_predictions db))).

(** [SELECT id, user_id, ..., real_value FROM currency_predictions
     WHERE id = ?] *)
Definition select_prediction (p : sqlval) : M (list pydict) :=
  query (fun db =>
    fetchall predictions_columns prediction_values
      (filter (fun r => equals_integer (p_id r) p = true) (currency_predictions db))).

(** [INSERT INTO currency_predictions (user_id, iso_from, iso_to, value,
     up_to_date, is_by_experts) VALUES (...)]: the id is one more than the
    largest ever used, [real_value] is NULL. *)
Definition insert_prediction (user_id : Z) (iso_from iso_to : string) (value : float)
    (up_to_date : string) (is_by_experts : bool) : M unit :=
  modify (fun db =>
    let id := 1 + foldr Z.max (sequence db) (p_id <$> currency_predictions db) in
    {| users := users db;
       users_rates := users_rates db;
       currency_predictions := currency_predictions db
         ++ [{| p_id := id; p_user_id := SInteger user_id;
                p_iso_from := SText iso_from; p_iso_to := SText iso_to;
                p_value := SReal value; p_up_to_date := SText up_to_date;
                p_is_by_experts := SInteger (if is_by_experts then 1 else 0);
                p_real_value := SNull |}];
       predictions_reactions := predictions_reactions db;
       sequence := id |}).

(** [DELETE FROM currency_predictions WHERE id = ?] *)
Definition delete_from_predictions (pred_id : Z) : M unit :=
  modify (fun db =>
    {| users := users db;
       users_rates := users_rates db;
       currency_predictions :=
         filter (fun r => p_id r <> pred_id) (currency_predictions db);
       predictions_reactions := predictions_reactions db;
       sequence := sequence db |}).

(** [DELETE FROM predictions_reactions WHERE pred_id = ? and user_id = ?] *)
Definition delete_reaction (pred_id user_id : Z) : M unit :=
  modify (fun db =>
    {| users := users db;
       users_rates := users_rates db;
       currency_predictions := currency_predictions db;
       predictions_reactions :=
         filter (fun x => ~ (x_pred_id x = pred_id /\ x_user_id x = user_id))
                (predictions_reactions db);
       sequence := sequence db |}).

(** [INSERT INTO predictions_reactions VALUES (?, ?, ?)] *)
Definition insert_reaction (pred_id user_id : Z) (reaction : bool) : M unit :=
  modify (fun db =>
    {| users := users db;
       users_rates := users_rates db;
       currency_predictions := currency_predictions db;
       predictions_reactions := predictions_reactions db
         ++ [{| x_pred_id := pred_id; x_user_id := user_id;
                x_reaction := if reaction then 1 else 0 |}];
       sequence := sequence db |}).

(** [SELECT COUNT(reaction) FROM predictions_reactions
     where pred_id = ? AND reaction = ?] *)
Definition count_reactions (pred_id reaction : Z) : M (list pydict) :=
  query (fun db =>
    [dict_factory ["COUNT(reaction)"]
       [SInteger (Z.of_nat (length
          (filter (fun x => x_pred_id x = pred_id /\ x_reaction x = reaction)
                  (predictions_reactions db))))]]).

(** [UPDATE currency_predictions SET <k> = ? WHERE id = ?]: the name [k] is
    pasted into the statement, and a name that is no column makes SQLite
    raise [OperationalError].  The value is stored as it was bound (the
    conversions of column affinity are not modelled).  The id is the row's
    key: a new id must be an integer no other row has. *)
Definition set_column (k : string) (v : sqlval) (r : prediction_row)
    : option prediction_row :=
  let upd (user_id iso_from iso_to value up_to_date is_by_experts real_value : sqlval) :=
    Some {| p_id := p_id r; p_user_id := user_id; p_iso_from := iso_from;
            p_iso_to := iso_to; p_value := value; p_up_to_date := up_to_date;
            p_is_by_experts := is_by_experts; p_real_value := real_value |} in
  if String.eqb k "user_id"
  then upd v (p_iso_from r) (p_iso_to r) (p_value r) (p_up_to_date r)
           (p_is_by_experts r) (p_real_value r)
  else if String.eqb k "iso_from"
  then upd (p_user_id r) v (p_iso_to r) (p_value r) (p_up_to_date r)
           (p_is_by_experts r) (p_real_value r)
  else if String.eqb k "iso_to"
  then upd (p_user_id r) (p_iso_from r) v (p_value r) (p_up_to_date r)
           (p_is_by_experts r) (p_real_value r)
  else if String.eqb k "value"
  then upd (p_user_id r) (p_iso_from r) (p_iso_to r) v (p_up_to_date r)
           (p_is_by_experts r) (p_real_value r)
  else if String.eqb k "up_to_date"
  then upd (p_user_id r) (p_iso_from r) (p_iso_to r) (p_value r) v
           (p_is_by_experts r) (p_real_value r)
  else if String.eqb k "is_by_experts"
  then upd (p_user_id r) (p_iso_from r) (p_iso_to r) (p_value r) (p_up_to_date r)
           v (p_real_value r)
  else if String.eqb k "real_value"
  then upd (p_user_id r) (p_iso_from r) (p_iso_to r) (p_value r) (p_up_to_date r)
           (p_is_by_experts r) v
  else None.

Definition with_predictions (db : database) (rows : list prediction_row) : database :=
  {| users := users db; users_rates := users_rates db;
     currency_predictions := rows;
     predictions_reactions := predictions_reactions db;
     sequence := sequence db |}.

(** [UPDATE currency_predictions SET <k> = ? WHERE id = ?], for a keyword
    written as the table writes its columns and a value as the handler
    stores it; any other keyword is taken for no column of the table. *)
Definition update_prediction (k : string) (v : sqlval) (id : Z) : M unit := fun db =>
  if String.eqb k "id" then
    match v with
    | SInteger new =>
        if bool_decide (Exists (fun r => p_id r = new /\ p_id r <> id)
                               (currency_predictions db))
        then (db, Raise (IntegrityError "UNIQUE constraint failed: currency_predictions.id"))
        else (with_predictions db
                ((fun r => if p_id r =? id
                           then {| p_id := new; p_user_id := p_user_id r;
                                   p_iso_from := p_iso_from r; p_iso_to := p_iso_to r;
                                   p_value := p_value r; p_up_to_date := p_up_to_date r;
                                   p_is_by_experts := p_is_by_experts r;
                                   p_real_value := p_real_value r |}
                           else r) <$> currency_predictions db), Ok tt)
    | _ => (db, Raise (IntegrityError "datatype mismatch"))
    end
  else if bool_decide (k ∈ predictions_columns) then
    (with_predictions db
       ((fun r => if p_id r =? id then default r (set_column k v r) else r)
          <$> currency_predictions db), Ok tt)
  else (db, Raise (OperationalError ("no such column: " +:+ k))).

(** [CAST(TOTAL(r.reaction) AS INT)] over the reactions joined to the
    prediction: a like counts [1] and a dislike [0]; a prediction without
    reactions is joined to one all-NULL row and totals [0]. *)
Definition likes_diff (db : database) (p : prediction_row) : Z :=
  foldr Z.add 0
    (x_reaction <$> filter (fun x => x_pred_id x = p_id p) (predictions_reactions db)).

(** [ORDER BY likes_diff DESC].  SQL leaves the order of equal rows open;
    here they keep the order of the groups, which is the order of the
    table. *)
Fixpoint insert_desc (x : Z * Z) (l : list (Z * Z)) : list (Z * Z) :=
  match l with
  | [] => [x]
  | y :: rest => if x.2 <? y.2 then y :: insert_desc x rest else x :: y :: rest
  end.

Definition order_desc (l : list (Z * Z)) : list (Z * Z) := foldr insert_desc [] l.

(** [SELECT p.id, CAST(TOTAL(r.reaction) AS INT) likes_diff
     FROM currency_predictions p LEFT OUTER JOIN predictions_reactions r
     ON p.id = r.pred_id
     WHERE datetime(p.up_to_date) > datetime()
     GROUP BY p.id ORDER BY likes_diff DESC] *)
Definition max_liked_rows (utcnow : datetime) (db : database) : list (Z * Z) :=
  order_desc ((fun p => (p_id p, likes_diff db p))
                <$> filter (fun p => still_future utcnow p = true)
                           (currency_predictions db)).

Definition select_max_liked (utcnow : datetime) : M (list pydict) :=
  query (fun db =>
    fetchall ["id"; "likes_diff"] (fun '(id, n) => [SInteger id; SInteger n])
      (max_liked_rows utcnow db)).

(** *** The methods of [DBHandler] *)

(** The premium value [add_user] is given: a flag, or the moment premium
    ends. *)
Inductive premium : Type :=
| Flag (b : bool)
| Until (d : datetime).

Definition sql_bool (b : bool) : sqlval := SInteger (if b then 1 else 0).

(** [add_user]: [is_pro.strftime('%Y-%m-%d %H:%M:%S') if
    isinstance(is_pro, datetime) else is_pro] is what gets stored. *)
Definition add_user (user_id : Z) (is_active : bool) (is_pro : premium)
    (is_staff to_notify_by_experts : bool) (timezone : Z) (language : string) : M bool :=
  insert_user user_id (sql_bool is_active)
    match is_pro with
    | Until d => SText (strftime_ymd_hms d)
    | Flag b => sql_bool b
    end
    (sql_bool is_staff) (sql_bool to_notify_by_experts) timezone language;;
  mret true.

(** [check_user_exists]: [len(res) > 0] *)
Definition check_user_exists (user_id : pyval) : M bool :=
  p ← lift (adapt user_id);
  res ← select_user_id p;
  mret (0 <? length res)%nat.

Definition check_prediction_exists (pred_id : pyval) : M bool :=
  p ← lift (adapt pred_id);
  res ← select_prediction_id p;
  mret (0 <? length res)%nat.

(** [get_user_rates]:
    [[tuple(list(rate[:-1]) + [rate[-1].split(',')]) for rate in rows]].
    A row is a dictionary, so [rate[:-1]] raises; the rest of the expression
    is kept for its shape only. *)
Definition get_user_rates (user_id : pyval) : M (list (list pyval)) :=
  p ← lift (adapt user_id);
  rows ← select_user_rates p;
  comprehension rows (fun rate =>
    head ← lift (dict_getitem rate Slice);
    last ← lift (dict_getitem rate (Key (PInt (-1))));
    mret [head; last]).

(** What [get_user] returns for a user it finds. *)
Record profile : Type := {
  pr_user_id : pyval;
  pr_is_active : pyval;
  pr_is_pro : pyval;
  pr_is_staff : pyval;
  pr_to_notify_by_experts : pyval;
  pr_rates : list (list pyval);
  pr_timezone : pyval;
  pr_language : pyval
}.

(** [get_user].  [list(row)] of a dictionary is the list of its keys, the
    column names; they are strings, so the [isinstance(is_pro, str)] branch
    is the one taken. *)
Definition get_user (user_id : Z) : M (option profile) :=
  found ← check_user_exists (PInt user_id);
  if found : bool then
    rows ← select_user (SInteger user_id);
    row ← lift (first rows);
    match dict_keys row with
    | [user_id; is_active; is_pro; is_staff; to_notify_by_experts; timezone; language] =>
        rates ← get_user_rates (PStr user_id);
        is_pro ← lift (strptime is_pro "%Y-%m-%d %H:%M:%S" format_ymd_hms);
        mret (Some {| pr_user_id := PStr user_id; pr_is_active := PStr is_active;
                      pr_is_pro := PDatetime is_pro; pr_is_staff := PStr is_staff;
                      pr_to_notify_by_experts := PStr to_notify_by_experts;
                      pr_rates := rates; pr_timezone := PStr timezone;
                      pr_language := PStr language |})
    | _ => raise (ValueError "wrong number of values to unpack")
    end
  else mret None.

(** [get_prediction]: the starred assignment iterates over the row, again a
    dictionary, and binds the three last column names. *)
Definition get_prediction (pred_id : pyval) : M (option (list pyval)) :=
  found ← check_prediction_exists pred_id;
  if found : bool then
    p ← lift (adapt pred_id);
    rows ← select_prediction p;
    row ← lift (first rows);
    let keys := dict_keys row in
    match reverse keys with
    | real_value :: is_by_experts :: up_to_date :: other_data =>
        up_to_date ← lift (strptime up_to_date "%Y-%m-%d %H:%M:%S%z" format_ymd_hms_z);
        mret (Some ((PStr <$> reverse other_data)
                    ++ [PDatetime up_to_date; PStr is_by_experts; PStr real_value]))
    | _ => raise (ValueError "not enough values to unpack")
    end
  else mret None.

(** A method under [@rangetest]: the wrapper checks the arguments of the
    call, then runs the method. *)
Definition decorated {A : Type} (checked : result (M A)) : M A := fun db =>
  match checked with
  | Ok method => method db
  | Raise e => (db, Raise e)
  end.

Definition zero_to_inf : pyval * pyval := (PInt 0, PFloat infinity).

(** [add_prediction], called with positional arguments. *)
Definition add_prediction (utcnow : datetime) (user_id : Z) (iso_from iso_to : string)
    (value : float) (up_to_date : datetime) (is_by_experts : bool) : M bool :=
  decorated
    (Decorators.wrapper py_lt py_le repr true [("value", zero_to_inf)]
       ["self"; "user_id"; "iso_from"; "iso_to"; "value"; "up_to_date"; "is_by_experts"]
       (fun _ _ => Ok (
          found ← check_user_exists (PInt user_id);
          if found : bool then
            in_future ← lift (check_datetime_in_future utcnow up_to_date 0);
            lift (py_assert in_future "can't create prediction with past `up_to_date`");;
            insert_prediction user_id iso_from iso_to value
              (str_datetime up_to_date) is_by_experts;;
            mret true
          else mret false))
       [PObj "self"; PInt user_id; PStr iso_from; PStr iso_to; PFloat value;
        PDatetime up_to_date; PBool is_by_experts]
       []).

(** [delete_prediction] *)
Definition delete_prediction (pred_id : Z) : M bool :=
  delete_from_predictions pred_id;;
  mret true.

(** [toggle_prediction_reaction]; [if_like] is [True], [False] or [None]. *)
Definition toggle_prediction_reaction (pred_id user_id : Z) (if_like : option bool)
    : M (option bool) :=
  found ← check_prediction_exists (PInt pred_id);
  found ← (if found : bool then check_user_exists (PInt user_id) else mret false);
  if found : bool then
    delete_reaction pred_id user_id;;
    match if_like with
    | Some reaction => insert_reaction pred_id user_id reaction
    | None => mret tt
    end;;
    mret (Some true)
  else mret None.

(** [get_number_likes] and [get_number_dislikes]: [execute(...)[0][0]]. *)
Definition get_number (reaction : Z) (pred_id : Z) : M (option pyval) :=
  found ← check_prediction_exists (PInt pred_id);
  if found : bool then
    rows ← count_reactions pred_id reaction;
    row ← lift (first rows);
    n ← lift (dict_getitem row (Key (PInt 0)));
    mret (Some n)
  else mret None.

Definition get_number_likes : Z -> M (option pyval) := get_number 1.
Definition get_number_dislikes : Z -> M (option pyval) := get_number 0.

(** [get_max_liked_predictions]:
    [[self.get_prediction(pred_data[0]) for pred_data in rows]] *)
Definition get_max_liked_predictions (utcnow : datetime) : M (list (option (list pyval))) :=
  rows ← select_max_liked utcnow;
  comprehension rows (fun pred_data =>
    id ← lift (dict_getitem pred_data (Key (PInt 0)));
    get_prediction id).

(** [x is None] *)
Definition is_none (v : pyval) : bool :=
  match v with PNone => true | _ => false end.

(** The [except] clauses of the [change_*] methods, for the loop variables
    [k] and [v] at the moment of the exception. *)
Definition as_value_error (k : string) (v : pyval) (e : exn) : exn :=
  match e with
  | OperationalError _ => ValueError ("invalid argument " +:+ repr (PStr k))
  | IntegrityError _ => ValueError ("invalid value " +:+ repr v)
  | _ => e
  end.

(** The body of [change_prediction]. *)
Definition change_prediction_body (utcnow : datetime) (id : Z) (kwargs : pydict)
    : M (option bool) :=
  found ← check_prediction_exists (PInt id);
  if found : bool then
    lift (py_assert
            (is_none (py_or (dict_get "iso_from" kwargs) (dict_get "iso_to" kwargs)))
            "can't change isos of prediction");;
    lift (py_assert (negb (dict_has "user_id" kwargs))
            "cant't change `user_id` of prediction");;
    kwargs ← match dict_get "up_to_date" kwargs with
             | PDatetime up_to_date =>
                 in_future ← lift (check_datetime_in_future utcnow up_to_date 0);
                 lift (py_assert in_future "can't change `up_to_date` to past datetime");;
                 mret (dict_set "up_to_date" (PStr (str_datetime up_to_date)) kwargs)
             | _ => mret kwargs
             end;
    for_each kwargs (fun '(k, v) =>
      try_except (p ← lift (adapt v); update_prediction k p id) (as_value_error k v));;
    mret (Some true)
  else mret None.

(** [change_prediction(id, **kwargs)], under
    [@rangetest(value=(0, inf), real_value=(0, inf))].  A keyword that names
    one of the positional parameters is rejected when the method is called. *)
Definition change_prediction (utcnow : datetime) (id : Z) (kwargs : pydict)
    : M (option bool) :=
  decorated
    (Decorators.wrapper py_lt py_le repr true
       [("value", zero_to_inf); ("real_value", zero_to_inf)]
       ["self"; "id"]
       (fun _ kwargs =>
          if dict_has "self" kwargs || dict_has "id" kwargs
          then Raise (TypeError "got multiple values for argument")
          else Ok (change_prediction_body utcnow id kwargs))
       [PObj "self"; PInt id] kwargs).

End Db.

(** ** Properties of models/db.py *)

Module DbFacts.
Import Dt Db.
Open Scope Z_scope.

(** Unfolds the plumbing of the handler's monad. *)
Ltac run :=
  unfold mbind, mret, M_bind, M_ret, lift, raise, query, modify, decorated in *;
  cbn [fst snd] in *.

Lemma filter_nonempty {A : Type} (P : A -> Prop) `{forall x, Decision (P x)}
    (l : list A) :
  Exists P l -> exists x rest, filter P l = x :: rest.
Proof.
  intros (x & Hx & HP)%Exists_exists.
  assert (Hin : x ∈ filter P l) by (by apply list_elem_of_filter).
  destruct (filter P l); [by apply elem_of_nil in Hin | eauto].
Qed.

Lemma select_by_id {A : Type} (key : A -> Z) (id : Z) (l : list A) :
  Exists (fun r => key r = id) l ->
  exists r rest,
    filter (fun r => equals_integer (key r) (SInteger id) = true) l = r :: rest.
Proof.
  intros Hex. apply filter_nonempty.
  eapply Exists_impl; [exact Hex|]. intros r <-. cbn. apply Z.eqb_refl.
Qed.

Lemma check_user_exists_true (db : database) (uid : Z) :
  Exists (fun u => u_user_id u = uid) (users db) ->
  check_user_exists (PInt uid) db = (db, Ok true).
Proof.
  intros (u & rest & E)%(select_by_id u_user_id).
  unfold check_user_exists, select_user_id, fetchall. run. cbn [adapt].
  by rewrite E.
Qed.

Lemma check_prediction_exists_true (db : database) (id : Z) :
  Exists (fun r => p_id r = id) (currency_predictions db) ->
  check_prediction_exists (PInt id) db = (db, Ok true).
Proof.
  intros (r & rest & E)%(select_by_id p_id).
  unfold check_prediction_exists, select_prediction_id, fetchall. run. cbn [adapt].
  by rewrite E.
Qed.

Lemma equals_integer_column_name (z : Z) :
  equals_integer z (SText "user_id") = false.
Proof.
  unfold equals_integer.
  by replace (integer_literal "user_id") with (@None Z) by (by vm_compute).
Qed.

(** No user has the text ['user_id'] as its id, so the rates query that
    [get_user] issues finds nothing. *)
Lemma no_rates_for_column_name (us : list user_row) (rs : list rate_row) :
  (u ← us; r ← rs;
   if (u_user_id u =? r_user_id r) && equals_integer (u_user_id u) (SText "user_id")
   then [r] else []) = [].
Proof.
  induction us as [|u us IHu]; [done|]. cbn [mbind list_bind].
  rewrite IHu, app_nil_r. clear IHu.
  induction rs as [|r rs IHr]; [done|]. cbn [mbind list_bind].
  by rewrite IHr, equals_integer_column_name, andb_false_r.
Qed.

Lemma get_user_rates_of_column_name (db : database) :
  get_user_rates (PStr "user_id") db = (db, Ok []).
Proof.
  unfold get_user_rates, select_user_rates, fetchall. run. cbn [adapt].
  by rewrite no_rates_for_column_name.
Qed.

(** [get_user] raises for every user that exists: the names it unpacks from
    the row are the column names, and ['is_pro'] is no timestamp. *)
Lemma get_user_existing (db : database) (uid : Z) :
  Exists (fun u => u_user_id u = uid) (users db) ->
  get_user uid db =
    (db, Raise (ValueError "time data 'is_pro' does not match format '%Y-%m-%d %H:%M:%S'")).
Proof.
  intros Hex. unfold get_user.
  pose proof (check_user_exists_true db uid Hex) as Hc.
  unfold mbind at 1. unfold M_bind. rewrite Hc.
  unfold select_user, fetchall. run.
  destruct (select_by_id u_user_id uid (users db) Hex) as (u & rest & Hne).
  rewrite Hne. cbn [fmap list_fmap first].
  change (dict_keys (dict_factory users_columns (user_values u))) with users_columns.
  cbn [users_columns]. rewrite (get_user_rates_of_column_name db).
  by replace (strptime "is_pro" "%Y-%m-%d %H:%M:%S" format_ymd_hms)
    with (Raise (A:=datetime) (ValueError
            "time data 'is_pro' does not match format '%Y-%m-%d %H:%M:%S'"))
    by (by vm_compute).
Qed.

(** What [add_user] leaves in the table. *)
Lemma add_user_ok (db : database) (uid : Z) (is_active : bool) (is_pro : premium)
    (is_staff to_notify : bool) (tz : Z) (lang : string) :
  -11 <= tz <= 12 ->
  (2 <= String.length lang <= 3)%nat ->
  exists db',
    add_user uid is_active is_pro is_staff to_notify tz lang db = (db', Ok true)
    /\ Exists (fun u => u_user_id u = uid) (users db').
Proof.
  intros Htz Hlang. unfold add_user, insert_user. run. unfold between.
  destruct (_ <=? tz) eqn:E1; [|apply Z.leb_gt in E1; lia].
  destruct (tz <=? _) eqn:E2; [|apply Z.leb_gt in E2; lia].
  destruct (2 <=? _) eqn:E3; [|apply Z.leb_gt in E3; lia].
  destruct (_ <=? 3) eqn:E4; [|apply Z.leb_gt in E4; lia].
  cbn. eexists. split; [reflexivity|]. cbn.
  apply Exists_app. right. by constructor.
Qed.

(** C1. For every database, user id and field tuple that the table accepts
    (time zone in [-11, 12], language of two or three letters; the premium
    value a flag or a timestamp), [add_user] succeeds and the [get_user] that
    follows does not return the stored profile: it raises [ValueError]. *)
Theorem get_user_after_add_user_raises (db : database) (uid : Z) (is_active : bool)
    (is_pro : premium) (is_staff to_notify : bool) (tz : Z) (lang : string) :
  -11 <= tz <= 12 ->
  (2 <= String.length lang <= 3)%nat ->
  exists db',
    add_user uid is_active is_pro is_staff to_notify tz lang db = (db', Ok true)
    /\ get_user uid db' =
         (db', Raise (ValueError
                 "time data 'is_pro' does not match format '%Y-%m-%d %H:%M:%S'")).
Proof.
  intros Htz Hlang.
  destruct (add_user_ok db uid is_active is_pro is_staff to_notify tz lang Htz Hlang)
    as (db' & Hadd & Hex).
  exists db'. split; [exact Hadd|]. by apply get_user_existing.
Qed.

(** New Year's Eve of 2021, 23:59:59: the end of a premium period. *)
Definition premium_end : datetime := mk_datetime 2021 12 31 23 59 59 0 None.

Lemma get_user_after_add_user_witness :
  -11 <= 3 <= 12 /\ (2 <= String.length "en" <= 3)%nat /\
  exists db',
    add_user 7 true (Until premium_end) false true 3 "en" empty_database = (db', Ok true)
    /\ get_user 7 db' =
         (db', Raise (ValueError
                 "time data 'is_pro' does not match format '%Y-%m-%d %H:%M:%S'")).
Proof.
  split; [lia|]. split; [simpl; lia|].
  apply (get_user_after_add_user_raises empty_database 7 true (Until premium_end)
           false true 3 "en"); [lia | simpl; lia].
Defined.

(** *** Predictions and reactions *)

Lemma order_desc_cons (x : Z * Z) (l : list (Z * Z)) :
  exists y rest, order_desc (x :: l) = y :: rest.
Proof.
  unfold order_desc. cbn [foldr]. destruct (foldr insert_desc [] l) as [|y rest].
  - by exists x, [].
  - cbn [insert_desc]. destruct (x.2 <? y.2); eauto.
Qed.

(** [get_max_liked_predictions] returns only when no prediction is still in
    the future; otherwise the first row of the query, a dictionary, is
    subscripted with [0] and the call raises [KeyError]. *)
Lemma get_max_liked_predictions_outcome (utcnow : datetime) (db : database) :
  get_max_liked_predictions utcnow db =
    (db, match filter (fun p => still_future utcnow p = true) (currency_predictions db) with
         | [] => Ok []
         | _ :: _ => Raise (KeyError "0")
         end).
Proof.
  unfold get_max_liked_predictions, select_max_liked, fetchall, max_liked_rows. run.
  destruct (filter _ (currency_predictions db)) as [|p ps]; [done|].
  cbn [fmap list_fmap].
  destruct (order_desc_cons (p_id p, likes_diff db p)
              ((fun p => (p_id p, likes_diff db p)) <$> ps))
    as ([id n] & rest & ->).
  done.
Qed.

(** [delete_prediction] touches one table only. *)
Lemma delete_prediction_keeps_reactions (db : database) (pred_id : Z) :
  exists db',
    delete_prediction pred_id db = (db', Ok true)
    /\ predictions_reactions db' = predictions_reactions db
    /\ Forall (fun r => p_id r <> pred_id) (currency_predictions db').
Proof.
  unfold delete_prediction, delete_from_predictions. run.
  eexists. split; [reflexivity|]. split; [done|]. cbn.
  apply Forall_forall. by intros r [? _]%list_elem_of_filter.
Qed.

(** A database made through the handler: users 7, 8 and 9; at noon of
    1 March 2021 user 7 makes two predictions for 1 April; prediction 1 is
    then liked by user 7 and disliked by users 8 and 9, prediction 2 gets no
    reaction. *)
Definition noon : datetime := mk_datetime 2021 3 1 12 0 0 0 None.
Definition april : datetime := mk_datetime 2021 4 1 12 0 0 0 (Some 0).

Definition sample : database :=
  let db := empty_database in
  let db := (add_user 7 true (Flag false) false true 0 "en" db).1 in
  let db := (add_user 8 true (Flag false) false true 0 "en" db).1 in
  let db := (add_user 9 true (Flag false) false true 0 "en" db).1 in
  let db := (add_prediction noon 7 "BTC" "USD" 30000%float april false db).1 in
  let db := (add_prediction noon 7 "EUR" "USD" 1.25%float april false db).1 in
  let db := (toggle_prediction_reaction 1 7 (Some true) db).1 in
  let db := (toggle_prediction_reaction 1 8 (Some false) db).1 in
  let db := (toggle_prediction_reaction 1 9 (Some false) db).1 in
  db.

(** Likes minus dislikes, as the claim defines the net score. *)
Definition net_score (db : database) (pred_id : Z) : Z :=
  Z.of_nat (length (filter (fun x => x_pred_id x = pred_id /\ x_reaction x = 1)
                           (predictions_reactions db)))
  - Z.of_nat (length (filter (fun x => x_pred_id x = pred_id /\ x_reaction x = 0)
                             (predictions_reactions db))).

(** C2. With the two predictions of [sample] still in the future,
    [get_max_liked_predictions] returns no list at all: it raises
    [KeyError].  The rows of its query, moreover, are not ordered by likes
    minus dislikes: prediction 1, with a net score of [-1], comes before
    prediction 2, whose net score is [0], because the query totals the
    reaction values and a dislike counts [0]. *)
Theorem get_max_liked_predictions_raises :
  (p_id <$> filter (fun p => still_future noon p = true) (currency_predictions sample)
   = [1; 2])
  /\ get_max_liked_predictions noon sample = (sample, Raise (KeyError "0"))
  /\ net_score sample 1 = -1 /\ net_score sample 2 = 0
  /\ max_liked_rows noon sample = [(1, 1); (2, 0)].
Proof. repeat split; by vm_compute. Qed.

(** C3. In [sample], prediction 1 has three reactions; after
    [delete_prediction(1)] the prediction is gone and its three reaction
    rows are still in [predictions_reactions].  The handler's own counts
    no longer see them, because [get_number_likes] and
    [get_number_dislikes] answer [None] for a prediction that does not
    exist; the rows stay in storage all the same. *)
Theorem delete_prediction_leaves_reactions :
  exists db',
    delete_prediction 1 sample = (db', Ok true)
    /\ (p_id <$> currency_predictions db') = [2]
    /\ filter (fun x => x_pred_id x = 1) (predictions_reactions db') =
         [ {| x_pred_id := 1; x_user_id := 7; x_reaction := 1 |};
           {| x_pred_id := 1; x_user_id := 8; x_reaction := 0 |};
           {| x_pred_id := 1; x_user_id := 9; x_reaction := 0 |} ]
    /\ get_number_likes 1 db' = (db', Ok None)
    /\ get_number_dislikes 1 db' = (db', Ok None).
Proof. eexists. repeat split; by vm_compute. Qed.

(** *** [change_prediction] *)

(** The clock reading, cut to the second and tagged UTC: what
    [get_current_datetime(0)] returns. *)
Definition this_second (utcnow : datetime) : datetime :=
  mk_datetime (year utcnow) (month utcnow) (day utcnow) (hour utcnow)
              (minute utcnow) (second utcnow) 0 (Some 0).

Lemma get_current_datetime_utc (utcnow : datetime) :
  valid_datetime utcnow = true ->
  get_current_datetime utcnow 0 = Ok (this_second utcnow).
Proof.
  intros Hv. pose proof (DtFacts.valid_datetime_inv utcnow Hv) as Hf.
  rewrite DtFacts.get_current_datetime_same_month; [|done|lia|].
  - unfold this_second. rewrite Z.add_0_r, Z.div_small, Z.mod_small by lia.
    by rewrite Z.add_0_r.
  - rewrite Z.add_0_r, Z.div_small by lia. lia.
Qed.

(** [check_datetime_in_future] on an aware timestamp compares instants. *)
Lemma check_datetime_in_future_aware (utcnow d : datetime) (off : Z) :
  valid_datetime utcnow = true ->
  tzinfo d = Some off ->
  check_datetime_in_future utcnow d 0 =
    Ok (civil_microseconds (this_second utcnow) <=? utc_microseconds d off).
Proof.
  intros Hv Hoff. unfold check_datetime_in_future. rewrite Hoff.
  rewrite get_current_datetime_utc by done. cbn.
  unfold utc_microseconds. f_equal. apply eq_iff_eq_true.
  rewrite !Z.leb_le. lia.
Qed.

Lemma check_datetime_in_future_naive (utcnow d : datetime) :
  tzinfo d = None ->
  check_datetime_in_future utcnow d 0 = Raise (AssertionError naive_msg).
Proof. intros Hoff. unfold check_datetime_in_future. by rewrite Hoff. Qed.

(** The fields for which the checks of [change_prediction] are made to
    fail: a [user_id]; an [iso_from] that is true as a condition (a
    non-empty string, say); an [iso_to] that is not [None]; an [up_to_date]
    that is a naive timestamp or an instant before the current second. *)
Definition rejected (utcnow : datetime) (kwargs : pydict) : Prop :=
  dict_has "user_id" kwargs = true
  \/ truthy (dict_get "iso_from" kwargs) = true
  \/ is_none (dict_get "iso_to" kwargs) = false
  \/ exists d, dict_get "up_to_date" kwargs = PDatetime d
               /\ (tzinfo d = None
                   \/ exists off, tzinfo d = Some off
                        /\ utc_microseconds d off < civil_microseconds (this_second utcnow)).

Lemma truthy_not_none (v : pyval) : truthy v = true -> is_none v = false.
Proof. by destruct v. Qed.

(** The exceptions by which a call is refused for its arguments: a failed
    [assert], or a [TypeError] (a guarded value that does not compare with
    its bounds, a keyword that repeats a positional parameter). *)
Definition invalid_argument (e : exn) : Prop :=
  match e with
  | AssertionError _ | TypeError _ => True
  | _ => False
  end.

Lemma py_lt_error (a b : pyval) (e : exn) :
  py_lt a b = Raise e -> invalid_argument e.
Proof.
  unfold py_lt, py_compare.
  destruct a, b; cbn; try (intros [= <-]; exact I); discriminate.
Qed.

Lemma assert_in_range_error (low high value : pyval) (argname : string) (e : exn) :
  Decorators.assert_in_range py_lt py_le repr true low high value argname = Raise e ->
  invalid_argument e.
Proof.
  unfold Decorators.assert_in_range, Decorators.chained.
  destruct (py_lt low value) as [[]|e1] eqn:E1; cbn.
  - destruct (py_lt value high) as [[]|e2] eqn:E2; cbn.
    + discriminate.
    + intros [= <-]. exact I.
    + intros [= <-]. by eapply py_lt_error.
  - intros [= <-]. exact I.
  - intros [= <-]. by eapply py_lt_error.
Qed.

(** The range checks of [change_prediction] fail with such an exception
    only. *)
Lemma check_keyword_error (id : Z) (kwargs : pydict) (argname : string) (e : exn) :
  Decorators.index argname ["self"; "id"] = None ->
  Decorators.check_arg py_lt py_le repr true ["self"; "id"] [PObj "self"; PInt id]
    kwargs (argname, zero_to_inf) = Raise e ->
  invalid_argument e.
Proof.
  intros Hi. unfold Decorators.check_arg, zero_to_inf. rewrite Hi.
  destruct (Decorators.kwargs_get argname kwargs); [|discriminate].
  apply assert_in_range_error.
Qed.

Lemma change_prediction_checks_error (id : Z) (kwargs : pydict) (e : exn) :
  Decorators.check_args py_lt py_le repr true
    (take (length [PObj "self"; PInt id]) ["self"; "id"]) [PObj "self"; PInt id] kwargs
    [("value", zero_to_inf); ("real_value", zero_to_inf)] = Raise e ->
  invalid_argument e.
Proof.
  cbn [length take Decorators.check_args].
  destruct (Decorators.check_arg _ _ _ _ _ _ _ ("value", _)) as [[]|e1] eqn:E1;
    cbn [mbind result_bind bind].
  - destruct (Decorators.check_arg _ _ _ _ _ _ _ ("real_value", _)) as [[]|e2] eqn:E2;
      cbn [mbind result_bind bind]; [discriminate|].
    intros [= <-]. exact (check_keyword_error id kwargs "real_value" _ eq_refl E2).
  - intros [= <-]. exact (check_keyword_error id kwargs "value" _ eq_refl E1).
Qed.

Lemma change_prediction_body_rejects (utcnow : datetime) (db : database) (id : Z)
    (kwargs : pydict) :
  valid_datetime utcnow = true ->
  Exists (fun r => p_id r = id) (currency_predictions db) ->
  rejected utcnow kwargs ->
  exists msg,
    change_prediction_body utcnow id kwargs db = (db, Raise (AssertionError msg)).
Proof.
  intros Hv Hex Hrej. unfold change_prediction_body.
  unfold mbind at 1. unfold M_bind. rewrite (check_prediction_exists_true db id Hex).
  unfold py_or. run.
  destruct (is_none (if truthy (dict_get "iso_from" kwargs)
                     then dict_get "iso_from" kwargs
                     else dict_get "iso_to" kwargs)) eqn:Eiso;
    cbn [py_assert]; [|eauto].
  destruct (dict_has "user_id" kwargs) eqn:Euser; cbn [negb py_assert]; [eauto|].
  destruct Hrej as [H|[H|[H|(d & Hd & H)]]].
  - congruence.
  - rewrite H in Eiso. apply truthy_not_none in H. congruence.
  - destruct (truthy (dict_get "iso_from" kwargs)) eqn:Ht; [|congruence].
    apply truthy_not_none in Ht. congruence.
  - rewrite Hd. destruct H as [Hnaive|(off & Hoff & Hpast)].
    + rewrite check_datetime_in_future_naive by done. eauto.
    + rewrite (check_datetime_in_future_aware utcnow d off) by done.
      destruct (_ <=? _) eqn:E; [apply Z.leb_le in E; lia|].
      cbn [py_assert]. eauto.
Qed.

(** C6, as the code has it.  For a prediction that exists,
    [change_prediction] fails with an [AssertionError] (or a [TypeError]
    from the checks on the call itself), and leaves the database as it was,
    whenever the fields include [user_id], an [iso_from] that is true as a
    condition, or an [iso_to] other than [None], and whenever [up_to_date]
    is a timestamp without time zone or one that lies before the current
    second.  (A timestamp in the current second is accepted.) *)
Theorem change_prediction_rejects (utcnow : datetime) (db : database) (id : Z)
    (kwargs : pydict) :
  valid_datetime utcnow = true ->
  Exists (fun r => p_id r = id) (currency_predictions db) ->
  rejected utcnow kwargs ->
  exists e,
    change_prediction utcnow id kwargs db = (db, Raise e) /\ invalid_argument e.
Proof.
  intros Hv Hex Hrej. unfold change_prediction, decorated, Decorators.wrapper.
  destruct (Decorators.check_args _ _ _ _ _ _ _ _) as [[]|e] eqn:Echeck.
  - cbn [mbind result_bind bind].
    destruct (dict_has "self" kwargs || dict_has "id" kwargs).
    + eexists. split; [reflexivity|exact I].
    + destruct (change_prediction_body_rejects utcnow db id kwargs Hv Hex Hrej)
        as [msg ->]. eexists. split; [reflexivity|exact I].
  - exists e. split; [done|]. by eapply change_prediction_checks_error.
Qed.

(** 28 February 2021, a day before [noon]. *)
Definition yesterday : datetime := mk_datetime 2021 2 28 12 0 0 0 (Some 0).

Lemma change_prediction_rejects_witness :
  valid_datetime noon = true
  /\ Exists (fun r => p_id r = 1) (currency_predictions sample)
  /\ rejected noon [("up_to_date", PDatetime yesterday)]
  /\ exists e,
       change_prediction noon 1 [("up_to_date", PDatetime yesterday)] sample
       = (sample, Raise e) /\ invalid_argument e.
Proof.
  assert (Hv : valid_datetime noon = true) by reflexivity.
  assert (Hex : Exists (fun r => p_id r = 1) (currency_predictions sample)).
  { apply (bool_decide_unpack _). by vm_compute. }
  assert (Hrej : rejected noon [("up_to_date", PDatetime yesterday)]).
  { right. right. right. exists yesterday. split; [reflexivity|].
    right. exists 0. split; [reflexivity|]. by vm_compute. }
  split; [exact Hv|]. split; [exact Hex|]. split; [exact Hrej|].
  exact (change_prediction_rejects noon sample 1
           [("up_to_date", PDatetime yesterday)] Hv Hex Hrej).
Defined.

(** Noon of 1 March 2021 as an aware timestamp: the very instant of the
    clock reading [noon], hence not strictly in the future. *)
Definition noon_utc : datetime := mk_datetime 2021 3 1 12 0 0 0 (Some 0).

(** The prediction rows of a database, as (id, iso_from, up_to_date). *)
Definition summary (db : database) : list (Z * sqlval * sqlval) :=
  (fun r => (p_id r, p_iso_from r, p_up_to_date r)) <$> currency_predictions db.

(** C6, as stated, fails: at noon, [up_to_date = noon] is not strictly in
    the future, yet [change_prediction] succeeds and moves prediction 1 to
    that moment. *)
Lemma change_prediction_accepts_present :
  utc_microseconds noon_utc 0 = civil_microseconds noon
  /\ exists db',
       change_prediction noon 1 [("up_to_date", PDatetime noon_utc)] sample
       = (db', Ok (Some true))
       /\ summary sample =
            [(1, SText "BTC", SText "2021-04-01 12:00:00+00:00");
             (2, SText "EUR", SText "2021-04-01 12:00:00+00:00")]
       /\ summary db' =
            [(1, SText "BTC", SText "2021-03-01 12:00:00+00:00");
             (2, SText "EUR", SText "2021-04-01 12:00:00+00:00")].
Proof. split; [by vm_compute|]. eexists. repeat split; by vm_compute. Qed.

(** The test on the isos, [(kwargs.get('iso_from') or kwargs.get('iso_to'))
    is None], lets an [iso_from] through that is false as a condition:
    [change_prediction(1, iso_from='')] succeeds and empties the field. *)
Lemma change_prediction_empty_iso_from :
  exists db',
    change_prediction noon 1 [("iso_from", PStr "")] sample = (db', Ok (Some true))
    /\ summary db' =
         [(1, SText "", SText "2021-04-01 12:00:00+00:00");
          (2, SText "EUR", SText "2021-04-01 12:00:00+00:00")].
Proof. eexists. repeat split; by vm_compute. Qed.

End DbFacts.

(** ** utils/dt.py: the country formats *)

Module Country.
Import Dt.
Open Scope Z_scope.

(** The directives the three country formats are made of; a blank of the
    format is [Cspace]. *)
Inductive code : Type :=
| Cd | Cm | CY | CH | CM | CI | Cp
| Clit (c : ascii)
| Cspace.

(** ['%d.%m.%Y %H:%M'], ['%m-%d-%Y %I:%M %p'] and ['%Y-%m-%d %H:%M'] *)
Definition format_ru : list code :=
  [Cd; Clit "."; Cm; Clit "."; CY; Cspace; CH; Clit ":"; CM].
Definition format_en : list code :=
  [Cm; Clit "-"; Cd; Clit "-"; CY; Cspace; CI; Clit ":"; CM; Cspace; Cp].
Definition format_default : list code :=
  [CY; Clit "-"; Cm; Clit "-"; Cd; Cspace; CH; Clit ":"; CM].

(** The [if country == 'ru': ... elif country == 'en': ... else: ...] of both
    functions: the text of the format and its directives. *)
Definition country_format (country : string) : string * list code :=
  if String.eqb country "ru" then ("%d.%m.%Y %H:%M", format_ru)
  else if String.eqb country "en" then ("%m-%d-%Y %I:%M %p", format_en)
  else ("%Y-%m-%d %H:%M", format_default).

(** *** [strftime] *)

(** The hour on the 12-hour clock, [%I]. *)
Definition hour12 (h : Z) : Z := if h mod 12 =? 0 then 12 else h mod 12.

(** What one directive prints, in the C locale ([AM], [PM]) and for years of
    four digits. *)
Definition render (d : datetime) (c : code) : string :=
  match c with
  | Cd => zero_pad 2 (day d)
  | Cm => zero_pad 2 (month d)
  | CY => zero_pad 4 (year d)
  | CH => zero_pad 2 (hour d)
  | CM => zero_pad 2 (minute d)
  | CI => zero_pad 2 (hour12 (hour d))
  | Cp => if hour d <? 12 then "AM" else "PM"
  | Clit c => String c EmptyString
  | Cspace => " "
  end.

Definition strftime (d : datetime) (format : list code) : string :=
  foldr (fun c text => render d c +:+ text) "" format.

(** Text appended to a format: its characters stand for themselves (the
    text that is appended below holds no [%]). *)
Definition literal (s : string) : list code :=
  (fun c => if Ascii.eqb c " " then Cspace else Clit c) <$> list_ascii_of_string s.

(** [s[-n:]] *)
Definition last_chars (n : nat) (s : string) : string :=
  String.substring (String.length s - n) n s.

(** [convert_to_country_format(d, country, no_offset=False)]; a [tzinfo] is
    a [timezone] object, which is true as a condition. *)
Definition convert_to_country_format (d : datetime) (country : string)
    (no_offset : bool) : string :=
  let format_str := (country_format country).2 in
  let format_str :=
    if bool_decide (is_Some (tzinfo d)) && negb no_offset
    then format_str ++ literal (" UTC" +:+ last_chars 6 (str_datetime d))
    else format_str in
  strftime d format_str.

(** *** [strptime] *)

(** The groups of a match: those of [Dt.parsed], [%I] and [%p] ([true] for
    [pm]). *)
Record groups : Type := {
  std : parsed;
  gI : option Z;
  gp : option bool
}.

(** [strptime]'s defaults: 1 January 1900, midnight. *)
Definition no_groups : groups :=
  {| std := {| pY := 1900; pm := 1; pd := 1; pH := 0; pM := 0; pS := 0; pz := None |};
     gI := None; gp := None |}.

Definition directive_of (c : code) : option directive :=
  match c with
  | Cd => Some Dd | Cm => Some Dm | CY => Some DY | CH => Some DH | CM => Some DM
  | Clit c => Some (Dlit c) | Cspace => Some Dspace
  | CI | Cp => None
  end.

(** [am|pm], whatever the case of the letters. *)
Definition am_pm (s : string) : list (bool * string) :=
  match s with
  | String a (String m rest) =>
      if Ascii.eqb (ascii_lower m) "m" then
        if Ascii.eqb (ascii_lower a) "a" then [(false, rest)]
        else if Ascii.eqb (ascii_lower a) "p" then [(true, rest)]
        else []
      else []
  | _ => []
  end.

(** A change of the groups of [Dt.parsed], on the larger record. *)
Definition on_std (upd : parsed -> parsed) (g : groups) : groups :=
  {| std := upd (std g); gI := gI g; gp := gp g |}.

(** The matches of one directive at the head of [s]; [%I] is
    [1[0-2]|0[1-9]|[1-9]]. *)
Definition alternatives (c : code) (s : string) : list ((groups -> groups) * string) :=
  match directive_of c with
  | Some d => (fun '(upd, rest) => (on_std upd, rest)) <$> Dt.alternatives d s
  | None =>
      match c with
      | CI => (fun '(v, rest) =>
                 (fun g => {| std := std g; gI := Some v; gp := gp g |}, rest))
              <$> (two_digits (between 1 12) s ++ one_digit (between 1 9) s)
      | _ => (fun '(v, rest) =>
                (fun g => {| std := std g; gI := gI g; gp := Some v |}, rest))
             <$> am_pm s
      end
  end.

Fixpoint match_format (cs : list code) (s : string) (acc : groups)
    : option (groups * string) :=
  match cs with
  | [] => Some (acc, s)
  | c :: cs' =>
      first_some (fun '(upd, rest) => match_format cs' rest (upd acc))
        (alternatives c s)
  end.

(** The hour [strptime] computes: from [%I] and [%p] when [%I] was read
    (12 AM is hour 0, 12 PM is hour 12), from [%H] otherwise. *)
Definition hour_of (g : groups) : Z :=
  match gI g with
  | Some h =>
      match gp g with
      | Some true => if h =? 12 then 12 else h + 12
      | _ => if h =? 12 then 0 else h
      end
  | None => pH (std g)
  end.

(** [datetime.strptime(data, format)] for one of the country formats. *)
Definition strptime (data : string) (format : string * list code) : result datetime :=
  match match_format format.2 data no_groups with
  | None =>
      Raise (ValueError ("time data '" +:+ data +:+ "' does not match format '"
                         +:+ format.1 +:+ "'"))
  | Some (g, rest) =>
      if negb (String.eqb rest "")
      then Raise (ValueError ("unconverted data remains: " +:+ rest))
      else datetime_new (pY (std g)) (pm (std g)) (pd (std g)) (hour_of g)
                        (pM (std g)) (pS (std g)) 0 None
  end.

(** [convert_from_country_format(datetime_str, country, utcoffset=0)] *)
Definition convert_from_country_format (datetime_str country : string) (utcoffset : Z)
    : result datetime :=
  py_assert (in_offset_range utcoffset) offset_msg;;
  d ← strptime datetime_str (country_format country);
  add_offset d utcoffset.

End Country.

Module CountryFacts.
Import Dt Country.
#[local] Open Scope Z_scope.

Lemma append_cons (x : ascii) (a b : string) : String x a +:+ b = String x (a +:+ b).
Proof. reflexivity. Qed.

Lemma append_assoc (a b c : string) : (a +:+ b) +:+ c = a +:+ (b +:+ c).
Proof. induction a as [|x a IH]; [done|]. by rewrite !append_cons, IH. Qed.

Lemma append_empty (a : string) : a +:+ "" = a.
Proof. induction a as [|x a IH]; [done|]. by rewrite append_cons, IH. Qed.

(** The character of a decimal digit. *)
Definition digit_char (a : Z) : ascii := ascii_of_nat (48 + Z.to_nat a).

Definition two_chars (v : Z) : string :=
  String (digit_char (v / 10)) (String (digit_char (v mod 10)) "").

Definition four_chars (v : Z) : string :=
  two_chars (v / 100) +:+ two_chars (v mod 100).

Lemma below (P : Z -> bool) (m n : Z) :
  forallb P (seqZ m n) = true -> forall k, m <= k < m + n -> P k = true.
Proof.
  intros H k Hk. rewrite forallb_forall in H.
  apply H, list_elem_of_In, elem_of_seqZ. lia.
Qed.

Lemma zero_pad_two (v : Z) : 0 <= v <= 99 -> zero_pad 2 v = two_chars v.
Proof.
  intros Hv.
  assert (H : forallb (fun k => String.eqb (zero_pad 2 k) (two_chars k)) (seqZ 0 100) = true)
    by (by vm_compute).
  apply String.eqb_eq. apply (below _ _ _ H). lia.
Qed.

Lemma zero_pad_four (v : Z) : 1000 <= v <= 9999 -> zero_pad 4 v = four_chars v.
Proof.
  intros Hv.
  assert (H : forallb (fun k => String.eqb (zero_pad 4 k) (four_chars k))
                (seqZ 1000 9000) = true)
    by (by vm_compute).
  apply String.eqb_eq. apply (below _ _ _ H). lia.
Qed.

Lemma digit_digit_char (a : Z) :
  0 <= a <= 9 -> digit (digit_char a) = Some a /\ is_space (digit_char a) = false.
Proof.
  intros Ha.
  assert (H : forallb (fun k => bool_decide (digit (digit_char k) = Some k
                                             /\ is_space (digit_char k) = false))
                (seqZ 0 10) = true) by (by vm_compute).
  eapply bool_decide_eq_true. apply (below _ _ _ H). lia.
Qed.

Ltac divlia := Z.div_mod_to_equations; lia.

Lemma two_digits_two_chars (ok : Z -> bool) (v : Z) (rest : string) :
  0 <= v <= 99 ->
  two_digits ok (two_chars v +:+ rest) = if ok v then [(v, rest)] else [].
Proof.
  intros Hv. unfold two_chars, two_digits. rewrite !append_cons.
  destruct (digit_digit_char (v / 10)) as [-> _]; [divlia|].
  destruct (digit_digit_char (v mod 10)) as [-> _]; [divlia|].
  by replace (10 * (v / 10) + v mod 10) with v by divlia.
Qed.

Lemma between_true (lo hi v : Z) : lo <= v <= hi -> between lo hi v = true.
Proof. intros H. unfold between. apply andb_true_iff. rewrite !Z.leb_le. lia. Qed.

Lemma four_digits_four_chars (v : Z) (rest : string) :
  0 <= v <= 9999 -> four_digits (four_chars v +:+ rest) = [(v, rest)].
Proof.
  intros Hv. unfold four_digits, four_chars. rewrite append_assoc.
  rewrite two_digits_two_chars, between_true by divlia.
  cbn [mbind list_bind app].
  rewrite two_digits_two_chars, between_true by divlia.
  cbn [mbind list_bind app]. by replace (100 * (v / 100) + v mod 100) with v by divlia.
Qed.

(** The blank of a format, before anything that is not a blank. *)
Lemma spaces_one (c : ascii) (rest : string) :
  is_space c = false -> spaces (" " +:+ String c rest) = [String c rest].
Proof.
  intros H.
  change (spaces (" " +:+ String c rest)) with (spaces (String c rest) ++ [String c rest]).
  cbn [spaces]. by rewrite H.
Qed.

Lemma strftime_cons (d : datetime) (c : code) (cs : list code) :
  strftime d (c :: cs) = render d c +:+ strftime d cs.
Proof. reflexivity. Qed.

Lemma strftime_app (d : datetime) (cs cs' : list code) :
  strftime d (cs ++ cs') = strftime d cs +:+ strftime d cs'.
Proof.
  induction cs as [|c cs IH]; [done|].
  cbn [app]. by rewrite !strftime_cons, IH, append_assoc.
Qed.

Lemma strftime_literal (d : datetime) (s : string) : strftime d (literal s) = s.
Proof.
  induction s as [|c s IH]; [done|].
  change (literal (String c s))
    with ((if Ascii.eqb c " " then Cspace else Clit c) :: literal s).
  rewrite strftime_cons, IH.
  destruct (Ascii.eqb_spec c " ") as [->|]; done.
Qed.

(** One step of the match: the first alternative of the directive goes
    through when the rest of the format matches what it leaves. *)
Lemma match_step (c : code) (cs : list code) (s rest : string) (acc : groups)
    (upd : groups -> groups) (r : groups * string) :
  head (alternatives c s) = Some (upd, rest) ->
  match_format cs rest (upd acc) = Some r ->
  match_format (c :: cs) s acc = Some r.
Proof.
  intros Hh Hr. cbn [match_format].
  destruct (alternatives c s) as [|[u t] tail]; [done|].
  injection Hh as -> ->. cbn [first_some]. by rewrite Hr.
Qed.

Lemma append_nil_l (a : string) : "" +:+ a = a.
Proof. reflexivity. Qed.

(** The changes of the groups the directives make. *)
Definition set_Y (v : Z) (p : parsed) : parsed :=
  {| pY := v; pm := pm p; pd := pd p; pH := pH p; pM := pM p; pS := pS p; pz := pz p |}.
Definition set_m (v : Z) (p : parsed) : parsed :=
  {| pY := pY p; pm := v; pd := pd p; pH := pH p; pM := pM p; pS := pS p; pz := pz p |}.
Definition set_d (v : Z) (p : parsed) : parsed :=
  {| pY := pY p; pm := pm p; pd := v; pH := pH p; pM := pM p; pS := pS p; pz := pz p |}.
Definition set_H (v : Z) (p : parsed) : parsed :=
  {| pY := pY p; pm := pm p; pd := pd p; pH := v; pM := pM p; pS := pS p; pz := pz p |}.
Definition set_M (v : Z) (p : parsed) : parsed :=
  {| pY := pY p; pm := pm p; pd := pd p; pH := pH p; pM := v; pS := pS p; pz := pz p |}.
Definition set_I (v : Z) (g : groups) : groups :=
  {| std := std g; gI := Some v; gp := gp g |}.
Definition set_p (v : bool) (g : groups) : groups :=
  {| std := std g; gI := gI g; gp := Some v |}.

Lemma head_CY (v : Z) (rest : string) :
  1000 <= v <= 9999 ->
  head (alternatives CY (zero_pad 4 v +:+ rest)) = Some (on_std (set_Y v), rest).
Proof.
  intros Hv. unfold alternatives, Dt.alternatives. cbn [directive_of].
  by rewrite zero_pad_four, four_digits_four_chars by lia.
Qed.

Lemma head_Cm (v : Z) (rest : string) :
  1 <= v <= 12 ->
  head (alternatives Cm (zero_pad 2 v +:+ rest)) = Some (on_std (set_m v), rest).
Proof.
  intros Hv. unfold alternatives, Dt.alternatives. cbn [directive_of].
  by rewrite zero_pad_two, two_digits_two_chars, between_true by lia.
Qed.

Lemma head_Cd (v : Z) (rest : string) :
  1 <= v <= 31 ->
  head (alternatives Cd (zero_pad 2 v +:+ rest)) = Some (on_std (set_d v), rest).
Proof.
  intros Hv. unfold alternatives, Dt.alternatives. cbn [directive_of].
  by rewrite zero_pad_two, two_digits_two_chars, between_true by lia.
Qed.

Lemma head_CH (v : Z) (rest : string) :
  0 <= v <= 23 ->
  head (alternatives CH (zero_pad 2 v +:+ rest)) = Some (on_std (set_H v), rest).
Proof.
  intros Hv. unfold alternatives, Dt.alternatives. cbn [directive_of].
  by rewrite zero_pad_two, two_digits_two_chars, between_true by lia.
Qed.

Lemma head_CM (v : Z) (rest : string) :
  0 <= v <= 59 ->
  head (alternatives CM (zero_pad 2 v +:+ rest)) = Some (on_std (set_M v), rest).
Proof.
  intros Hv. unfold alternatives, Dt.alternatives. cbn [directive_of].
  by rewrite zero_pad_two, two_digits_two_chars, between_true by lia.
Qed.

Lemma head_CI (v : Z) (rest : string) :
  1 <= v <= 12 ->
  head (alternatives CI (zero_pad 2 v +:+ rest)) = Some (set_I v, rest).
Proof.
  intros Hv. unfold alternatives. cbn [directive_of].
  by rewrite zero_pad_two, two_digits_two_chars, between_true by lia.
Qed.

Lemma head_Cspace (v : Z) (rest : string) :
  0 <= v <= 99 ->
  head (alternatives Cspace (String " " (zero_pad 2 v +:+ rest)))
  = Some (on_std id, zero_pad 2 v +:+ rest).
Proof.
  intros Hv. unfold alternatives, Dt.alternatives. cbn [directive_of].
  rewrite zero_pad_two by lia. unfold two_chars. rewrite append_cons.
  change (String " " ?x) with (" " +:+ x).
  rewrite spaces_one; [done|]. apply digit_digit_char. divlia.
Qed.

(** What [strptime] makes of the groups. *)
Definition fields (g : groups) : Z * Z * Z * Z * Z * Z :=
  (pY (std g), pm (std g), pd (std g), hour_of g, pM (std g), pS (std g)).

Lemma hour12_range (h : Z) : 0 <= h <= 23 -> 1 <= hour12 h <= 12.
Proof. intros H. unfold hour12. destruct (h mod 12 =? 0) eqn:E; [lia|]. apply Z.eqb_neq in E. divlia. Qed.

Lemma hour_of_hour12 (h : Z) (p : parsed) :
  0 <= h <= 23 ->
  hour_of {| std := p; gI := Some (hour12 h); gp := Some (negb (h <? 12)) |} = h.
Proof.
  intros H. unfold hour_of. cbn [gI gp].
  assert (G : forallb (fun h => Z.eqb (if negb (h <? 12)
                                       then if hour12 h =? 12 then 12 else hour12 h + 12
                                       else if hour12 h =? 12 then 0 else hour12 h) h)
                (seqZ 0 24) = true) by (by vm_compute).
  apply Z.eqb_eq. apply (below _ _ _ G). lia.
Qed.

Ltac normalise_text :=
  unfold strftime; cbn [foldr render];
  rewrite ?append_assoc, ?append_cons, ?append_nil_l.

Ltac match_steps :=
  repeat (eapply match_step;
          [ first [ apply head_CY | apply head_Cm | apply head_Cd | apply head_CH
                  | apply head_CM | apply head_CI | apply head_Cspace
                  | reflexivity ]; lia
          | ]);
  reflexivity.

(** The text [strftime] prints in a country format is matched by that
    format, up to where the text ends, and gives the fields back. *)
Lemma match_format_strftime (d : datetime) (country rest : string) :
  valid_datetime d = true ->
  1000 <= year d ->
  exists g,
    match_format (country_format country).2
      (strftime d (country_format country).2 +:+ rest) no_groups = Some (g, rest)
    /\ fields g = (year d, month d, day d, hour d, minute d, 0).
Proof.
  intros Hv Hy. apply DtFacts.valid_datetime_inv in Hv.
  assert (Hd : day d <= 31).
  { destruct Hv as (_ & _ & Hd & _). unfold days_in_month in Hd.
    repeat match type of Hd with context [if ?b then _ else _] => destruct b end; lia. }
  unfold country_format.
  destruct (String.eqb country "ru"); [|destruct (String.eqb country "en")]; cbn [snd].
  - unfold format_ru. normalise_text. eexists. split; [match_steps|]. reflexivity.
  - unfold format_en. normalise_text.
    pose proof (hour12_range (hour d) ltac:(lia)).
    destruct (hour d <? 12) eqn:E; rewrite ?append_cons, ?append_nil_l;
      (eexists; split; [match_steps|]);
      unfold fields; cbn [std gI gp on_std set_Y set_m set_d set_M set_I set_p id
                          pY pm pd pM pS no_groups];
      rewrite <- (hour_of_hour12 (hour d)) at 2 by lia; rewrite E; reflexivity.
  - unfold format_default. normalise_text. eexists. split; [match_steps|]. reflexivity.
Qed.

Lemma strptime_strftime (d : datetime) (country : string) :
  valid_datetime d = true ->
  1000 <= year d ->
  strptime (strftime d (country_format country).2) (country_format country)
  = Ok (mk_datetime (year d) (month d) (day d) (hour d) (minute d) 0 0 None).
Proof.
  intros Hv Hy.
  destruct (match_format_strftime d country "" Hv Hy) as (g & Hm & Hf).
  rewrite append_empty in Hm. unfold strptime. rewrite Hm. cbn [negb String.eqb].
  injection Hf as -> -> -> -> -> ->.
  apply DtFacts.valid_datetime_inv in Hv. apply DtFacts.datetime_new_ok; lia.
Qed.

(** X3. A timestamp printed in a country format without its offset is
    read back by the same format as the same minute, with the offset asked
    for: the three formats lose the seconds and nothing else (for years of
    four digits, which [%Y] prints in full). *)
Theorem country_format_round_trip (d : datetime) (country : string) (no_offset : bool)
    (utcoffset : Z) :
  valid_datetime d = true ->
  1000 <= year d ->
  -11 <= utcoffset <= 12 ->
  no_offset = true \/ tzinfo d = None ->
  convert_from_country_format (convert_to_country_format d country no_offset)
    country utcoffset
  = Ok (mk_datetime (year d) (month d) (day d) (hour d) (minute d) 0 0
          (Some (utcoffset * 3600000000))).
Proof.
  intros Hv Hy Ho Hno. unfold convert_to_country_format.
  replace (bool_decide (is_Some (tzinfo d)) && negb no_offset) with false.
  2:{ destruct Hno as [->| ->]; [by rewrite andb_false_r|done]. }
  unfold convert_from_country_format.
  destruct (in_offset_range utcoffset) eqn:E;
    [|apply not_true_iff_false in E; rewrite DtFacts.in_offset_range_spec in E; lia].
  cbn [py_assert mbind result_bind bind].
  rewrite strptime_strftime by done. cbn [mbind result_bind bind].
  unfold add_offset. rewrite DtFacts.timezone_hours by lia.
  cbn [mbind result_bind bind year month day hour minute second microsecond].
  apply DtFacts.valid_datetime_inv in Hv. apply DtFacts.datetime_new_ok; lia.
Qed.

(** X4. What [convert_to_country_format] prints for an aware timestamp,
    the offset included, [convert_from_country_format] does not read: the
    format it parses with has no place for [ UTC+hh:mm], and [strptime]
    raises [ValueError] for the text that remains. *)
Theorem country_format_offset_not_read_back (d : datetime) (country : string)
    (utcoffset off : Z) :
  valid_datetime d = true ->
  1000 <= year d ->
  -11 <= utcoffset <= 12 ->
  tzinfo d = Some off ->
  convert_from_country_format (convert_to_country_format d country false)
    country utcoffset
  = Raise (ValueError ("unconverted data remains:  UTC"
                       +:+ last_chars 6 (str_datetime d))).
Proof.
  intros Hv Hy Ho Hoff. unfold convert_to_country_format. rewrite Hoff.
  replace (bool_decide (is_Some (Some off)) && negb false) with true by done.
  rewrite strftime_app, strftime_literal.
  unfold convert_from_country_format.
  destruct (in_offset_range utcoffset) eqn:E;
    [|apply not_true_iff_false in E; rewrite DtFacts.in_offset_range_spec in E; lia].
  cbn [py_assert mbind result_bind bind].
  destruct (match_format_strftime d country
              (" UTC" +:+ last_chars 6 (str_datetime d)) Hv Hy) as (g & Hm & _).
  unfold strptime. rewrite Hm. done.
Qed.

Definition afternoon : datetime :=
  mk_datetime 2021 3 5 14 7 33 1234 (Some (3 * 3600000000)).

Lemma country_format_round_trip_witness :
  convert_to_country_format afternoon "en" true = "03-05-2021 02:07 PM"
  /\ convert_from_country_format "03-05-2021 02:07 PM" "en" 2
     = Ok (mk_datetime 2021 3 5 14 7 0 0 (Some (2 * 3600000000))).
Proof.
  split; [by vm_compute|].
  exact (country_format_round_trip afternoon "en" true 2 eq_refl ltac:(cbn; lia)
           ltac:(lia) (or_introl eq_refl)).
Defined.

Lemma country_format_offset_witness :
  convert_to_country_format afternoon "ru" false = "05.03.2021 14:07 UTC+03:00"
  /\ convert_from_country_format "05.03.2021 14:07 UTC+03:00" "ru" 3
     = Raise (ValueError "unconverted data remains:  UTC+03:00").
Proof.
  split; [by vm_compute|].
  exact (country_format_offset_not_read_back afternoon "ru" 3 (3 * 3600000000)
           eq_refl ltac:(cbn; lia) ltac:(lia) eq_refl).
Defined.

End CountryFacts.

(** ** utils/dt.py: the clock *)

Module ClockFacts.
Import Dt.
Open Scope Z_scope.

(** The instant of a clock reading, cut to the second: microseconds on the
    UTC line. *)
Definition clock_instant (utcnow : datetime) : Z :=
  civil_microseconds utcnow - microsecond utcnow.

(** The shifted hour stays inside the month of the clock reading. *)
Definition same_month (utcnow : datetime) (utcoffset : Z) : Prop :=
  1 <= day utcnow + (hour utcnow + utcoffset) / 24
    <= days_in_month (year utcnow) (month utcnow).

Lemma current_datetime_instant (utcnow : datetime) (utcoffset : Z) :
  valid_datetime utcnow = true ->
  -11 <= utcoffset <= 12 ->
  same_month utcnow utcoffset ->
  exists n,
    get_current_datetime utcnow utcoffset = Ok n
    /\ tzinfo n = Some (utcoffset * 3600000000)
    /\ microsecond n = 0
    /\ utc_microseconds n (utcoffset * 3600000000) = clock_instant utcnow.
Proof.
  intros Hv Ho Hm. rewrite DtFacts.get_current_datetime_same_month by done.
  eexists. split; [reflexivity|]. split; [done|]. split; [done|].
  unfold utc_microseconds, clock_instant, civil_microseconds, toordinal.
  cbn [year month day hour minute second microsecond].
  pose proof (Z.div_mod (hour utcnow + utcoffset) 24 ltac:(lia)). lia.
Qed.

(** X1. Whatever the offset, the timestamp [get_current_datetime] returns
    denotes the instant of the clock reading, cut to the second: it
    carries the offset as its time zone and, read in that zone, is the
    same instant for every offset (as long as the shifted hour stays
    inside the month of the clock reading). *)
Theorem get_current_datetime_instant (utcnow : datetime) (utcoffset : Z) :
  valid_datetime utcnow = true ->
  -11 <= utcoffset <= 12 ->
  same_month utcnow utcoffset ->
  exists n,
    get_current_datetime utcnow utcoffset = Ok n
    /\ tzinfo n = Some (utcoffset * 3600000000)
    /\ microsecond n = 0
    /\ utc_microseconds n (utcoffset * 3600000000) = clock_instant utcnow.
Proof. apply current_datetime_instant. Qed.

(** X2. The answer of [check_datetime_in_future] does not depend on the
    offset it is given: it tells whether the instant of [up_to_date] is
    not before the current second. *)
Theorem check_datetime_in_future_instants (utcnow up_to_date : datetime)
    (utcoffset off : Z) :
  valid_datetime utcnow = true ->
  -11 <= utcoffset <= 12 ->
  same_month utcnow utcoffset ->
  tzinfo up_to_date = Some off ->
  check_datetime_in_future utcnow up_to_date utcoffset
  = Ok (clock_instant utcnow <=? utc_microseconds up_to_date off).
Proof.
  intros Hv Ho Hm Hoff.
  destruct (current_datetime_instant utcnow utcoffset Hv Ho Hm)
    as (n & Hn & Htz & _ & Hi).
  unfold check_datetime_in_future. rewrite Hoff, Hn.
  destruct (in_offset_range utcoffset) eqn:E;
    [|apply not_true_iff_false in E; rewrite DtFacts.in_offset_range_spec in E; lia].
  cbn [bool_decide decide_rel py_assert mbind result_bind bind].
  case_bool_decide; [|done]. cbn [py_assert mbind result_bind bind].
  rewrite Htz, Hi. f_equal. apply eq_iff_eq_true. rewrite !Z.leb_le. lia.
Qed.

(** A clock reading, and a timestamp of the next day in the zone UTC+3. *)
Definition half_past_noon : datetime := mk_datetime 2021 3 15 12 30 45 123456 None.
Definition next_day : datetime :=
  mk_datetime 2021 3 16 9 0 0 0 (Some (3 * 3600000000)).

Lemma get_current_datetime_instant_witness :
  exists n,
    get_current_datetime half_past_noon (-5) = Ok n
    /\ tzinfo n = Some (-5 * 3600000000)
    /\ microsecond n = 0
    /\ utc_microseconds n (-5 * 3600000000) = clock_instant half_past_noon.
Proof.
  apply (get_current_datetime_instant half_past_noon (-5)).
  - reflexivity.
  - lia.
  - unfold same_month. split; apply Z.leb_le; reflexivity.
Defined.

Lemma check_datetime_in_future_instants_witness :
  check_datetime_in_future half_past_noon next_day (-5) = Ok true.
Proof.
  rewrite (check_datetime_in_future_instants half_past_noon next_day (-5)
             (3 * 3600000000)).
  - reflexivity.
  - reflexivity.
  - lia.
  - unfold same_month. split; apply Z.leb_le; reflexivity.
  - reflexivity.
Defined.

End ClockFacts.

(** ** utils/decorators.py: the checks of [rangetest] *)

Module RangetestFacts.
Import Decorators.

Section Total.

(** Values whose comparisons do not raise, such as numbers: [ltb] and [leb]
    are their [<] and [<=]. *)
Context {V R : Type}.
Variable ltb leb : V -> V -> bool.
Variable repr : V -> string.

Definition total_lt (a b : V) : result bool := Ok (ltb a b).
Definition total_le (a b : V) : result bool := Ok (leb a b).

(** The value the call binds to the parameter [argname], when it does:
    the keyword argument of that name, or else the positional argument at
    the parameter's place. *)
Definition passed (allargs : list string) (args : list V) (kwargs : @kwargs_t V)
    (argname : string) : option V :=
  match kwargs_get argname kwargs with
  | Some value => Some value
  | None => pos ← index argname (take (length args) allargs); args !! pos
  end.

Definition in_range (strict_range : bool) (low high value : V) : bool :=
  if strict_range then ltb low value && ltb value high
  else leb low value && leb value high.

(** The entries of [privates] whose value is passed and lies outside the
    range, each with that value. *)
Definition offenders (strict_range : bool) (allargs : list string) (args : list V)
    (kwargs : @kwargs_t V) (privates : @privates_t V) : list (string * V) :=
  omap (fun entry : string * (V * V) =>
          value ← passed allargs args kwargs entry.1;
          if in_range strict_range entry.2.1 entry.2.2 value then None
          else Some (entry.1, value))
       privates.

Lemma index_lt (argname : string) (allvars : list string) (pos : nat) :
  index argname allvars = Some pos -> pos < length allvars.
Proof.
  revert pos. induction allvars as [|a rest IH]; intros pos; cbn [index]; [done|].
  destruct (String.eqb a argname).
  - intros [= <-]. cbn. lia.
  - destruct (index argname rest) as [p|]; [|done].
    cbn. intros [= <-]. specialize (IH p eq_refl). lia.
Qed.

(** A positional argument bound to a parameter is there. *)
Lemma positional_passed (allargs : list string) (args : list V) (argname : string)
    (pos : nat) :
  index argname (take (length args) allargs) = Some pos -> is_Some (args !! pos).
Proof.
  intros H%index_lt. apply lookup_lt_is_Some. rewrite length_take in H. lia.
Qed.

Lemma assert_in_range_total (strict : bool) (low high value : V) (argname : string) :
  assert_in_range total_lt total_le repr strict low high value argname =
  if in_range strict low high value then Ok tt
  else Raise (AssertionError (unexpected repr value argname)).
Proof.
  unfold assert_in_range, chained, in_range, total_lt, total_le.
  destruct strict; cbn [mbind result_bind bind].
  - by destruct (ltb low value), (ltb value high).
  - by destruct (leb low value), (leb value high).
Qed.

Lemma check_arg_total (strict : bool) (allargs : list string) (args : list V)
    (kwargs : @kwargs_t V) (entry : string * (V * V)) :
  check_arg total_lt total_le repr strict (take (length args) allargs) args kwargs entry =
  match passed allargs args kwargs entry.1 with
  | Some value =>
      if in_range strict entry.2.1 entry.2.2 value then Ok tt
      else Raise (AssertionError (unexpected repr value entry.1))
  | None => Ok tt
  end.
Proof.
  destruct entry as [argname [low high]]. unfold check_arg, passed. cbn [fst snd].
  destruct (kwargs_get argname kwargs) as [value|]; [apply assert_in_range_total|].
  destruct (index argname _) as [pos|] eqn:E; [|done].
  destruct (positional_passed _ _ _ _ E) as [value Hv]. cbn. rewrite Hv.
  apply assert_in_range_total.
Qed.

(** X5. The wrapper of [rangetest] calls the function exactly when
    every guarded parameter the call binds lies in its range (for values
    whose comparisons do not raise).  Otherwise the function is not called
    and the [AssertionError] names the first offending parameter, in the
    order in which the decorator lists them, with the value passed for it;
    nothing else is raised, the positional argument of a bound parameter
    being always there. *)
Theorem rangetest_first_offender (strict : bool) (privates : @privates_t V)
    (allargs : list string) (func : list V -> @kwargs_t V -> result R)
    (args : list V) (kwargs : @kwargs_t V) :
  wrapper total_lt total_le repr strict privates allargs func args kwargs =
  match offenders strict allargs args kwargs privates with
  | [] => func args kwargs
  | (argname, value) :: _ => Raise (AssertionError (unexpected repr value argname))
  end.
Proof.
  unfold wrapper. induction privates as [|entry rest IH]; [done|].
  cbn [check_args]. rewrite check_arg_total.
  assert (Hc : offenders strict allargs args kwargs (entry :: rest) =
            match passed allargs args kwargs entry.1 with
            | Some value =>
                if in_range strict entry.2.1 entry.2.2 value
                then offenders strict allargs args kwargs rest
                else (entry.1, value) :: offenders strict allargs args kwargs rest
            | None => offenders strict allargs args kwargs rest
            end).
  { unfold offenders. cbn [omap list_omap].
    destruct (passed allargs args kwargs entry.1) as [value|]; [|done].
    cbn. by destruct (in_range strict entry.2.1 entry.2.2 value). }
  rewrite Hc. destruct (passed allargs args kwargs entry.1) as [value|]; [|exact IH].
  destruct (in_range strict entry.2.1 entry.2.2 value); [exact IH|done].
Qed.

End Total.

End RangetestFacts.

Module GuardFacts.
Import Dt Db DbFacts.
Open Scope Z_scope.

(** [0 < f], as Python compares the integer with the float. *)
Lemma zero_lt_float (f : float) :
  py_lt (PInt 0) (PFloat f) = Ok (0 <? f)%float.
Proof.
  unfold py_lt, py_compare, compare_float_Z. cbn [mbind result_bind bind].
  f_equal. rewrite ltb_spec. change (Prim2SF 0) with (S754_zero false).
  destruct (Prim2SF f) as [s|s| |s m e]; cbn.
  - done.
  - by destruct s.
  - done.
  - destruct s, (0 <=? e) eqn:E; cbn; try done.
    + apply Z.leb_le in E. case_bool_decide as H; [|done]. exfalso.
      injection H as H. apply (f_equal CompOpp) in H. rewrite CompOpp_involutive in H.
      cbn in H. apply Z.compare_gt_iff in H.
      pose proof (Z.pow_pos_nonneg 2 e ltac:(lia) E). nia.
    + apply Z.leb_le in E. apply bool_decide_eq_true. f_equal.
      change Lt with (CompOpp Gt). f_equal. apply Z.compare_gt_iff.
      pose proof (Z.pow_pos_nonneg 2 e ltac:(lia) E). nia.
Qed.

(** [f < inf] *)
Lemma float_lt_infinity (f : float) :
  py_lt (PFloat f) (PFloat infinity) = Ok (f <? infinity)%float.
Proof.
  unfold py_lt, py_compare, compare_float. cbn [mbind result_bind bind].
  f_equal. rewrite ltb_spec. unfold SFltb.
  destruct (SFcompare _ _) as [[]|]; done.
Qed.

(** What the Boolean of a failed range check is reported with. *)
Definition out_of_range (value : pyval) (argname : string) : exn :=
  AssertionError (Decorators.unexpected repr value argname).

(** The range check of the handler, by the kind of the value. *)
Lemma assert_positive (value : pyval) (argname : string) :
  Decorators.assert_in_range py_lt py_le repr true zero_to_inf.1 zero_to_inf.2
    value argname =
  match value with
  | PInt z => if 0 <? z then Ok tt else Raise (out_of_range value argname)
  | PBool b => if b then Ok tt else Raise (out_of_range value argname)
  | PFloat f => if ((0 <? f) && (f <? infinity))%float then Ok tt
                else Raise (out_of_range value argname)
  | _ => Raise not_comparable
  end.
Proof.
  unfold Decorators.assert_in_range, Decorators.chained, zero_to_inf. cbn [fst snd].
  destruct value as [|b|z|f|s|d|name]; try done.
  - by destruct b.
  - by destruct z.
  - rewrite zero_lt_float. cbn [mbind result_bind bind].
    destruct (0 <? f)%float; [|done].
    rewrite float_lt_infinity. cbn [mbind result_bind bind andb].
    by destruct (f <? infinity)%float.
Qed.


(** X6. The range [(0, float("inf"))] under which the handler puts
    [value], [real_value] and [start_value] lets through the positive
    integers, [True], and the floats that are positive and finite; it fails
    the assertion for every other number (zero, negatives, infinity, NaN,
    [False]) and raises [TypeError] for anything that is no number. *)
Theorem positive_range (value : pyval) (argname : string) :
  Decorators.assert_in_range py_lt py_le repr true zero_to_inf.1 zero_to_inf.2
    value argname =
  match value with
  | PInt z => if 0 <? z then Ok tt else Raise (out_of_range value argname)
  | PBool b => if b then Ok tt else Raise (out_of_range value argname)
  | PFloat f => if ((0 <? f) && (f <? infinity))%float then Ok tt
                else Raise (out_of_range value argname)
  | _ => Raise not_comparable
  end.
Proof. apply assert_positive. Qed.

End GuardFacts.

(** ** main.py: [infinite_loop] *)

Module LoopFacts.
Import Main.

(** What the first [n] calls of [func] raise, in order. *)
Definition raised (func : callable) (n : nat) : list exn :=
  omap (fun k => match func k with Raises e => Some e | Returns => None end) (seq 0 n).

Lemma raised_S (func : callable) (n : nat) (e : exn) :
  func n = Raises e -> raised func (S n) = raised func n ++ [e].
Proof.
  intros H. unfold raised. rewrite seq_S, omap_app. cbn. by rewrite H.
Qed.

Lemma infinite_loop_from (func : callable) (n : nat) :
  (forall k, (k < n)%nat -> func k <> Returns) ->
  func n = Returns ->
  forall m k fuel, (k + m = n)%nat -> (m < fuel)%nat ->
    infinite_loop fuel func k (raised func k) = Some (S n, raised func n).
Proof.
  intros Hfail Hret. induction m as [|m IH]; intros k fuel Hk Hfuel.
  - destruct fuel as [|fuel]; [lia|]. cbn [infinite_loop].
    replace k with n by lia. by rewrite Hret.
  - destruct fuel as [|fuel]; [lia|]. cbn [infinite_loop].
    destruct (func k) as [|e] eqn:E; [by destruct (Hfail k ltac:(lia))|].
    rewrite <- (raised_S func k e E). apply IH; lia.
Qed.

Lemma infinite_loop_goes_on (func : callable) :
  (forall k, func k <> Returns) ->
  forall fuel k printed, infinite_loop fuel func k printed = None.
Proof.
  intros Hfail. induction fuel as [|fuel IH]; intros k printed; [done|].
  cbn [infinite_loop]. destruct (func k) as [|e] eqn:E; [by destruct (Hfail k)|].
  apply IH.
Qed.

(** X7. [infinite_loop] calls [func] until a call returns: when the call
    number [n] is the first to return, the loop ends after [n + 1] calls,
    having printed the exceptions of the [n] failed calls in the order they
    were raised.  It never gives up: when no call returns, the loop has not
    ended after any number of turns. *)
Theorem infinite_loop_until_return (func : callable) :
  (forall n fuel,
      (forall k, (k < n)%nat -> func k <> Returns) -> func n = Returns ->
      (n < fuel)%nat ->
      infinite_loop fuel func O [] = Some (S n, raised func n))
  /\ ((forall k, func k <> Returns) ->
      forall fuel, infinite_loop fuel func O [] = None).
Proof.
  split.
  - intros n fuel Hfail Hret Hfuel.
    exact (infinite_loop_from func n Hfail Hret n O fuel eq_refl Hfuel).
  - intros Hfail fuel. by apply infinite_loop_goes_on.
Qed.

(** A task that fails twice, differently, and then returns. *)
Definition fails_twice : callable :=
  fun k => match k with
           | O => Raises ConnectionError
           | S O => Raises (ValueError "no rate")
           | _ => Returns
           end.

Lemma infinite_loop_until_return_witness :
  infinite_loop 3 fails_twice O [] = Some (3%nat, [ConnectionError; ValueError "no rate"]).
Proof.
  apply (proj1 (infinite_loop_until_return fails_twice) 2%nat 3%nat).
  - intros [|[|k]] Hk; [done|done|lia].
  - reflexivity.
  - lia.
Defined.

End LoopFacts.

(** ** models/logger.py: the calls by kind and [catch_error] *)

Module LoggerCalls.
Import Logger.

Definition error (self : Logger) (utcnow : Dt.datetime) (message : string)
    : result Logger :=
  log self utcnow message "error".

Definition warning (self : Logger) (utcnow : Dt.datetime) (message : string)
    : result Logger :=
  log self utcnow message "warning".

Definition info (self : Logger) (utcnow : Dt.datetime) (message : string)
    : result Logger :=
  log self utcnow message "info".

Definition debug (self : Logger) (utcnow : Dt.datetime) (message : string)
    : result Logger :=
  log self utcnow message "debug".

Section CatchError.

(** [A] is what the decorated function is called with and [R] what it
    returns.  The function may log, so it is handed the logger and hands it
    back.  [class_name e] is [e.__class__.__name__] and [str e] is what the
    f-string makes of [e]. *)
Context {A R : Type}.
Variable class_name : exn -> string.
Variable str : exn -> string.

Definition raised_message (f_name : string) (e : exn) : string :=
  "Function " +:+ f_name +:+ " raised " +:+ class_name e +:+ ":" +:+ str e.

(** [catch_error(f)(args)]: the [inner] function, which returns [None]
    after logging. *)
Definition catch_error (self : Logger) (f_name : string)
    (f : A -> Logger -> Logger * result R) (utcnow : Dt.datetime) (args : A)
    : result (Logger * option R) :=
  let '(self, res) := f args self in
  match res with
  | Ok res => Ok (self, Some res)
  | Raise e =>
      self ← error self utcnow (raised_message f_name e);
      Ok (self, None)
  end.

End CatchError.

End LoggerCalls.

Module LoggerCallsFacts.
Import Logger LoggerFacts LoggerCalls.

#[local] Opaque MAX_SIZE.

(** The bytes of the file [log<n>.log]. *)
Definition content_of (files : gmap nat file) (n : nat) : string :=
  match files !! n with
  | Some f => content f
  | None => ""
  end.

Definition join (files : gmap nat file) (numbers : list nat) : string :=
  foldr (fun n text => content_of files n +:+ text) "" numbers.

(** The log files read one after the other, in the order of their
    numbers. *)
Definition written (self : Logger) : string :=
  join (files self) (seq 1 (log_count self)).

(** The lines shown on the console. *)
Definition shown (console : list (string * string)) : string :=
  foldr (fun entry text => (entry.1 +:+ newline) +:+ text) "" console.

Lemma join_app (files : gmap nat file) (l1 l2 : list nat) :
  join files (l1 ++ l2) = join files l1 +:+ join files l2.
Proof.
  induction l1 as [|n l1 IH]; [done|].
  cbn [app]. unfold join in *. cbn [foldr]. by rewrite IH, CountryFacts.append_assoc.
Qed.

Lemma join_ext (files1 files2 : gmap nat file) (l : list nat) :
  (forall n, n ∈ l -> files1 !! n = files2 !! n) ->
  join files1 l = join files2 l.
Proof.
  induction l as [|n l IH]; intros H; [done|].
  unfold join in *. cbn [foldr]. rewrite IH.
  - unfold content_of. rewrite (H n); [done|]. by left.
  - intros k Hk. apply H. by right.
Qed.

Lemma shown_app (c1 c2 : list (string * string)) :
  shown (c1 ++ c2) = shown c1 +:+ shown c2.
Proof.
  induction c1 as [|e c1 IH]; [done|].
  cbn [app]. unfold shown in *. cbn [foldr]. by rewrite IH, !CountryFacts.append_assoc.
Qed.

Lemma join_last (files : gmap nat file) (n : nat) :
  join files (seq 1 (S n)) = join files (seq 1 n) +:+ content_of files (S n).
Proof.
  rewrite seq_S, join_app. unfold join at 2. cbn [foldr].
  by rewrite CountryFacts.append_empty.
Qed.

(** What an accepted call shows on the console. *)
Lemma log_accepted_console (self : Logger) (utcnow : Dt.datetime)
    (message kind : string) (f : file) (self' : Logger) :
  logfile self = log_count self ->
  files self !! log_count self = Some f ->
  closed f = false ->
  accepted self kind = true ->
  log self utcnow message kind = Ok self' ->
  exists i, LOG_LEVELS (lower kind) = Some i
    /\ console self' = console self ++ [(format_message utcnow kind message, color i)].
Proof.
  intros Hh Hf Hc Ha. unfold accepted in Ha. unfold log.
  destruct (LOG_LEVELS (log_level self)) as [current|]; [|done].
  destruct (LOG_LEVELS (lower kind)) as [i|]; [|done].
  rewrite Ha. unfold write. rewrite Hh, Hf, Hc. cbn [mbind result_bind bind].
  intros H. exists i. split; [done|].
  destruct (negb _); injection H as <-; done.
Qed.

(** The files of a reachable logger hold what the console shows. *)
Record mirror (self : Logger) : Prop := {
  mirror_count : 1 <= log_count self;
  mirror_text : written self = shown (console self)
}.

Lemma mirror_init : mirror init.
Proof. by split. Qed.

Lemma mirror_log (self : Logger) (utcnow : Dt.datetime) (message kind : string)
    (self' : Logger) :
  inv self -> mirror self -> log self utcnow message kind = Ok self' -> mirror self'.
Proof.
  intros Hinv [Hn Hm] Hlog. destruct (accepted self kind) eqn:Ha.
  2:{ by rewrite (log_rejected _ _ _ _ _ Ha Hlog). }
  destruct Hinv as [Hh Hl (f & Hf & Hc & Hsz) Hprev].
  destruct (log_accepted self utcnow message kind f Hh Hf Hc Ha)
    as (s2 & Hlog2 & Hlvl & Hh2 & Hcount & Hfiles).
  destruct (log_accepted_console self utcnow message kind f self' Hh Hf Hc Ha Hlog)
    as (i & Hi & Hcons).
  rewrite Hlog in Hlog2. injection Hlog2 as <-.
  unfold log_count_after in Hcount. unfold files_after in Hfiles.
  destruct (log_count self) as [|n] eqn:En; [lia|].
  assert (Hold : written self = join (files self) (seq 1 n) +:+ content f).
  { unfold written. rewrite En, join_last. unfold content_of. by rewrite Hf. }
  assert (Hline : shown (console self')
                  = shown (console self) +:+ line utcnow kind message).
  { rewrite Hcons, shown_app. unfold shown at 2. cbn [foldr fst].
    by rewrite CountryFacts.append_empty. }
  assert (Hbefore : forall files', (forall k, k ∈ seq 1 n -> files' !! k = files self !! k) ->
            join files' (seq 1 n) = join (files self) (seq 1 n)).
  { intros files' H. by apply join_ext. }
  split.
  - rewrite Hcount. destruct (MAX_SIZE <=? _)%nat; lia.
  - rewrite Hline, <- Hm, Hold, CountryFacts.append_assoc. unfold written. rewrite Hcount, Hfiles.
    destruct (MAX_SIZE <=? _)%nat.
    + rewrite !join_last. unfold content_of.
      rewrite lookup_insert_eq, lookup_insert_ne, lookup_insert_eq by lia.
      cbn [content]. rewrite CountryFacts.append_empty. f_equal. apply Hbefore.
      intros k [_ Hk]%elem_of_seq. by rewrite !lookup_insert_ne by lia.
    + rewrite join_last. unfold content_of. rewrite lookup_insert_eq. cbn [content].
      f_equal. apply Hbefore.
      intros k [_ Hk]%elem_of_seq. by rewrite !lookup_insert_ne by lia.
Qed.

Lemma mirror_set_level (self : Logger) (level : string) (self' : Logger) :
  mirror self -> set_level self level = Ok self' -> mirror self'.
Proof.
  intros [Hn Hm]. unfold set_level, py_assert.
  case_bool_decide as Hsome; [|done]. cbn. intros [= <-]. by split.
Qed.

Lemma reachable_mirror (self : Logger) : reachable self -> mirror self.
Proof.
  induction 1 as [|s ? ? ? s' Hr IH Hlog|s ? s' _ IH Hset].
  - apply mirror_init.
  - eapply mirror_log; [by apply reachable_inv| |]; done.
  - by eapply mirror_set_level.
Qed.

(** X8. The log files mirror the console.  Whatever calls of [log] and
    [set_level] a logger has answered, its files [log1.log], [log2.log], ...
    read one after the other hold exactly the lines shown on the console,
    each followed by a newline, in the order they were shown: rotation
    neither loses nor repeats a line. *)
Theorem logfiles_mirror_console (self : Logger) :
  reachable self -> written self = shown (console self).
Proof. intros Hr. by destruct (reachable_mirror self Hr). Qed.

(** A supported kind, on a reachable logger, is answered. *)
Lemma log_answers (self : Logger) (utcnow : Dt.datetime) (message kind : string)
    (i : level_info) :
  reachable self ->
  LOG_LEVELS (lower kind) = Some i ->
  exists self' current,
    log self utcnow message kind = Ok self'
    /\ LOG_LEVELS (log_level self) = Some current
    /\ log_level self' = log_level self
    /\ console self' = console self ++
         (if (level current <=? level i)%Z
          then [(format_message utcnow kind message, color i)] else []).
Proof.
  intros Hr Hi. destruct (reachable_inv self Hr) as [Hh [current Hl] (f & Hf & Hc & Hsz) _].
  destruct (accepted self kind) eqn:Ha.
  - destruct (log_accepted self utcnow message kind f Hh Hf Hc Ha)
      as (self' & Hlog & Hlvl & _).
    destruct (log_accepted_console self utcnow message kind f self' Hh Hf Hc Ha Hlog)
      as (i' & Hi' & Hcons).
    exists self', current. split; [done|]. split; [done|]. split; [done|].
    unfold accepted in Ha. rewrite Hl, Hi in Ha. rewrite Ha, Hcons. congruence.
  - exists self, current. unfold accepted in Ha. rewrite Hl, Hi in Ha.
    unfold log. rewrite Hi, Hl, Ha. by rewrite app_nil_r.
Qed.

(** X9. [set_level] decides what later calls of [log] show.  After
    [set_level(level)] has been accepted, a call of [log] with a supported
    kind, in any case of letters, does not raise; it shows its line, in
    the colour of the kind, when the kind's level is at least that of
    [level], and shows nothing otherwise.  A kind that is not supported is
    refused with [AssertionError]. *)
Theorem set_level_filters (self s1 : Logger) (new_level : string)
    (utcnow : Dt.datetime) (message kind : string) :
  reachable self ->
  set_level self new_level = Ok s1 ->
  match LOG_LEVELS (lower kind) with
  | Some i =>
      exists s2 l,
        log s1 utcnow message kind = Ok s2
        /\ LOG_LEVELS new_level = Some l
        /\ console s2 = console s1 ++
             (if (level l <=? level i)%Z
              then [(format_message utcnow kind message, color i)] else [])
  | None => log s1 utcnow message kind = Raise (AssertionError "unsupported message kind")
  end.
Proof.
  intros Hr Hset.
  pose proof (reachable_set_level _ _ _ Hr Hset) as Hr1.
  assert (Hlvl : log_level s1 = new_level).
  { unfold set_level, py_assert in Hset. case_bool_decide; [|done].
    cbn in Hset. by injection Hset as <-. }
  destruct (LOG_LEVELS (lower kind)) as [i|] eqn:Hi.
  - destruct (log_answers s1 utcnow message kind i Hr1 Hi)
      as (s2 & current & Hlog & Hcur & _ & Hcons).
    exists s2, current. rewrite Hlvl in Hcur. done.
  - unfold log. by rewrite Hi.
Qed.

Lemma set_level_filters_witness :
  exists s1, set_level init "warning" = Ok s1 /\
  exists s2, log s1 noon "rates updated" "INFO" = Ok s2 /\ console s2 = console s1.
Proof.
  exists {| log_count := 1; log_level := "warning"; logfile := 1;
            files := files init; console := [] |}.
  split; [reflexivity|].
  destruct (set_level_filters init _ "warning" noon "rates updated" "INFO"
              reachable_init eq_refl) as (s2 & l & Hlog & Hl & Hcons).
  exists s2. split; [exact Hlog|].
  injection Hl as <-. rewrite Hcons. apply app_nil_r.
Defined.

Lemma logfiles_mirror_console_witness :
  exists self, log init noon "Bot started" "info" = Ok self
    /\ written self = shown (console self).
Proof.
  destruct (log_accepted init noon "Bot started" "info"
              {| content := ""; closed := false |} eq_refl eq_refl eq_refl eq_refl)
    as (self & Hlog & _).
  exists self. split; [exact Hlog|].
  apply (logfiles_mirror_console self).
  exact (reachable_log _ _ _ _ _ reachable_init Hlog).
Defined.

Section CatchError.

Context {A R : Type}.
Variable class_name : exn -> string.
Variable str : exn -> string.

(** X10. A function decorated with [catch_error] does not raise, as long
    as it leaves the logger in a state the logger's own methods can bring
    about.  When the function returns, so does the decorated one, with the
    same value; when it raises, the decorated one returns [None], and the
    console shows one more line, in red: the error message that names the
    function, the class of the exception and its text.  This holds at
    every level a logger can be set to, errors being of the highest. *)
Theorem catch_error_never_raises (self : Logger) (f_name : string)
    (f : A -> Logger -> Logger * result R) (utcnow : Dt.datetime) (args : A) :
  reachable (f args self).1 ->
  exists self',
    catch_error class_name str self f_name f utcnow args
      = Ok (self', match (f args self).2 with Ok res => Some res | Raise _ => None end)
    /\ console self' = console (f args self).1 ++
         match (f args self).2 with
         | Ok _ => []
         | Raise e =>
             [(format_message utcnow "error" (raised_message class_name str f_name e),
               "red")]
         end.
Proof.
  intros Hr. unfold catch_error. destruct (f args self) as [s1 [res|e]]; cbn [fst snd] in *.
  - exists s1. by rewrite app_nil_r.
  - destruct (log_answers s1 utcnow (raised_message class_name str f_name e) "error"
                {| color := "red"; level := 40 |} Hr eq_refl)
      as (s2 & current & Hlog & Hcur & _ & Hcons).
    unfold error. rewrite Hlog. cbn [mbind result_bind bind]. exists s2.
    split; [done|]. rewrite Hcons. cbn [level color].
    assert (Hle : (level current <=? 40)%Z = true).
    { revert Hcur. unfold LOG_LEVELS.
      repeat (destruct (String.eqb _ _); [by intros [= <-]|]). done. }
    by rewrite Hle.
Qed.

End CatchError.

(** A function that always fails, and does not log. *)
Definition failing (args : unit) (self : Logger) : Logger * result unit :=
  (self, Raise (ValueError "no rate")).

Lemma catch_error_never_raises_witness :
  exists self',
    catch_error (fun _ => "ValueError") (fun _ => "no rate") init "update_rates"
      failing noon tt = Ok (self', None)
    /\ console self' =
         [(format_message noon "error" "Function update_rates raised ValueError:no rate",
           "red")].
Proof.
  apply (catch_error_never_raises (fun _ => "ValueError") (fun _ => "no rate") init
           "update_rates" failing noon tt reachable_init).
Defined.

End LoggerCallsFacts.

(** ** models/parsers.py: [Parser.get_response] *)

Module Requests.

(** How a call of [get_response] ends: it returns a response, or [return q]
    finds [q] unbound, or an exception other than [ConnectionError] escapes
    the loop. *)
Inductive ending (R : Type) : Type :=
| Returned (q : R)
| UnboundLocalError
| Escaped (e : exn).
Arguments Returned {R} q.
Arguments UnboundLocalError {R}.
Arguments Escaped {R} e.

(** The parser, as far as [get_response] goes: [proxy_list], whose entries
    are proxies or [None], and the number of sessions made so far. *)
Record Parser : Type := {
  proxy_list : list (option string);
  sessions_made : nat
}.

(** What is outside the parser during one call: what the request number [k]
    of the call, sent through [proxies] ([None] for a direct request), comes
    to; whether [test_response] accepts a response; and the order
    [random.shuffle] puts a list in. *)
Record world (R : Type) : Type := {
  get : nat -> option string -> result R;
  test_response : R -> result bool;
  shuffle : list (option string) -> list (option string)
}.
Arguments get {R} w k proxies.
Arguments test_response {R} w response.
Arguments shuffle {R} w l.

Section GetResponse.

Context {R : Type}.
Variable w : world R.

(** [{'http': 'http://' + p} if p else None] *)
Definition proxies_of (p : option string) : option string :=
  match p with
  | Some p => if String.eqb p "" then None else Some ("http://" +:+ p)
  | None => None
  end.

(** The loop [for proxy in proxies], from request number [k] on; [q] is the
    variable of that name, unbound at first. *)
Fixpoint requests (k : nat) (proxies : list (option string)) (q : option R)
    (made : nat) : ending R * nat :=
  match proxies with
  | [] => (match q with Some q => Returned q | None => UnboundLocalError end, made)
  | proxy :: rest =>
      match get w k (proxies_of proxy) with
      | Ok response =>
          match test_response w response with
          | Ok true => (Returned response, made)
          | Ok false => requests (S k) rest (Some response) made
          | Raise ConnectionError => requests (S k) rest (Some response) (S made)
          | Raise e => (Escaped e, made)
          end
      | Raise ConnectionError => requests (S k) rest q (S made)
      | Raise e => (Escaped e, made)
      end
  end.

(** [get_response].  A [proxy_list] that is not empty is itself the list
    [proxies]: it is shuffled in place and the five [None]s are appended to
    it.  An empty one is replaced by a new list, and stays empty. *)
Definition get_response (self : Parser) : Parser * ending R :=
  let proxies :=
    match proxy_list self with
    | [] => []
    | _ :: _ => shuffle w (proxy_list self)
    end ++ replicate 5 None in
  let '(q, made) := requests 0 proxies None (sessions_made self) in
  ({| proxy_list := match proxy_list self with
                    | [] => []
                    | _ :: _ => proxies
                    end;
      sessions_made := made |}, q).

End GetResponse.

(** One call of [get_response] after another, each in its own world. *)
Definition get_responses {R} (worlds : list (world R)) (self : Parser) : Parser :=
  foldl (fun self w => (get_response w self).1) self worlds.

End Requests.

Module RequestsFacts.
Import Requests.

(** [random.shuffle] rearranges the list. *)
Definition shuffles {R} (w : world R) : Prop := forall l, shuffle w l ≡ₚ l.

Lemma proxy_list_after {R} (w : world R) (self : Parser) :
  proxy_list (get_response w self).1 =
    match proxy_list self with
    | [] => []
    | _ :: _ => shuffle w (proxy_list self) ++ replicate 5 None
    end.
Proof.
  unfold get_response. destruct (requests _ _ _ _ _) as [q made].
  by destruct (proxy_list self).
Qed.

Lemma permutation_not_nil {A} (l l' : list A) : l ≡ₚ l' -> l' <> [] -> l <> [].
Proof. intros H Hne ->. symmetry in H. by apply Permutation_nil_r in H. Qed.

(** X11. A parser that has proxies keeps five more entries in [proxy_list]
    after every call of [get_response], however the call ends: after [n]
    calls the list is the one before, rearranged, with [5 * n] entries
    [None] added. *)
Theorem get_response_grows_proxy_list {R} (worlds : list (world R)) (self : Parser) :
  Forall shuffles worlds ->
  proxy_list self <> [] ->
  proxy_list (get_responses worlds self)
    ≡ₚ proxy_list self ++ replicate (5 * length worlds) None.
Proof.
  unfold get_responses. revert self.
  induction worlds as [|w worlds IH]; intros self Hall Hne.
  - cbn. by rewrite app_nil_r.
  - apply Forall_cons in Hall as [Hw Hall]. cbn [foldl].
    assert (E : proxy_list (get_response w self).1
                ≡ₚ proxy_list self ++ replicate 5 None).
    { rewrite proxy_list_after. destruct (proxy_list self) as [|p l] eqn:E; [done|].
      by rewrite (Hw (p :: l)). }
    rewrite IH; [|done|].
    + rewrite E, <- app_assoc, <- replicate_add.
      by replace (5 + 5 * length worlds) with (5 * length (w :: worlds)) by (cbn; lia).
    + eapply permutation_not_nil; [exact E|]. by destruct (proxy_list self).
Qed.

(** It has none to begin with, and keeps none. *)
Lemma get_response_no_proxies {R} (w : world R) (self : Parser) :
  proxy_list self = [] -> proxy_list (get_response w self).1 = [].
Proof. intros E. by rewrite proxy_list_after, E. Qed.

Lemma requests_all_fail {R} (w : world R) :
  (forall k proxies, get w k proxies = Raise ConnectionError) ->
  forall proxies k made,
    requests w k proxies None made = (UnboundLocalError, made + length proxies).
Proof.
  intros Hfail. induction proxies as [|p l IH]; intros k made; cbn [requests length].
  - by rewrite Nat.add_0_r.
  - rewrite Hfail, IH. f_equal. lia.
Qed.

Lemma requests_none_accepted {R} (w : world R) :
  (forall k proxies, exists q, get w k proxies = Ok q /\ test_response w q = Ok false) ->
  forall proxies k q0 made,
    exists q, requests w k proxies (Some q0) made = (Returned q, made)
      /\ (q = q0 \/ exists k' p, get w k' p = Ok q /\ test_response w q = Ok false).
Proof.
  intros Hall. induction proxies as [|p l IH]; intros k q0 made; cbn [requests].
  - exists q0. by split; [|left].
  - destruct (Hall k (proxies_of p)) as (q & Hq & Ht). rewrite Hq, Ht.
    destruct (IH (S k) q made) as (q' & E & [->|H]).
    + exists q. split; [done|]. right. by exists k, (proxies_of p).
    + exists q'. split; [done|]. by right.
Qed.

(** X12. [get_response] has no failure of its own to report.  When
    every request fails with [ConnectionError], it does not raise that
    error: having tried every entry of [proxy_list] and five direct
    requests, and made a new session after each failure, it ends in
    [UnboundLocalError], [q] never having been bound.  When every request
    is answered and [test_response] refuses every answer, it returns one
    of the refused answers. *)
Theorem get_response_exhausted {R} (w : world R) (self : Parser) :
  (shuffles w ->
   (forall k proxies, get w k proxies = Raise ConnectionError) ->
   exists self',
     get_response w self = (self', UnboundLocalError)
     /\ sessions_made self' = sessions_made self + length (proxy_list self) + 5)
  /\ ((forall k proxies, exists q, get w k proxies = Ok q /\ test_response w q = Ok false) ->
      exists self' q,
        get_response w self = (self', Returned q)
        /\ test_response w q = Ok false).
Proof.
  split.
  - intros Hw Hfail. unfold get_response. rewrite (requests_all_fail w Hfail).
    eexists. split; [reflexivity|].
    cbn [sessions_made]. rewrite length_app, length_replicate.
    destruct (proxy_list self) as [|p l] eqn:E; [cbn; lia|].
    rewrite (Permutation_length (Hw (p :: l))). lia.
  - intros Hall. unfold get_response.
    set (proxies := _ ++ replicate 5 None).
    assert (exists p l, proxies = p :: l) as (p & l & ->).
    { subst proxies. destruct (match proxy_list self with [] => [] | _ => _ end);
        cbn; eauto. }
    cbn [requests]. destruct (Hall 0 (proxies_of p)) as (q & Hq & Ht). rewrite Hq, Ht.
    destruct (requests_none_accepted w Hall l 1 q (sessions_made self)) as (q' & E & H).
    rewrite E. eexists _, q'. split; [reflexivity|].
    destruct H as [->|(k' & p' & _ & H)]; done.
Qed.

Definition offline : world unit :=
  {| get := fun _ _ => Raise ConnectionError;
     test_response := fun _ => Ok true;
     shuffle := reverse |}.

Definition refusing : world unit :=
  {| get := fun _ _ => Ok tt;
     test_response := fun _ => Ok false;
     shuffle := reverse |}.

Lemma offline_shuffles : shuffles offline.
Proof. intros l. apply reverse_Permutation. Qed.

Definition two_proxies : Parser :=
  {| proxy_list := [Some "10.0.0.1:80"; Some "10.0.0.2:80"]; sessions_made := 0 |}.

Lemma get_response_grows_proxy_list_witness :
  proxy_list (get_responses [offline; offline; offline] two_proxies)
    ≡ₚ proxy_list two_proxies ++ replicate (5 * 3) None.
Proof.
  apply (get_response_grows_proxy_list [offline; offline; offline] two_proxies).
  - repeat constructor; apply offline_shuffles.
  - done.
Defined.

Lemma get_response_exhausted_witness :
  (exists self',
     get_response offline two_proxies = (self', UnboundLocalError)
     /\ sessions_made self' = 7)
  /\ exists self' q,
       get_response refusing two_proxies = (self', Returned q)
       /\ test_response refusing q = Ok false.
Proof.
  split.
  - apply (proj1 (get_response_exhausted offline two_proxies)).
    + apply offline_shuffles.
    + done.
  - apply (proj2 (get_response_exhausted refusing two_proxies)).
    intros k proxies. by exists tt.
Defined.

End RequestsFacts.

(** ** models/parsers.py: the other [check_delta]s and [update_value] *)

Module Deltas.
Import Parsers.
Open Scope float_scope.

Section Deltas.

Variable prettify_float : float -> float.

(** The end of every [check_delta]: the two currencies are added, and the
    three fields are deleted below the threshold. *)
Definition report (iso_from iso_to : string) (percent_delta : float)
    (res : gmap string dval) : result (gmap string dval) :=
  let res := <["currency_from" := Str iso_from]> res in
  let res := <["currency_to" := Str iso_to]> res in
  match res !! "percentage_difference" with
  | Some (Num pd) =>
      if abs pd <? percent_delta
      then Ok (delete "difference" (delete "percentage_difference" (delete "new" res)))
      else Ok res
  | _ => Raise (TypeError "bad operand type for abs()")
  end.

(** [calculate_difference(old, new)] with a [new] that may be [None]. *)
Definition difference_to (old : float) (new : option float) : result (gmap string dval) :=
  match new with
  | Some new => calculate_difference prettify_float old new
  | None => Raise (TypeError "unsupported operand type(s) for -: 'float' and 'NoneType'")
  end.

(** [FreecurrencyratesParser.check_delta(iso_from, iso_to, value=1,
    percent_delta=0.01)] *)
Definition fiat_check_delta (net : Network) (iso_from iso_to : string)
    (value percent_delta : float) : result (gmap string dval) :=
  rate ← fiat_get_rate net iso_from iso_to;
  res ← difference_to value (rate !! iso_to);
  report iso_from iso_to percent_delta res.

(** [CurrencyExchanger.check_delta(iso_from, iso_to, old,
    percent_delta=0.01)] *)
Definition exchanger_check_delta (net : Network) (iso_from iso_to : string)
    (old percent_delta : float) : result (gmap string dval) :=
  rate ← exchanger_get_rate prettify_float net iso_from iso_to;
  res ← difference_to old (rate !! iso_to);
  report iso_from iso_to percent_delta res.

(** [CurrencyParser.update_value(safe=False)] on a parser whose
    [default_value] is [default_value]: the parser with its new [value], and
    the Boolean returned.  Only [ParsingError] is caught. *)
Definition update_value (self : CurrencyParser) (default_value : option float)
    (safe : bool) : result (CurrencyParser * bool) :=
  match get_rate self with
  | Ok rate =>
      Ok ({| iso := iso self; value := rate !! "USD"; page := page self |}, true)
  | Raise (ParsingError msg) =>
      if safe
      then Ok ({| iso := iso self; value := default_value; page := page self |}, false)
      else Raise (ParsingError msg)
  | Raise e => Raise e
  end.

(** [CurrencyExchanger.update_value(safe)]:
    [for curr in self.parsers: self.parsers[curr].update_value(safe=safe)],
    on the parsers with their defaults. *)
Fixpoint update_values (parsers : list (CurrencyParser * option float)) (safe : bool)
    : list (CurrencyParser * option float) * result unit :=
  match parsers with
  | [] => ([], Ok tt)
  | (p, d) :: rest =>
      match update_value p d safe with
      | Ok (p', _) =>
          let '(rest', r) := update_values rest safe in ((p', d) :: rest', r)
      | Raise e => (parsers, Raise e)
      end
  end.

End Deltas.

End Deltas.

Module DeltasFacts.
Import Parsers Deltas.
Open Scope float_scope.

Section Deltas.

Variable prettify_float : float -> float.

(** X13. The fiat parser's [check_delta] needs [iso_to] in upper case.
    [get_rate] puts the rate under the upper-case codes, and [check_delta]
    looks it up under [iso_to] as given: when that is neither of the two
    upper-case codes, the rate has been fetched and the call raises
    [TypeError]. *)
Theorem fiat_check_delta_wants_upper_case (net : Network) (iso_from iso_to : string)
    (value percent_delta : float) (rate : gmap string float) :
  fiat_get_rate net iso_from iso_to = Ok rate ->
  iso_to <> upper iso_to ->
  iso_to <> upper iso_from ->
  rate !! upper iso_to <> None
  /\ exists msg,
       fiat_check_delta prettify_float net iso_from iso_to value percent_delta
       = Raise (TypeError msg).
Proof.
  intros Hrate Hto Hfrom. unfold fiat_check_delta. rewrite Hrate.
  cbn [mbind result_bind bind]. unfold fiat_get_rate in Hrate.
  destruct (String.eqb_spec (upper iso_from) (upper iso_to)) as [He|Hn].
  - injection Hrate as <-. rewrite He. rewrite lookup_insert_eq. split; [done|].
    rewrite lookup_insert_ne by done. rewrite lookup_empty. by eexists.
  - destruct (fiat net (upper iso_from) (upper iso_to)) as [number|]; [|done].
    injection Hrate as <-. rewrite lookup_insert_eq. split; [done|].
    rewrite !lookup_insert_ne by done. rewrite lookup_empty. by eexists.
Qed.

(** The dictionary of a [check_delta] above the threshold, and below it. *)
Definition full_report (iso_from iso_to : string) (old new pd diff : float)
    : gmap string dval :=
  <["currency_to" := Str iso_to]>
    (<["currency_from" := Str iso_from]>
       (ParsersFacts.difference_dict old new pd diff)).

Definition short_report (iso_from iso_to : string) (old : float) : gmap string dval :=
  <["currency_to" := Str iso_to]>
    (<["currency_from" := Str iso_from]> (<["old" := Num old]> ∅)).

Lemma suppressed_report (iso_from iso_to : string) (old new pd diff : float) :
  delete "difference" (delete "percentage_difference" (delete "new"
    (full_report iso_from iso_to old new pd diff)))
  = short_report iso_from iso_to old.
Proof.
  unfold full_report, short_report, ParsersFacts.difference_dict.
  apply map_eq. intros k.
  destruct (decide (k = "difference")) as [->|?]; [by simplify_map_eq|].
  destruct (decide (k = "percentage_difference")) as [->|?]; [by simplify_map_eq|].
  destruct (decide (k = "new")) as [->|?]; [by simplify_map_eq|].
  destruct (decide (k = "currency_to")) as [->|?]; [by simplify_map_eq|].
  destruct (decide (k = "currency_from")) as [->|?]; [by simplify_map_eq|].
  destruct (decide (k = "old")) as [->|?]; by simplify_map_eq.
Qed.

(** X14. The aggregator's [check_delta] compares [old] with the rate its
    [get_rate] returns.  When a currency cannot be resolved it raises
    [CurrencyDoesNotExistError] as [get_rate] does.  When both USD values
    are fetched it returns the two currencies as given and [old]; the
    fields [new], [percentage_difference] and [difference] are there
    unless the absolute percentage difference is below [percent_delta]. *)
Theorem exchanger_check_delta_spec (net : Network) (iso_from iso_to : string)
    (old percent_delta : float) :
  (resolvable net iso_from = false \/ resolvable net iso_to = false ->
   exchanger_check_delta prettify_float net iso_from iso_to old percent_delta
   = Raise not_found)
  /\ (forall from_usd to_usd : float,
      resolvable net iso_from = true -> resolvable net iso_to = true ->
      usd_rate net iso_from = Ok from_usd ->
      usd_rate net iso_to = Ok to_usd ->
      (to_usd =? 0) = false ->
      let new := prettify_float ((1 / to_usd) * from_usd) in
      (PyFloat.max old new =? 0) = false ->
      let pd := - prettify_float ((old - new) / PyFloat.max old new) in
      exchanger_check_delta prettify_float net iso_from iso_to old percent_delta
      = Ok (if abs pd <? percent_delta
            then short_report iso_from iso_to old
            else full_report iso_from iso_to old new pd
                   (prettify_float (- (old - new))))).
Proof.
  split.
  - intros H%ParsersFacts.check_rate_exists_false.
    unfold exchanger_check_delta, exchanger_get_rate. by rewrite H.
  - intros from_usd to_usd Hf Ht (rf & Hrf & Hfu)%ParsersFacts.usd_rate_inv
      (rt & Hrt & Htu)%ParsersFacts.usd_rate_inv Hnz new Hmax pd.
    unfold exchanger_check_delta, exchanger_get_rate, check_rate_exists. cbn [forallb].
    rewrite Hf, Ht. cbn [andb negb].
    unfold get_rate_body. rewrite Hrf, Hrt. cbn [mbind result_bind bind].
    unfold getitem. rewrite Htu. cbn [mbind result_bind bind].
    unfold PyFloat.truediv. rewrite Hnz. cbn [mbind result_bind bind].
    rewrite Hfu. cbn [mbind result_bind bind]. rewrite lookup_insert_eq.
    unfold difference_to. fold new.
    rewrite (ParsersFacts.calculate_difference_ok prettify_float old new Hmax).
    cbn [mbind result_bind bind]. unfold report. fold pd.
    fold (full_report iso_from iso_to old new pd (prettify_float (- (old - new)))).
    replace (full_report iso_from iso_to old new pd (prettify_float (- (old - new)))
               !! "percentage_difference") with (Some (Num pd)).
    2:{ unfold full_report, ParsersFacts.difference_dict. by simplify_map_eq. }
    destruct (abs pd <? percent_delta); [|done]. by rewrite suppressed_report.
Qed.

(** *** [update_value] *)

(** A parser after a successful, or a safe, update. *)
Definition refreshed (entry : CurrencyParser * option float)
    : CurrencyParser * option float :=
  ({| iso := iso entry.1;
      value := match page entry.1 with
               | Ok number => Some number
               | Raise _ => entry.2
               end;
      page := page entry.1 |}, entry.2).

(** The page can be parsed, or the parser raises [ParsingError]. *)
Definition parses_or_fails (entry : CurrencyParser * option float) : Prop :=
  match page entry.1 with
  | Ok _ | Raise (ParsingError _) => True
  | Raise _ => False
  end.

Definition parses (entry : CurrencyParser * option float) : Prop :=
  is_ok (page entry.1) = true.

Lemma update_value_ok (self : CurrencyParser) (d : option float) (safe : bool)
    (number : float) :
  page self = Ok number ->
  update_value self d safe = Ok ((refreshed (self, d)).1, true).
Proof.
  intros Hp. unfold update_value, get_rate, refreshed. cbn [fst snd]. rewrite !Hp.
  cbn [mbind result_bind bind]. by rewrite lookup_insert_eq.
Qed.

(** The exception is no [ParsingError]. *)
Definition escapes (e : exn) : Prop :=
  match e with ParsingError _ => False | _ => True end.

(** X15. A safe update catches [ParsingError] and nothing else.  As long
    as the pages parse or raise [ParsingError], it gives every parser of
    the aggregator a value, the parsed one or the parser's default, and
    returns; an exception of another class escapes it at the first parser
    that raises one, with the parsers before that one updated and the
    others as they were.  An update that is not safe stops in the same way
    at the first parser that raises anything. *)
Theorem update_values_spec (parsers : list (CurrencyParser * option float)) :
  (Forall parses_or_fails parsers ->
   update_values parsers true = (refreshed <$> parsers, Ok tt))
  /\ (forall before entry after e,
      parsers = before ++ entry :: after ->
      Forall parses_or_fails before ->
      page entry.1 = Raise e ->
      escapes e ->
      update_values parsers true = ((refreshed <$> before) ++ entry :: after, Raise e))
  /\ (forall before entry after e,
      parsers = before ++ entry :: after ->
      Forall parses before ->
      page entry.1 = Raise e ->
      update_values parsers false = ((refreshed <$> before) ++ entry :: after, Raise e)).
Proof.
  assert (Hsafe : forall p d, parses_or_fails (p, d) ->
            update_value p d true = Ok ((refreshed (p, d)).1, is_ok (page p))).
  { intros p d Hp. unfold parses_or_fails in Hp. cbn [fst] in Hp.
    destruct (page p) as [number|e] eqn:Ep.
    - by rewrite (update_value_ok p d true number Ep).
    - destruct e; try done. unfold update_value, get_rate, refreshed. cbn [fst snd].
      by rewrite !Ep. }
  split; [|split].
  - induction 1 as [|[p d] rest Hp _ IH]; [done|].
    cbn [update_values]. rewrite fmap_cons, (Hsafe p d Hp), IH. done.
  - intros before [p d] after e -> Hbefore Hp He. cbn [fst] in Hp.
    induction Hbefore as [|[q dq] rest Hq _ IH].
    + cbn [app fmap list_fmap update_values]. unfold update_value, get_rate.
      rewrite Hp. cbn [mbind result_bind bind]. by destruct e.
    + cbn [app update_values]. rewrite fmap_cons, (Hsafe q dq Hq). cbn [app].
      by rewrite IH.
  - intros before [p d] after e -> Hbefore Hp. cbn [fst] in Hp.
    induction Hbefore as [|[q dq] rest Hq _ IH].
    + cbn [app fmap list_fmap update_values]. unfold update_value, get_rate.
      rewrite Hp. cbn [mbind result_bind bind]. by destruct e.
    + cbn [app update_values]. rewrite fmap_cons. unfold parses in Hq. cbn [fst] in Hq.
      destruct (page q) as [number|] eqn:Eq; [|done].
      rewrite (update_value_ok q dq false number Eq). cbn [app]. by rewrite IH.
Qed.

End Deltas.

(** The world of [ParsersFacts.sample_network]; prices are left as they
    are. *)
Lemma fiat_check_delta_wants_upper_case_witness :
  (<["USD" := 1.25]> (<["EUR" := 1]> ∅) : gmap string float) !! "USD" <> None
  /\ exists msg,
       fiat_check_delta ParsersFacts.keep ParsersFacts.sample_network "EUR" "usd" 1 0.01
       = Raise (TypeError msg).
Proof.
  apply (fiat_check_delta_wants_upper_case ParsersFacts.keep ParsersFacts.sample_network
           "EUR" "usd" 1 0.01 (<["USD" := 1.25]> (<["EUR" := 1]> ∅)));
    [reflexivity|done|done].
Defined.

Lemma exchanger_check_delta_witness :
  exchanger_check_delta ParsersFacts.keep ParsersFacts.sample_network "BTC" "EUR" 8000 0.01
  = Ok (full_report "BTC" "EUR" 8000 16000 0.5 8000)
  /\ exchanger_check_delta ParsersFacts.keep ParsersFacts.sample_network "BTC" "EUR"
       16000 0.01
     = Ok (short_report "BTC" "EUR" 16000)
  /\ exchanger_check_delta ParsersFacts.keep ParsersFacts.sample_network "BTC" "XAU"
       8000 0.01
     = Raise not_found.
Proof.
  split; [|split].
  - exact (proj2 (exchanger_check_delta_spec ParsersFacts.keep ParsersFacts.sample_network
                    "BTC" "EUR" 8000 0.01)
             20000 1.25 eq_refl eq_refl eq_refl eq_refl eq_refl eq_refl).
  - exact (proj2 (exchanger_check_delta_spec ParsersFacts.keep ParsersFacts.sample_network
                    "BTC" "EUR" 16000 0.01)
             20000 1.25 eq_refl eq_refl eq_refl eq_refl eq_refl eq_refl).
  - exact (proj1 (exchanger_check_delta_spec ParsersFacts.keep ParsersFacts.sample_network
                    "BTC" "XAU" 8000 0.01) (or_intror eq_refl)).
Defined.

(** Two parsers of an aggregator, with defaults: the page of the first
    shows a price, that of the second cannot be parsed. *)
Definition bitcoin : CurrencyParser * option float :=
  ({| iso := "BTC"; value := None; page := Ok 20000 |}, Some 10000).
Definition gold : CurrencyParser * option float :=
  ({| iso := "XAU"; value := Some 1800;
      page := Raise (ParsingError "can not parse currency") |}, Some 1900).

(** A third one, whose page shows no number: [float] raises. *)
Definition silver : CurrencyParser * option float :=
  ({| iso := "Silver"; value := Some 25;
      page := Raise (ValueError "could not convert string to float") |}, Some 24).

Lemma update_values_witness :
  update_values [bitcoin; gold] true
  = ([({| iso := "BTC"; value := Some 20000; page := Ok 20000 |}, Some 10000);
      ({| iso := "XAU"; value := Some 1900;
          page := Raise (ParsingError "can not parse currency") |}, Some 1900)], Ok tt)
  /\ update_values [bitcoin; silver; gold] true
     = ([({| iso := "BTC"; value := Some 20000; page := Ok 20000 |}, Some 10000);
         silver; gold], Raise (ValueError "could not convert string to float"))
  /\ update_values [bitcoin; gold; bitcoin] false
     = ([({| iso := "BTC"; value := Some 20000; page := Ok 20000 |}, Some 10000);
         gold; bitcoin], Raise (ParsingError "can not parse currency")).
Proof.
  split; [|split].
  - apply (proj1 (update_values_spec [bitcoin; gold])). by repeat constructor.
  - apply (proj1 (proj2 (update_values_spec [bitcoin; silver; gold]))
             [bitcoin] silver [gold]); [reflexivity| |reflexivity|exact I].
    by repeat constructor.
  - apply (proj2 (proj2 (update_values_spec [bitcoin; gold; bitcoin]))
             [bitcoin] gold [bitcoin]); [reflexivity| |reflexivity].
    by repeat constructor.
Defined.

End DeltasFacts.

(** ** What [sqlite3] binds and SQLite counts *)

Module Sqlite.
#[local] Open Scope Z_scope.

(** A Python [int] that [sqlite3] binds: a signed integer of 64 bits.  For
    any other [int] the statement is not run and [OverflowError] is
    raised. *)
Definition int64 (z : Z) : bool := (- 2 ^ 63 <=? z) && (z <? 2 ^ 63).

Definition too_large : exn :=
  OverflowError "Python int too large to convert to SQLite INTEGER".

(** [LENGTH(text)], on the bytes of the text in UTF-8: the characters
    before the first NUL.  A byte from [0xC0] on starts a character, and the
    bytes [0x80] to [0xBF] that follow it belong to that character;
    [in_character] tells that such a byte has been passed. *)
Fixpoint length_from (in_character : bool) (s : string) : nat :=
  match s with
  | EmptyString => 0
  | String c rest =>
      let n := nat_of_ascii c in
      if (n =? 0)%nat then 0%nat
      else if in_character && (128 <=? n)%nat && (n <? 192)%nat
           then length_from true rest
           else S (length_from (192 <=? n)%nat rest)
  end.

Definition sqlite_length (s : string) : nat := length_from false s.

(** The text is made of ASCII characters other than NUL. *)
Definition ascii_only (s : string) : bool :=
  forallb (fun c => let n := nat_of_ascii c in (0 <? n)%nat && (n <? 128)%nat)
          (list_ascii_of_string s).

End Sqlite.

Module SqliteFacts.
Import Sqlite.

(** For a text in ASCII, [LENGTH] is the length in bytes. *)
Lemma sqlite_length_ascii (s : string) :
  ascii_only s = true -> sqlite_length s = String.length s.
Proof.
  unfold sqlite_length, ascii_only. induction s as [|c s IH]; [done|].
  cbn [list_ascii_of_string forallb length_from String.length].
  intros [[H0 H1]%andb_true_iff Hs]%andb_true_iff.
  apply Nat.ltb_lt in H0, H1.
  destruct (Nat.eqb_spec (nat_of_ascii c) 0) as [E|_]; [lia|].
  replace (128 <=? nat_of_ascii c)%nat with false
    by (symmetry; apply Nat.leb_gt; lia).
  replace (192 <=? nat_of_ascii c)%nat with false
    by (symmetry; apply Nat.leb_gt; lia).
  rewrite andb_false_r. cbn [andb]. by rewrite IH.
Qed.

(** Two letters of the Cyrillic alphabet count two, one accented letter
    counts one, and nothing counts after a NUL. *)
Example sqlite_length_examples :
  sqlite_length (String (ascii_of_nat 209) (String (ascii_of_nat 128)
                   (String (ascii_of_nat 209) (String (ascii_of_nat 131) "")))) = 2%nat
  /\ sqlite_length (String (ascii_of_nat 195) (String (ascii_of_nat 169) "")) = 1%nat
  /\ sqlite_length (String "e" (String (ascii_of_nat 0) (String "n" ""))) = 1%nat
  /\ sqlite_length "en" = 2%nat.
Proof. repeat split. Qed.

End SqliteFacts.

(** ** models/db.py: predictions, reactions and users *)

Module HandlerFacts.
Import Dt Db DbFacts.
Open Scope Z_scope.

Lemma select_by_id_none {A : Type} (key : A -> Z) (id : Z) (l : list A) :
  ~ Exists (fun r => key r = id) l ->
  filter (fun r => equals_integer (key r) (SInteger id) = true) l = [].
Proof.
  intros Hno. induction l as [|r l IH]; [done|].
  rewrite filter_cons. destruct (decide _) as [Heq|_].
  - cbn in Heq. apply Z.eqb_eq in Heq. destruct Hno. by left.
  - apply IH. intros H. apply Hno. by right.
Qed.

Lemma check_user_exists_false (db : database) (uid : Z) :
  ~ Exists (fun u => u_user_id u = uid) (users db) ->
  check_user_exists (PInt uid) db = (db, Ok false).
Proof.
  intros Hno. unfold check_user_exists, select_user_id, fetchall. run. cbn [adapt].
  by rewrite (select_by_id_none u_user_id).
Qed.

Lemma check_prediction_exists_false (db : database) (id : Z) :
  ~ Exists (fun r => p_id r = id) (currency_predictions db) ->
  check_prediction_exists (PInt id) db = (db, Ok false).
Proof.
  intros Hno. unfold check_prediction_exists, select_prediction_id, fetchall. run.
  cbn [adapt]. by rewrite (select_by_id_none p_id).
Qed.



(** *** Reactions *)

(** The reaction rows of one user on one prediction. *)
Definition reactions_of (pred_id user_id : Z) (db : database) : list reaction_row :=
  filter (fun x => x_pred_id x = pred_id /\ x_user_id x = user_id)
         (predictions_reactions db).

(** The reaction rows of everybody else, or on other predictions. *)
Definition other_reactions (pred_id user_id : Z) (db : database) : list reaction_row :=
  filter (fun x => ~ (x_pred_id x = pred_id /\ x_user_id x = user_id))
         (predictions_reactions db).

Lemma filter_filter_not {A : Type} (P : A -> Prop) `{forall x, Decision (P x)}
    (l : list A) :
  filter P (filter (fun x => ~ P x) l) = [].
Proof.
  induction l as [|x l IH]; [done|].
  rewrite (filter_cons (fun x => ~ P x)). destruct (decide (~ P x)) as [Hn|_]; [|done].
  rewrite filter_cons. by destruct (decide (P x)).
Qed.

Lemma filter_idem {A : Type} (P : A -> Prop) `{forall x, Decision (P x)} (l : list A) :
  filter P (filter P l) = filter P l.
Proof.
  induction l as [|x l IH]; [done|].
  rewrite (filter_cons P x l). destruct (decide (P x)) as [Hp|_]; [|done].
  rewrite filter_cons. destruct (decide (P x)); [by rewrite IH|done].
Qed.

(** X17. For a prediction and a user that exist, [toggle_prediction_reaction]
    leaves exactly the reaction asked for: whatever rows the user had on the
    prediction are replaced by one row ([if_like] a Boolean) or none
    ([if_like] is [None]); no other reaction, user or prediction changes. *)
Theorem toggle_prediction_reaction_sets (db : database) (pred_id user_id : Z)
    (if_like : option bool) :
  Exists (fun r => p_id r = pred_id) (currency_predictions db) ->
  Exists (fun u => u_user_id u = user_id) (users db) ->
  exists db',
    toggle_prediction_reaction pred_id user_id if_like db = (db', Ok (Some true))
    /\ reactions_of pred_id user_id db' =
         match if_like with
         | Some like => [{| x_pred_id := pred_id; x_user_id := user_id;
                            x_reaction := if like then 1 else 0 |}]
         | None => []
         end
    /\ other_reactions pred_id user_id db' = other_reactions pred_id user_id db
    /\ users db' = users db
    /\ currency_predictions db' = currency_predictions db.
Proof.
  intros Hp Hu. unfold toggle_prediction_reaction.
  unfold mbind at 1. unfold M_bind. rewrite (check_prediction_exists_true db _ Hp).
  unfold mbind at 1. unfold M_bind. rewrite (check_user_exists_true db _ Hu).
  unfold delete_reaction, insert_reaction, reactions_of, other_reactions. run.
  destruct if_like as [like|]; cbn [predictions_reactions users currency_predictions];
    (eexists; split; [reflexivity|]); cbn [predictions_reactions users currency_predictions].
  - rewrite !filter_app, filter_filter_not, filter_idem.
    rewrite !filter_cons, !filter_nil. cbn [x_pred_id x_user_id].
    destruct (decide (pred_id = pred_id /\ user_id = user_id)) as [_|[]]; [|done].
    destruct (decide (~ (pred_id = pred_id /\ user_id = user_id))) as [[]|_]; [done|].
    by rewrite app_nil_r.
  - by rewrite filter_filter_not, filter_idem.
Qed.

(** When the prediction or the user is missing, nothing is stored and the
    call returns [None]. *)
Lemma toggle_prediction_reaction_missing (db : database) (pred_id user_id : Z)
    (if_like : option bool) :
  ~ Exists (fun r => p_id r = pred_id) (currency_predictions db)
  \/ ~ Exists (fun u => u_user_id u = user_id) (users db) ->
  toggle_prediction_reaction pred_id user_id if_like db = (db, Ok None).
Proof.
  intros Hno. unfold toggle_prediction_reaction.
  destruct (decide (Exists (fun r => p_id r = pred_id) (currency_predictions db)))
    as [Hp|Hp].
  - destruct Hno as [Hno|Hno]; [done|].
    unfold mbind at 1. unfold M_bind. rewrite (check_prediction_exists_true db _ Hp).
    unfold mbind at 1. unfold M_bind. by rewrite (check_user_exists_false db _ Hno).
  - unfold mbind at 1. unfold M_bind. by rewrite (check_prediction_exists_false db _ Hp).
Qed.

Lemma toggle_prediction_reaction_witness :
  exists db',
    toggle_prediction_reaction 1 8 (Some true) sample = (db', Ok (Some true))
    /\ reactions_of 1 8 sample = [{| x_pred_id := 1; x_user_id := 8; x_reaction := 0 |}]
    /\ reactions_of 1 8 db' = [{| x_pred_id := 1; x_user_id := 8; x_reaction := 1 |}].
Proof.
  assert (Hp : Exists (fun r => p_id r = 1) (currency_predictions sample)).
  { apply (bool_decide_unpack _). by vm_compute. }
  assert (Hu : Exists (fun u => u_user_id u = 8) (users sample)).
  { apply (bool_decide_unpack _). by vm_compute. }
  destruct (toggle_prediction_reaction_sets sample 1 8 (Some true) Hp Hu)
    as (db' & Hrun & Hset & _).
  exists db'. split; [exact Hrun|]. split; [by vm_compute|exact Hset].
Defined.

(** *** [add_prediction] *)

(** The method body, after the range check of the decorator. *)
Definition add_prediction_body (utcnow : datetime) (user_id : Z) (iso_from iso_to : string)
    (value : float) (up_to_date : datetime) (is_by_experts : bool) : M bool :=
  found ← check_user_exists (PInt user_id);
  if found : bool then
    in_future ← lift (check_datetime_in_future utcnow up_to_date 0);
    lift (py_assert in_future "can't create prediction with past `up_to_date`");;
    insert_prediction user_id iso_from iso_to value (str_datetime up_to_date) is_by_experts;;
    mret true
  else mret false.

Lemma add_prediction_unfold (utcnow : datetime) (user_id : Z) (iso_from iso_to : string)
    (value : float) (up_to_date : datetime) (is_by_experts : bool) (db : database) :
  add_prediction utcnow user_id iso_from iso_to value up_to_date is_by_experts db =
  match Decorators.assert_in_range py_lt py_le repr true zero_to_inf.1 zero_to_inf.2
          (PFloat value) "value" with
  | Ok _ => add_prediction_body utcnow user_id iso_from iso_to value up_to_date
              is_by_experts db
  | Raise e => (db, Raise e)
  end.
Proof.
  unfold add_prediction, decorated, Decorators.wrapper.
  cbn [length take Decorators.check_args Decorators.check_arg Decorators.kwargs_get].
  replace (Decorators.index "value"
             ["self"; "user_id"; "iso_from"; "iso_to"; "value"; "up_to_date";
              "is_by_experts"]) with (Some 4%nat) by (by vm_compute).
  cbn [lookup list_lookup zero_to_inf fst snd].
  by destruct (Decorators.assert_in_range _ _ _ _ _ _ _ _) as [[]|].
Qed.

Lemma foldr_max_bound (z : Z) (l : list Z) :
  z <= foldr Z.max z l /\ Forall (fun x => x <= foldr Z.max z l) l.
Proof.
  induction l as [|x l [IH1 IH2]]; cbn [foldr]; [split; [lia|constructor]|].
  split; [lia|]. constructor; [lia|].
  eapply Forall_impl; [exact IH2|]. cbn. lia.
Qed.

(** The row [add_prediction] appends, with the id it is given. *)
Definition new_prediction (id user_id : Z) (iso_from iso_to : string) (value : float)
    (up_to_date : datetime) (is_by_experts : bool) : prediction_row :=
  {| p_id := id; p_user_id := SInteger user_id;
     p_iso_from := SText iso_from; p_iso_to := SText iso_to;
     p_value := SReal value; p_up_to_date := SText (str_datetime up_to_date);
     p_is_by_experts := SInteger (if is_by_experts then 1 else 0);
     p_real_value := SNull |}.

(** The next id AUTOINCREMENT hands out. *)
Definition next_id (db : database) : Z :=
  1 + foldr Z.max (sequence db) (p_id <$> currency_predictions db).

(** The conditions under which [add_prediction] stores a prediction. *)
Record acceptable (utcnow : datetime) (db : database) (user_id : Z) (value : float)
    (up_to_date : datetime) : Prop := {
  acc_clock : valid_datetime utcnow = true;
  acc_user : Exists (fun u => u_user_id u = user_id) (users db);
  acc_value : ((0 <? value) && (value <? infinity))%float = true;
  acc_future : exists off, tzinfo up_to_date = Some off
                 /\ civil_microseconds (this_second utcnow) <= utc_microseconds up_to_date off
}.

Lemma add_prediction_ok (utcnow : datetime) (db : database) (user_id : Z)
    (iso_from iso_to : string) (value : float) (up_to_date : datetime)
    (is_by_experts : bool) :
  acceptable utcnow db user_id value up_to_date ->
  add_prediction utcnow user_id iso_from iso_to value up_to_date is_by_experts db =
    ({| users := users db; users_rates := users_rates db;
        currency_predictions := currency_predictions db
          ++ [new_prediction (next_id db) user_id iso_from iso_to value up_to_date
                is_by_experts];
        predictions_reactions := predictions_reactions db;
        sequence := next_id db |}, Ok true).
Proof.
  intros [Hv Hu Hval (off & Hoff & Hfut)].
  rewrite add_prediction_unfold, GuardFacts.assert_positive, Hval.
  unfold add_prediction_body.
  unfold mbind at 1. unfold M_bind. rewrite (check_user_exists_true db _ Hu).
  run. rewrite (check_datetime_in_future_aware utcnow up_to_date off Hv Hoff).
  destruct (_ <=? _) eqn:E; [|apply Z.leb_gt in E; lia].
  cbn [py_assert]. unfold insert_prediction. run. reflexivity.
Qed.

(** X18. [add_prediction] stores the prediction, and returns [True], when
    the user exists, the value is positive and finite and [up_to_date] is
    an aware timestamp not before the current second.  The prediction is
    appended with an id larger than every id in the table and than every id
    handed out before; nothing else changes.  In every other case (the
    call returns [False] or raises) the tables are left as they were. *)
Theorem add_prediction_stores (utcnow : datetime) (db : database) (user_id : Z)
    (iso_from iso_to : string) (value : float) (up_to_date : datetime)
    (is_by_experts : bool) :
  (acceptable utcnow db user_id value up_to_date ->
   exists db' id,
     add_prediction utcnow user_id iso_from iso_to value up_to_date is_by_experts db
     = (db', Ok true)
     /\ currency_predictions db' = currency_predictions db
          ++ [new_prediction id user_id iso_from iso_to value up_to_date is_by_experts]
     /\ sequence db < id
     /\ Forall (fun r => p_id r < id) (currency_predictions db)
     /\ sequence db' = id
     /\ users db' = users db
     /\ users_rates db' = users_rates db
     /\ predictions_reactions db' = predictions_reactions db)
  /\ (let run := add_prediction utcnow user_id iso_from iso_to value up_to_date
                   is_by_experts db in
      run.2 = Ok true \/ run.1 = db).
Proof.
  split.
  - intros Hacc. eexists _, (next_id db).
    split; [by apply add_prediction_ok|]. cbn.
    destruct (foldr_max_bound (sequence db) (p_id <$> currency_predictions db)) as [H1 H2].
    repeat split; try done; unfold next_id; [lia|].
    rewrite Forall_fmap in H2. eapply Forall_impl; [exact H2|]. cbn. lia.
  - cbn zeta. rewrite add_prediction_unfold.
    destruct (Decorators.assert_in_range _ _ _ _ _ _ _ _) as [[]|e]; [|by right].
    unfold add_prediction_body, check_user_exists, select_user_id, insert_prediction. run.
    cbn [adapt].
    destruct (0 <? length _)%nat; [|by right].
    destruct (check_datetime_in_future utcnow up_to_date 0) as [[]|e]; cbn; auto.
Qed.

Lemma filter_all {A : Type} (P : A -> Prop) `{forall x, Decision (P x)} (l : list A) :
  Forall P l -> filter P l = l.
Proof.
  induction 1 as [|x l Hx _ IH]; [done|].
  rewrite filter_cons. destruct (decide (P x)); [by rewrite IH|done].
Qed.

Lemma foldr_max_below (z : Z) (l : list Z) :
  Forall (fun x => x <= z) l -> foldr Z.max z l = z.
Proof. induction 1 as [|x l Hx _ IH]; cbn [foldr]; [done|]. rewrite IH. lia. Qed.

(** X19. A deleted prediction's id is not handed out again: when a
    prediction is added, deleted and added anew, the second id is the
    first plus one. *)
Theorem prediction_ids_not_reused (utcnow : datetime) (db : database) (user_id : Z)
    (iso_from iso_to : string) (value : float) (up_to_date : datetime)
    (is_by_experts : bool) :
  acceptable utcnow db user_id value up_to_date ->
  exists db1 db2 db3 id,
    add_prediction utcnow user_id iso_from iso_to value up_to_date is_by_experts db
    = (db1, Ok true)
    /\ p_id <$> currency_predictions db1 = (p_id <$> currency_predictions db) ++ [id]
    /\ delete_prediction id db1 = (db2, Ok true)
    /\ currency_predictions db2 = currency_predictions db
    /\ add_prediction utcnow user_id iso_from iso_to value up_to_date is_by_experts db2
       = (db3, Ok true)
    /\ p_id <$> currency_predictions db3 = (p_id <$> currency_predictions db) ++ [id + 1].
Proof.
  intros Hacc. pose proof Hacc as [Hv Hu Hval Hfut].
  destruct (foldr_max_bound (sequence db) (p_id <$> currency_predictions db)) as [H1 H2].
  rewrite Forall_fmap in H2.
  assert (Hkeep : filter (fun r => p_id r <> next_id db) (currency_predictions db)
                  = currency_predictions db).
  { apply filter_all. eapply Forall_impl; [exact H2|]. unfold next_id. cbn. lia. }
  eexists _, _, _, (next_id db).
  split; [by apply add_prediction_ok|]. cbn [currency_predictions].
  split; [by rewrite fmap_app|].
  unfold delete_prediction, delete_from_predictions. run.
  cbn [currency_predictions users users_rates predictions_reactions sequence].
  split; [reflexivity|].
  rewrite filter_app, Hkeep, filter_cons, filter_nil. cbn [new_prediction p_id].
  destruct (decide (next_id db <> next_id db)) as [[]|_]; [done|]. rewrite app_nil_r.
  split; [done|].
  split.
  - apply add_prediction_ok. by split.
  - cbn [currency_predictions]. rewrite fmap_app. f_equal. cbn.
    unfold next_id at 1. cbn [sequence currency_predictions].
    rewrite foldr_max_below; [by rewrite Z.add_comm|].
    rewrite Forall_fmap. eapply Forall_impl; [exact H2|]. unfold next_id. cbn. lia.
Qed.

Lemma add_prediction_stores_witness :
  acceptable noon sample 7 1.5 april
  /\ exists db' id,
       add_prediction noon 7 "BTC" "USD" 1.5 april false sample = (db', Ok true)
       /\ currency_predictions db' = currency_predictions sample
            ++ [new_prediction id 7 "BTC" "USD" 1.5 april false]
       /\ sequence sample < id.
Proof.
  assert (Hacc : acceptable noon sample 7 1.5 april).
  { split; [reflexivity| |reflexivity|].
    - apply (bool_decide_unpack _). by vm_compute.
    - exists 0. split; [reflexivity|]. by vm_compute. }
  split; [exact Hacc|].
  destruct (proj1 (add_prediction_stores noon sample 7 "BTC" "USD" 1.5 april false) Hacc)
    as (db' & id & Hrun & Hrows & Hseq & _).
  exists db', id. split; [exact Hrun|]. split; [exact Hrows|exact Hseq].
Defined.

Lemma prediction_ids_not_reused_witness :
  acceptable noon sample 7 1.5 april
  /\ exists db1 db2 db3 id,
       add_prediction noon 7 "BTC" "USD" 1.5 april false sample = (db1, Ok true)
       /\ delete_prediction id db1 = (db2, Ok true)
       /\ add_prediction noon 7 "BTC" "USD" 1.5 april false db2 = (db3, Ok true)
       /\ p_id <$> currency_predictions db3
          = (p_id <$> currency_predictions sample) ++ [id + 1].
Proof.
  assert (Hacc : acceptable noon sample 7 1.5 april).
  { split; [reflexivity| |reflexivity|].
    - apply (bool_decide_unpack _). by vm_compute.
    - exists 0. split; [reflexivity|]. by vm_compute. }
  split; [exact Hacc|].
  destruct (prediction_ids_not_reused noon sample 7 "BTC" "USD" 1.5 april false Hacc)
    as (db1 & db2 & db3 & id & H1 & _ & H2 & _ & H3 & H4).
  exists db1, db2, db3, id. repeat split; assumption.
Defined.

(** *** [add_user] *)

(** The row [add_user] stores. *)
Definition new_user (user_id : Z) (is_active : bool) (is_pro : premium)
    (is_staff to_notify_by_experts : bool) (timezone : Z) (language : string) : user_row :=
  {| u_user_id := user_id; u_is_active := sql_bool is_active;
     u_is_pro := match is_pro with
                 | Until d => SText (strftime_ymd_hms d)
                 | Flag b => sql_bool b
                 end;
     u_is_staff := sql_bool is_staff;
     u_to_notify_by_experts := sql_bool to_notify_by_experts;
     u_timezone := SInteger timezone; u_language := SText language |}.

(** What the CHECK constraints of the table ask of the two fields. *)
Definition checks_pass (timezone : Z) (language : string) : Prop :=
  -11 <= timezone <= 12 /\ (2 <= String.length language <= 3)%nat.

(** X20. [add_user] keeps one row per user id.  For an id and a time zone
    that are integers of 64 bits and a language in ASCII: with a time zone
    in [-11, 12] and a language of two or three characters it returns
    [True] and the table then holds exactly one row for the id, the new
    one, even if the id was there before; the rows of the other users and
    the other tables are untouched.  Otherwise SQLite's [IntegrityError]
    escapes and nothing is stored. *)
Theorem add_user_replaces (db : database) (user_id : Z) (is_active : bool)
    (is_pro : premium) (is_staff to_notify : bool) (timezone : Z) (language : string) :
  Sqlite.int64 user_id = true ->
  Sqlite.int64 timezone = true ->
  Sqlite.ascii_only language = true ->
  (checks_pass timezone language ->
   exists db',
     add_user user_id is_active is_pro is_staff to_notify timezone language db
     = (db', Ok true)
     /\ filter (fun u => u_user_id u = user_id) (users db')
        = [new_user user_id is_active is_pro is_staff to_notify timezone language]
     /\ filter (fun u => u_user_id u <> user_id) (users db')
        = filter (fun u => u_user_id u <> user_id) (users db)
     /\ users_rates db' = users_rates db
     /\ currency_predictions db' = currency_predictions db
     /\ predictions_reactions db' = predictions_reactions db)
  /\ (~ checks_pass timezone language ->
      exists msg,
        add_user user_id is_active is_pro is_staff to_notify timezone language db
        = (db, Raise (IntegrityError msg))).
Proof.
  intros _ _ _.
  unfold checks_pass, add_user, insert_user, between. run. split.
  - intros [Htz Hlang].
    destruct (_ <=? timezone) eqn:E1; [|apply Z.leb_gt in E1; lia].
    destruct (timezone <=? _) eqn:E2; [|apply Z.leb_gt in E2; lia].
    destruct (2 <=? _) eqn:E3; [|apply Z.leb_gt in E3; lia].
    destruct (_ <=? 3) eqn:E4; [|apply Z.leb_gt in E4; lia].
    cbn [andb negb]. eexists. split; [reflexivity|].
    cbn [users users_rates currency_predictions predictions_reactions].
    rewrite !filter_app, (filter_filter_not (fun u => u_user_id u = user_id)), filter_idem.
    rewrite !filter_cons, !filter_nil. cbn [u_user_id].
    destruct (decide (user_id = user_id)) as [_|[]]; [|done].
    destruct (decide (user_id <> user_id)) as [[]|_]; [done|].
    by rewrite app_nil_r.
  - intros Hno.
    destruct (_ <=? timezone) eqn:E1; [|cbn; eauto].
    destruct (timezone <=? _) eqn:E2; [|cbn; eauto].
    destruct (2 <=? _) eqn:E3; [|cbn; eauto].
    destruct (_ <=? 3) eqn:E4; [|cbn; eauto].
    apply Z.leb_le in E1, E2, E3, E4. destruct Hno. lia.
Qed.

Lemma add_user_replaces_witness :
  checks_pass 3 "ru"
  /\ (exists db',
        add_user 7 false (Until premium_end) true true 3 "ru" sample = (db', Ok true)
        /\ filter (fun u => u_user_id u = 7) (users db')
           = [new_user 7 false (Until premium_end) true true 3 "ru"]
        /\ filter (fun u => u_user_id u = 7) (users sample)
           = [new_user 7 true (Flag false) false true 0 "en"])
  /\ ~ checks_pass 13 "ru"
  /\ exists msg,
       add_user 7 false (Until premium_end) true true 13 "ru" sample
       = (sample, Raise (IntegrityError msg)).
Proof.
  assert (H1 : checks_pass 3 "ru") by (split; [lia|cbn; lia]).
  assert (H2 : ~ checks_pass 13 "ru") by (intros [? _]; lia).
  split; [exact H1|]. split.
  - destruct (proj1 (add_user_replaces sample 7 false (Until premium_end) true true
                       3 "ru" eq_refl eq_refl eq_refl) H1) as (db' & Hrun & Hrow & _).
    exists db'. split; [exact Hrun|]. split; [exact Hrow|]. by vm_compute.
  - split; [exact H2|].
    exact (proj2 (add_user_replaces sample 7 false (Until premium_end) true true
                    13 "ru" eq_refl eq_refl eq_refl) H2).
Defined.

(** *** [change_prediction] *)

(** The prediction rows after [UPDATE currency_predictions SET value = ?
    WHERE id = ?]. *)
Definition with_value (f : float) (id : Z) (db : database) : database :=
  with_predictions db
    ((fun r => if p_id r =? id
               then {| p_id := p_id r; p_user_id := p_user_id r;
                       p_iso_from := p_iso_from r; p_iso_to := p_iso_to r;
                       p_value := SReal f; p_up_to_date := p_up_to_date r;
                       p_is_by_experts := p_is_by_experts r;
                       p_real_value := p_real_value r |}
               else r) <$> currency_predictions db).

(** A keyword that SQLite takes for a column name and nothing else:
    lower-case letters and underscores, and none of the names of the row
    id.  (Column names are matched whatever the case of their letters, and
    the keyword is pasted into the statement as it is.) *)
Definition plain_name (k : string) : bool :=
  forallb (fun c => let n := nat_of_ascii c in
                    ((97 <=? n)%nat && (n <=? 122)%nat) || (n =? 95)%nat)
          (list_ascii_of_string k)
  && negb (bool_decide (k ∈ ["rowid"; "oid"; "_rowid_"])).

Lemma eqb_not_in (k : string) (l : list string) (c : string) :
  k ∉ l -> c ∈ l -> String.eqb k c = false.
Proof. intros Hk Hc. apply String.eqb_neq. intros ->. done. Qed.

(** X21. [change_prediction] is not atomic.  Called with a valid [value]
    followed by a keyword that names no column, it raises [ValueError] for
    the second keyword, and the value has been changed all the same, as
    the handler's connection sees the table. *)
Theorem change_prediction_not_atomic (utcnow : datetime) (db : database) (id : Z)
    (f : float) (k : string) (v : pyval) :
  Exists (fun r => p_id r = id) (currency_predictions db) ->
  ((0 <? f) && (f <? infinity))%float = true ->
  plain_name k = true ->
  k ∉ "self" :: predictions_columns ->
  is_ok (adapt v) = true ->
  change_prediction utcnow id [("value", PFloat f); (k, v)] db =
    (with_value f id db, Raise (ValueError ("invalid argument '" +:+ k +:+ "'"))).
Proof.
  intros Hex Hf _ Hk Hv.
  assert (E : forall c, bool_decide (c ∈ "self" :: predictions_columns) = true ->
                        String.eqb k c = false).
  { intros c Hc%bool_decide_eq_true. by eapply eqb_not_in. }
  unfold change_prediction, decorated, Decorators.wrapper.
  cbn [length take Decorators.check_args Decorators.check_arg Decorators.kwargs_get].
  change (String.eqb "value" "value") with true. cbn iota.
  pose proof (GuardFacts.assert_positive (PFloat f) "value") as Hg.
  cbn [zero_to_inf fst snd] in Hg. unfold zero_to_inf. rewrite Hg, Hf.
  cbn [mbind result_bind bind]. change (String.eqb "value" "real_value") with false.
  cbn iota. rewrite (E "real_value" eq_refl).
  change (Decorators.index "real_value" ["self"; "id"]) with (@None nat).
  cbn [mbind result_bind bind].
  unfold dict_has. cbn [Decorators.kwargs_get].
  change (String.eqb "value" "self") with false.
  change (String.eqb "value" "id") with false. cbn iota.
  rewrite (E "self" eq_refl), (E "id" eq_refl).
  replace (bool_decide (is_Some (@None pyval))) with false by done. cbn [orb].
  unfold change_prediction_body.
  unfold mbind at 1. unfold M_bind. rewrite (check_prediction_exists_true db id Hex).
  unfold dict_get, dict_has, py_or. cbn [Decorators.kwargs_get].
  change (String.eqb "value" "iso_from") with false.
  change (String.eqb "value" "iso_to") with false.
  change (String.eqb "value" "user_id") with false.
  change (String.eqb "value" "up_to_date") with false. cbn iota.
  rewrite (E "iso_from" eq_refl), (E "iso_to" eq_refl), (E "user_id" eq_refl),
    (E "up_to_date" eq_refl).
  cbn [default truthy is_none]. run. cbn [py_assert negb bool_decide].
  replace (bool_decide (is_Some (@None pyval))) with false by done. cbn [negb py_assert].
  cbn [for_each]. unfold try_except. run. cbn [adapt].
  unfold update_prediction at 1. change (String.eqb "value" "id") with false. cbn iota.
  replace (bool_decide ("value" ∈ predictions_columns)) with true by (by vm_compute).
  destruct (adapt v) as [p|] eqn:Ev; [|done].
  unfold update_prediction. rewrite (E "id" eq_refl).
  rewrite bool_decide_eq_false_2 by (intros Hin; apply Hk; by right).
  cbn [as_value_error repr]. reflexivity.
Qed.

Lemma change_prediction_not_atomic_witness :
  change_prediction noon 1 [("value", PFloat 2.5); ("comment", PStr "late")] sample =
    (with_value 2.5 1 sample, Raise (ValueError "invalid argument 'comment'"))
  /\ p_value <$> currency_predictions sample = [SReal 30000; SReal 1.25]
  /\ p_value <$> currency_predictions (with_value 2.5 1 sample) = [SReal 2.5; SReal 1.25].
Proof.
  split; [|by vm_compute].
  apply (change_prediction_not_atomic noon sample 1 2.5 "comment" (PStr "late"));
    [|reflexivity|reflexivity| |reflexivity].
  - apply (bool_decide_unpack _). by vm_compute.
  - apply (bool_decide_unpack _). by vm_compute.
Defined.

End HandlerFacts.

(** ** models/db.py: the rates of a user *)

Module UserRates.
Import Dt Db.
Open Scope Z_scope.

Definition with_rates (db : database) (rows : list rate_row) : database :=
  {| users := users db; users_rates := rows;
     currency_predictions := currency_predictions db;
     predictions_reactions := predictions_reactions db;
     sequence := sequence db |}.

(** [column = ?] for a text parameter and a column of TEXT affinity. *)
Definition equals_text (v : sqlval) (s : string) : bool :=
  match v with
  | SText s' => String.eqb s' s
  | _ => false
  end.

(** The rows of [users_rates] with the given [user_id] and [iso]. *)
Definition same_rate (user_id : Z) (iso : string) (r : rate_row) : Prop :=
  r_user_id r = user_id /\ equals_text (r_iso r) iso = true.

(** [INSERT INTO users_rates VALUES (?, ?, ?, ?, ?)], under
    [UNIQUE(user_id, iso) ON CONFLICT REPLACE].  The two numeric columns
    have REAL affinity, so a number is stored as a float. *)
Definition insert_rate (user_id : Z) (iso : string) (start_value percent_delta : float)
    (check_times : string) : M unit :=
  modify (fun db =>
    with_rates db
      (filter (fun r => ~ same_rate user_id iso r) (users_rates db)
       ++ [{| r_user_id := user_id; r_iso := SText iso;
              r_start_value := SReal start_value;
              r_percent_delta := SReal percent_delta;
              r_check_times := SText check_times |}])).


Section Rates.

(** [settings.DEFAULT_CHECK_TIMES] *)
Variable DEFAULT_CHECK_TIMES : list string.

(** The keyword arguments of a call, for the parameters it supplies. *)
Definition supplied_floats (start_value percent_delta : option float) : pydict :=
  match start_value with Some v => [("start_value", PFloat v)] | None => [] end
  ++ match percent_delta with Some v => [("percent_delta", PFloat v)] | None => [] end.

(** [add_user_rate(user_id, iso, start_value=1, percent_delta=0.01,
    check_times=settings.DEFAULT_CHECK_TIMES)], under
    [@rangetest(start_value=(0, float('inf')))]; the parameters after
    [iso] are given by keyword, or left to their defaults ([None]). *)
Definition add_user_rate (user_id : Z) (iso : string)
    (start_value percent_delta : option float) (check_times : option (list string))
    : M bool :=
  decorated
    (Decorators.wrapper py_lt py_le repr true [("start_value", zero_to_inf)]
       ["self"; "user_id"; "iso"; "start_value"; "percent_delta"; "check_times"]
       (fun _ _ => Ok (
          let check_times := String.concat "," (default DEFAULT_CHECK_TIMES check_times) in
          insert_rate user_id iso (default 1%float start_value)
            (default 0.01%float percent_delta) check_times;;
          mret true))
       [PObj "self"; PInt user_id; PStr iso]
       (supplied_floats start_value percent_delta)).


End Rates.

End UserRates.

Module UserRatesFacts.
Import Dt Db DbFacts UserRates HandlerFacts.
Open Scope Z_scope.


Definition other_rates (user_id : Z) (iso : string) (db : database) : list rate_row :=
  filter (fun r => ~ same_rate user_id iso r) (users_rates db).

(** The start value passes the range check, or is left to its default. *)
Definition start_value_ok (start_value : option float) : bool :=
  match start_value with
  | Some v => ((0 <? v) && (v <? infinity))%float
  | None => true
  end.

Definition new_rate (defaults : list string) (user_id : Z) (iso : string)
    (start_value percent_delta : option float) (check_times : option (list string))
    : rate_row :=
  {| r_user_id := user_id; r_iso := SText iso;
     r_start_value := SReal (default 1%float start_value);
     r_percent_delta := SReal (default 0.01%float percent_delta);
     r_check_times := SText (String.concat "," (default defaults check_times)) |}.

Lemma add_user_rate_unfold (defaults : list string) (user_id : Z) (iso : string)
    (start_value percent_delta : option float) (check_times : option (list string))
    (db : database) :
  add_user_rate defaults user_id iso start_value percent_delta check_times db =
  if start_value_ok start_value
  then (with_rates db (other_rates user_id iso db
                       ++ [new_rate defaults user_id iso start_value percent_delta
                             check_times]), Ok true)
  else (db, Raise (GuardFacts.out_of_range (PFloat (default 1%float start_value))
                     "start_value")).
Proof.
  unfold add_user_rate, decorated, Decorators.wrapper.
  cbn [length take Decorators.check_args Decorators.check_arg].
  destruct start_value as [v|];
    cbn [supplied_floats app Decorators.kwargs_get start_value_ok default].
  - change (String.eqb "start_value" "start_value") with true. cbn iota.
    pose proof (GuardFacts.assert_positive (PFloat v) "start_value") as Hg.
    cbn [zero_to_inf fst snd] in Hg. unfold zero_to_inf. rewrite Hg.
    destruct ((0 <? v) && (v <? infinity))%float; [|done].
    unfold insert_rate. run. reflexivity.
  - unfold insert_rate. run. by destruct percent_delta.
Qed.




(** The guard of the decorator: a start value that is given and is not
    positive and finite fails the assertion, and nothing is stored. *)
Lemma add_user_rate_out_of_range (defaults : list string) (db : database)
    (user_id : Z) (iso : string) (start_value : float) (percent_delta : option float)
    (check_times : option (list string)) :
  start_value_ok (Some start_value) = false ->
  add_user_rate defaults user_id iso (Some start_value) percent_delta check_times db
  = (db, Raise (GuardFacts.out_of_range (PFloat start_value) "start_value")).
Proof. intros Hno. by rewrite add_user_rate_unfold, Hno. Qed.

(** *** [get_user_rates] *)





End UserRatesFacts.

(** ** models/db.py: the methods that list users and predictions *)

Module Listings.
Import Dt Db.
Open Scope Z_scope.

(** *** Conditions and orders of SQLite *)

(** [v = z] for a stored value and an integer literal: NULL when the value
    is NULL; a text is never equal to a number ([TRUE] and [FALSE] are the
    integers 1 and 0). *)
Definition equals_literal (v : sqlval) (z : Z) : option bool :=
  match v with
  | SNull => None
  | SInteger a => Some (a =? z)
  | SReal f => Some (bool_decide (compare_float_Z f z = Some Eq))
  | SText _ => Some false
  end.

(** [NOT] and [AND] on the three truth values. *)
Definition sql_not (c : option bool) : option bool := negb <$> c.

Definition sql_and (a b : option bool) : option bool :=
  match a, b with
  | Some false, _ | _, Some false => Some false
  | Some true, Some true => Some true
  | _, _ => None
  end.






(** *** The listings of users *)

(** [SELECT user_id FROM users WHERE <condition>] *)
Definition select_user_ids (condition : user_row -> option bool) : M (list pydict) :=
  query (fun db =>
    fetchall ["user_id"] (fun u => [SInteger (u_user_id u)])
      (filter (fun u => condition u = Some true) (users db))).

(** The users selected by the four listings. *)
Definition all_users (if_all : bool) (u : user_row) : option bool :=
  if if_all then Some true else sql_not (equals_literal (u_is_staff u) 1).
Definition staff_users (u : user_row) : option bool := equals_literal (u_is_staff u) 1.
Definition active_users (u : user_row) : option bool := equals_literal (u_is_active u) 1.
Definition pro_users (u : user_row) : option bool :=
  sql_and (equals_literal (u_is_active u) 1) (sql_not (equals_literal (u_is_pro u) 0)).

Section Users.

(** [self.get_user], applied to whatever object the row yields. *)
Variable get_user : pyval -> M (option profile).

(** [[self.get_user(user_data[0]) for user_data in rows]] *)
Definition users_of (rows : list pydict) : M (list (option profile)) :=
  comprehension rows (fun user_data =>
    user_id ← lift (dict_getitem user_data (Key (PInt 0)));
    get_user user_id).

(** [get_all_users(if_all=True)] *)
Definition get_all_users (if_all : bool) : M (list (option profile)) :=
  rows ← select_user_ids (all_users if_all);
  users_of rows.

(** [get_staff_users] *)
Definition get_staff_users : M (list (option profile)) :=
  rows ← select_user_ids staff_users;
  users_of rows.

(** [get_active_users] *)
Definition get_active_users : M (list (option profile)) :=
  rows ← select_user_ids active_users;
  users_of rows.

(** [get_pro_users] *)
Definition get_pro_users : M (list (option profile)) :=
  rows ← select_user_ids pro_users;
  users_of rows.

End Users.

(** *** The listings of predictions *)
















End Listings.

Module ListingsFacts.
Import Dt Db DbFacts Listings.
Open Scope Z_scope.

(** The subscript [[0]] fails on the first row, a dictionary, before
    anything is done with it. *)
Lemma subscript_fails {A : Type} (rows : list pydict) (k : pyval -> M A) (db : database) :
  comprehension rows (fun row => x ← lift (dict_getitem row (Key (PInt 0))); k x) db
  = (db, match rows with [] => Ok [] | _ :: _ => Raise (KeyError "0") end).
Proof. by destruct rows. Qed.




Definition user_listing {A : Type} (selected : list A) : result (list (option profile)) :=
  match selected with [] => Ok [] | _ :: _ => Raise (KeyError "0") end.

(** The users a condition selects. *)
Definition selected_users (condition : user_row -> option bool) (db : database)
    : list user_row :=
  filter (fun u => condition u = Some true) (users db).

Lemma users_listing (get_user : pyval -> M (option profile))
    (condition : user_row -> option bool) (db : database) :
  (rows ← select_user_ids condition; users_of get_user rows) db
  = (db, user_listing (selected_users condition db)).
Proof.
  unfold mbind at 1. unfold M_bind, select_user_ids, query, users_of.
  rewrite subscript_fails. unfold fetchall, selected_users. by destruct (filter _ _).
Qed.

(** X24. None of the four listings of users can return a user.  Whatever
    [get_user] does, each returns the empty list when its query selects no
    user, and raises [KeyError] when it selects one: the row is a
    dictionary and is subscripted with [0]. *)
Theorem user_listings_never_return_a_user (get_user : pyval -> M (option profile))
    (db : database) (if_all : bool) :
  get_all_users get_user if_all db = (db, user_listing (selected_users (all_users if_all) db))
  /\ get_staff_users get_user db = (db, user_listing (selected_users staff_users db))
  /\ get_active_users get_user db = (db, user_listing (selected_users active_users db))
  /\ get_pro_users get_user db = (db, user_listing (selected_users pro_users db)).
Proof. repeat split; apply users_listing. Qed.




Lemma length_take_one {A : Type} (l : list A) :
  length (take 1 l) = Nat.min 1 (length l).
Proof. by destruct l as [|x [|y l]]. Qed.






End ListingsFacts.

(** ** models/db.py: [change_user] *)

Module ChangeUser.
Import Dt Db Sqlite.
Open Scope Z_scope.

(** A keyword of [change_user] that names a column other than [user_id],
    with a value of the column's kind. *)
Inductive column_change : Type :=
| Set_is_active (b : bool)
| Set_is_pro (p : premium)
| Set_is_staff (b : bool)
| Set_to_notify_by_experts (b : bool)
| Set_timezone (z : Z)
| Set_language (s : string).

(** The parameters of the method itself. *)
Inductive parameter : Type :=
| Self
| User_id.

Definition parameter_name (p : parameter) : string :=
  match p with
  | Self => "self"
  | User_id => "user_id"
  end.

(** One keyword argument of a call: such a column, or the name of one of
    the method's own parameters, given a second time. *)
Inductive argument : Type :=
| Column (c : column_change)
| Positional (p : parameter) (v : pyval).

Definition column (c : column_change) : string :=
  match c with
  | Set_is_active _ => "is_active"
  | Set_is_pro _ => "is_pro"
  | Set_is_staff _ => "is_staff"
  | Set_to_notify_by_experts _ => "to_notify_by_experts"
  | Set_timezone _ => "timezone"
  | Set_language _ => "language"
  end.


(** The keyword of an argument. *)
Definition keyword (a : argument) : string :=
  match a with
  | Column c => column c
  | Positional p _ => parameter_name p
  end.

Definition with_users (db : database) (rows : list user_row) : database :=
  {| users := rows; users_rates := users_rates db;
     currency_predictions := currency_predictions db;
     predictions_reactions := predictions_reactions db;
     sequence := sequence db |}.

(** The row with one column changed. *)
Definition set_field (c : column_change) (u : user_row) : user_row :=
  let row (is_active is_pro is_staff to_notify timezone language : sqlval) :=
    {| u_user_id := u_user_id u; u_is_active := is_active; u_is_pro := is_pro;
       u_is_staff := is_staff; u_to_notify_by_experts := to_notify;
       u_timezone := timezone; u_language := language |} in
  match c with
  | Set_is_active b =>
      row (sql_bool b) (u_is_pro u) (u_is_staff u) (u_to_notify_by_experts u)
          (u_timezone u) (u_language u)
  | Set_is_pro p =>
      row (u_is_active u)
          match p with
          | Until d => SText (strftime_ymd_hms d)
          | Flag b => sql_bool b
          end
          (u_is_staff u) (u_to_notify_by_experts u) (u_timezone u) (u_language u)
  | Set_is_staff b =>
      row (u_is_active u) (u_is_pro u) (sql_bool b) (u_to_notify_by_experts u)
          (u_timezone u) (u_language u)
  | Set_to_notify_by_experts b =>
      row (u_is_active u) (u_is_pro u) (u_is_staff u) (sql_bool b)
          (u_timezone u) (u_language u)
  | Set_timezone z =>
      row (u_is_active u) (u_is_pro u) (u_is_staff u) (u_to_notify_by_experts u)
          (SInteger z) (u_language u)
  | Set_language s =>
      row (u_is_active u) (u_is_pro u) (u_is_staff u) (u_to_notify_by_experts u)
          (u_timezone u) (SText s)
  end.






End ChangeUser.

Module ChangeUserFacts.
Import Dt Db DbFacts Sqlite ChangeUser HandlerFacts.
Open Scope Z_scope.

(** The value passes the CHECK constraint of its column, if there is one. *)
Definition accepted (c : column_change) : bool :=
  match c with
  | Set_timezone z => between (-11) 12 z
  | Set_language s => between 2 3 (Z.of_nat (sqlite_length s))
  | _ => true
  end.


(** The changes applied one after the other, and the table with the rows
    of the user changed so. *)
Definition apply_all (cs : list column_change) (u : user_row) : user_row :=
  foldl (fun u c => set_field c u) u cs.

Definition changed (cs : list column_change) (user_id : Z) (db : database) : database :=
  with_users db
    ((fun u => if u_user_id u =? user_id then apply_all cs u else u) <$> users db).

Lemma set_field_id (c : column_change) (u : user_row) :
  u_user_id (set_field c u) = u_user_id u.
Proof. by destruct c. Qed.




Lemma changed_nil (user_id : Z) (db : database) : changed [] user_id db = db.
Proof.
  unfold changed. replace (_ <$> users db) with (users db); [by destruct db|].
  induction (users db) as [|u l IH]; [done|]. rewrite fmap_cons, <- IH.
  cbn [apply_all foldl]. by destruct (u_user_id u =? user_id).
Qed.

Lemma changed_cons (c : column_change) (cs : list column_change) (user_id : Z)
    (db : database) :
  changed (c :: cs) user_id db = changed cs user_id (changed [c] user_id db).
Proof.
  unfold changed. cbn [users with_users]. unfold with_users. cbn [users_rates
    currency_predictions predictions_reactions sequence]. f_equal.
  rewrite <- list_fmap_compose. apply list_fmap_ext. intros i u _. cbn.
  destruct (u_user_id u =? user_id) eqn:E; [|by rewrite E].
  by rewrite set_field_id, E.
Qed.

Lemma changed_app (cs cs' : list column_change) (user_id : Z) (db : database) :
  changed (cs ++ cs') user_id db = changed cs' user_id (changed cs user_id db).
Proof.
  revert db. induction cs as [|c cs IH]; intros db.
  - by rewrite changed_nil.
  - cbn [app]. by rewrite changed_cons, IH, <- changed_cons.
Qed.









End ChangeUserFacts.

(** ** models/db.py: [SessionDBHandler] *)

Module Sessions.
Import Dt Db Sqlite.
Open Scope Z_scope.

(** What the column [free_notifications_count] holds: an integer, which is
    one of 64 bits, or, once a subtraction has left that range, a REAL.
    (The handler is given integers for counts; a count is read here as the
    integer it is.) *)
Inductive count_value : Type :=
| CInt (z : Z)
| CReal (f : float).

Coercion CInt : Z >-> count_value.

Definition count_sql (c : count_value) : sqlval :=
  match c with
  | CInt z => SInteger z
  | CReal f => SReal f
  end.

(** A row of [sessions]. *)
Record session_row : Type := {
  s_user_id : Z;
  s_free_notifications_count : count_value
}.

(** What the handler's connection sees: the table it creates, and the
    table [users], which it reads and never creates ([None] when the
    database file has none). *)
Record session_database : Type := {
  sessions : list session_row;
  known_users : option (list user_row)
}.

Definition with_sessions (db : session_database) (rows : list session_row)
    : session_database :=
  {| sessions := rows; known_users := known_users db |}.

Definition sessions_columns : list string := ["user_id"; "free_notifications_count"].

Definition session_values (s : session_row) : list sqlval :=
  [SInteger (s_user_id s); count_sql (s_free_notifications_count s)].

Section Sessions.

(** [settings.DEFAULT_EXPERT_PREDICTIONS_NOTIFICATIONS_NUMBER], pasted into
    the [DEFAULT] clause of [free_notifications_count]. *)
Variable default_count : Z.

(** [check_session_exists]: [SELECT user_id FROM sessions WHERE user_id = ?],
    then [len(res) > 0]. *)
Definition check_session_exists (user_id : Z) (db : session_database) : bool :=
  let res := fetchall ["user_id"] (fun s => [SInteger (s_user_id s)])
               (filter (fun s => s_user_id s = user_id) (sessions db)) in
  (0 <? length res)%nat.

(** [INSERT INTO sessions(user_id) VALUES (?)], under
    [UNIQUE(user_id) ON CONFLICT REPLACE]. *)
Definition insert_session (user_id : Z) (db : session_database) : session_database :=
  with_sessions db
    (filter (fun s => s_user_id s <> user_id) (sessions db)
     ++ [{| s_user_id := user_id; s_free_notifications_count := default_count |}]).

(** [add_session] *)
Definition add_session (user_id : Z) (db : session_database) : session_database * bool :=
  if negb (check_session_exists user_id db) then (insert_session user_id db, true)
  else (db, false).


(** [SELECT * FROM sessions WHERE user_id = ?] *)
Definition select_session (user_id : Z) (db : session_database) : list pydict :=
  fetchall sessions_columns session_values
    (filter (fun s => s_user_id s = user_id) (sessions db)).

(** [get_session]: the first row, a dictionary, or [False] (here [None]). *)
Definition get_session (user_id : Z) (db : session_database) : result (option pydict) :=
  if check_session_exists user_id db
  then row ← first (select_session user_id db); Ok (Some row)
  else Ok None.

(** [get_all_sessions] *)
Definition get_all_sessions (db : session_database) : list pydict :=
  fetchall sessions_columns session_values (sessions db).

(** The integer a REAL stands for, if it stands for one. *)
Definition float_to_Z (f : float) : option Z :=
  match Prim2SF f with
  | S754_zero _ => Some 0
  | S754_finite s m e =>
      let v := if s then Zneg m else Zpos m in
      if 0 <=? e then Some (v * 2 ^ e)
      else if Zpos m mod 2 ^ (- e) =? 0 then Some (v / 2 ^ (- e)) else None
  | _ => None
  end.

(** A REAL stored in the column, which has INTEGER affinity: it becomes the
    integer it stands for when that lies strictly between the least and the
    greatest integer of 64 bits, and stays a REAL otherwise. *)
Definition integer_affinity (f : float) : count_value :=
  match float_to_Z f with
  | Some z => if (- 2 ^ 63 <? z) && (z <? 2 ^ 63 - 1) then CInt z else CReal f
  | None => CReal f
  end.

(** [free_notifications_count - 1].  On the least integer of 64 bits the
    subtraction overflows, and SQLite does it on REALs. *)
Definition minus_one (c : count_value) : count_value :=
  match c with
  | CInt z => if - 2 ^ 63 <? z then CInt (z - 1)
              else integer_affinity (-9223372036854775808 - 1)%float
  | CReal f => integer_affinity (f - 1)%float
  end.

(** [UPDATE sessions SET free_notifications_count = <f count>
     WHERE user_id = ?] *)
Definition update_count (f : count_value -> count_value) (user_id : Z)
    (db : session_database) : session_database :=
  with_sessions db
    ((fun s => if s_user_id s =? user_id
               then {| s_user_id := s_user_id s;
                       s_free_notifications_count := f (s_free_notifications_count s) |}
               else s) <$> sessions db).

(** [decrease_count]: an id beyond 64 bits is not bound, and the statement
    is not run. *)
Definition decrease_count (user_id : Z) (db : session_database)
    : session_database * result bool :=
  if int64 user_id then (update_count minus_one user_id db, Ok true)
  else (db, Raise too_large).

(** [set_count]: an id or a count beyond 64 bits is not bound, and the
    statement it was meant for is not run. *)
Definition set_count (user_id count : Z) (db : session_database)
    : session_database * result bool :=
  if negb (int64 user_id) then (db, Raise too_large)
  else if check_session_exists user_id db then
    if int64 count then (update_count (fun _ => CInt count) user_id db, Ok true)
    else (db, Raise too_large)
  else (db, Ok false).

(** [x != 0] on a stored value: NULL for NULL; a text is not a number, and
    is different from every number. *)
Definition differs_from_zero (v : sqlval) : sqlval :=
  match v with
  | SNull => SNull
  | SInteger z => SInteger (if z =? 0 then 0 else 1)
  | SReal f => SInteger (if bool_decide (compare_float_Z f 0 = Some Eq) then 0 else 1)
  | SText _ => SInteger 1
  end.

(** [SELECT is_pro != 0 FROM users WHERE user_id = ?] *)
Definition select_is_pro (user_id : Z) (db : session_database) : result (list pydict) :=
  match known_users db with
  | Some users =>
      Ok (fetchall ["is_pro != 0"] (fun u => [differs_from_zero (u_is_pro u)])
            (filter (fun u => u_user_id u = user_id) users))
  | None => Raise (OperationalError "no such table: users")
  end.

(** [SELECT free_notifications_count FROM sessions WHERE user_id = ?] *)
Definition select_count (user_id : Z) (db : session_database) : list pydict :=
  fetchall ["free_notifications_count"]
    (fun s => [count_sql (s_free_notifications_count s)])
    (filter (fun s => s_user_id s = user_id) (sessions db)).

(** [fetch_count(user_id, with_decrease=False)]; falling off the end of the
    method returns [None]. *)
Definition fetch_count (user_id : Z) (with_decrease : bool) (db : session_database)
    : session_database * result pyval :=
  if check_session_exists user_id db then
    match select_is_pro user_id db with
    | Raise e => (db, Raise e)
    | Ok is_user_pro =>
        if (0 <? length is_user_pro)%nat then
          match first is_user_pro ≫= (fun row => dict_getitem row (Key (PInt 0))) with
          | Raise e => (db, Raise e)
          | Ok pro =>
              if truthy pro then (db, Ok (PInt 1))
              else
                match first (select_count user_id db)
                      ≫= (fun row => dict_getitem row (Key (PInt 0))) with
                | Raise e => (db, Raise e)
                | Ok count =>
                    if with_decrease then
                      match decrease_count user_id db with
                      | (db', Raise e) => (db', Raise e)
                      | (db', Ok _) => (db', Ok count)
                      end
                    else (db, Ok count)
                end
          end
        else (db, Ok PNone)
    end
  else (db, Ok PNone).

End Sessions.

End Sessions.

Module SessionsFacts.
Import Dt Db Sqlite Sessions.
Open Scope Z_scope.

(** The sessions of one user. *)
Definition sessions_of (user_id : Z) (db : session_database) : list session_row :=
  filter (fun s => s_user_id s = user_id) (sessions db).


Lemma check_session_exists_spec (user_id : Z) (db : session_database) :
  check_session_exists user_id db = negb (bool_decide (sessions_of user_id db = [])).
Proof.
  unfold check_session_exists, fetchall, sessions_of.
  rewrite length_fmap. by destruct (filter _ _).
Qed.

(** The row [get_session] returns for a session with the given count. *)
Definition session_dict (user_id count : Z) : pydict :=
  [("user_id", PInt user_id); ("free_notifications_count", PInt count)].


(** The counts of a user's sessions, as stored. *)
Definition counts_of (user_id : Z) (db : session_database) : list count_value :=
  s_free_notifications_count <$> sessions_of user_id db.

(** The row [get_session] returns for a session with the given stored
    count. *)
Definition stored_dict (user_id : Z) (c : count_value) : pydict :=
  [("user_id", PInt user_id); ("free_notifications_count", to_python (count_sql c))].

Lemma sessions_of_update (f : count_value -> count_value) (user_id uid : Z)
    (db : session_database) :
  counts_of uid (update_count f user_id db)
  = (if uid =? user_id then f else id) <$> counts_of uid db.
Proof.
  unfold counts_of, sessions_of, update_count. cbn [sessions with_sessions].
  induction (sessions db) as [|s l IH]; [done|].
  rewrite fmap_cons, !filter_cons.
  destruct (Z.eqb_spec (s_user_id s) user_id) as [He|Hne]; cbn [s_user_id];
    destruct (decide (s_user_id s = uid)) as [Hu|Hu]; try exact IH;
    rewrite !fmap_cons, IH; f_equal; cbn [s_free_notifications_count].
  - by replace (uid =? user_id) with true by (symmetry; apply Z.eqb_eq; congruence).
  - by replace (uid =? user_id) with false by (symmetry; apply Z.eqb_neq; congruence).
Qed.

Lemma get_session_first (user_id : Z) (db : session_database) :
  get_session user_id db =
    Ok (stored_dict user_id <$> head (counts_of user_id db)).
Proof.
  unfold get_session, select_session, fetchall, counts_of.
  rewrite check_session_exists_spec.
  assert (Hid : Forall (fun s => s_user_id s = user_id) (sessions_of user_id db)).
  { unfold sessions_of. apply Forall_forall. by intros s [? _]%list_elem_of_filter. }
  fold (sessions_of user_id db).
  destruct (sessions_of user_id db) as [|s l]; [done|].
  apply Forall_cons in Hid as [<- _]. done.
Qed.

Lemma counts_of_nil (user_id : Z) (db : session_database) :
  counts_of user_id db = [] <-> sessions_of user_id db = [].
Proof. unfold counts_of. by destruct (sessions_of user_id db). Qed.

(** X28. The count [set_count] stores is the count [get_session] reports.
    For a user with a session and a count that is an integer of 64 bits,
    [set_count] returns [True] and the row [get_session] then returns holds
    the user id and the new count, the counts of the other users being
    left alone; a count beyond 64 bits raises [OverflowError] and changes
    nothing.  For a user without a session, [set_count] returns [False],
    changes nothing, and [get_session] answers [False].  (All this for a
    user id that is an integer of 64 bits; any other raises
    [OverflowError] too.) *)
Theorem set_count_get_session (user_id count : Z) (db : session_database) :
  (int64 user_id = true -> sessions_of user_id db <> [] -> int64 count = true ->
   exists db',
     set_count user_id count db = (db', Ok true)
     /\ get_session user_id db' = Ok (Some (session_dict user_id count))
     /\ forall uid, uid <> user_id -> counts_of uid db' = counts_of uid db)
  /\ (int64 user_id = true -> sessions_of user_id db <> [] -> int64 count = false ->
      set_count user_id count db = (db, Raise too_large))
  /\ (int64 user_id = true -> sessions_of user_id db = [] ->
      set_count user_id count db = (db, Ok false)
      /\ get_session user_id db = Ok None)
  /\ (int64 user_id = false -> set_count user_id count db = (db, Raise too_large)).
Proof.
  split; [|split; [|split]].
  - intros Hu Hsome Hc. unfold set_count. rewrite Hu, check_session_exists_spec.
    rewrite bool_decide_eq_false_2 by done. cbn [negb]. rewrite Hc.
    eexists. split; [reflexivity|]. split.
    + rewrite get_session_first, sessions_of_update, Z.eqb_refl.
      rewrite <- counts_of_nil in Hsome. by destruct (counts_of user_id db).
    + intros uid Hne. rewrite sessions_of_update.
      replace (uid =? user_id) with false by (symmetry; by apply Z.eqb_neq).
      apply list_fmap_id.
  - intros Hu Hsome Hc. unfold set_count. rewrite Hu, check_session_exists_spec.
    rewrite bool_decide_eq_false_2 by done. cbn [negb]. by rewrite Hc.
  - intros Hu Hnone. unfold set_count. rewrite Hu, check_session_exists_spec, Hnone.
    split; [done|]. rewrite get_session_first. unfold counts_of. by rewrite Hnone.
  - intros Hu. unfold set_count. by rewrite Hu.
Qed.

(** The least integer of 64 bits, as a REAL. *)
Definition floor_real : float := (-9223372036854775808)%float.

(** What [n] subtractions leave of an integer of 64 bits. *)
Lemma minus_one_repeated (z : Z) (n : nat) :
  int64 z = true ->
  Nat.iter n minus_one (CInt z) =
    if - 2 ^ 63 <=? z - Z.of_nat n then CInt (z - Z.of_nat n) else CReal floor_real.
Proof.
  intros Hz. unfold int64 in Hz. apply andb_true_iff in Hz as [Hlo Hhi].
  apply Z.leb_le in Hlo. apply Z.ltb_lt in Hhi.
  induction n as [|n IH].
  - change (Nat.iter 0 minus_one (CInt z)) with (CInt z).
    destruct (Z.leb_spec (- 2 ^ 63) (z - Z.of_nat 0)); [|lia].
    f_equal. lia.
  - rewrite Nat.iter_succ, IH.
    destruct (Z.leb_spec (- 2 ^ 63) (z - Z.of_nat n)) as [H1|H1].
    + cbn [minus_one]. destruct (Z.ltb_spec (- 2 ^ 63) (z - Z.of_nat n)) as [H2|H2].
      * destruct (Z.leb_spec (- 2 ^ 63) (z - Z.of_nat (S n))); [|lia]. f_equal. lia.
      * destruct (Z.leb_spec (- 2 ^ 63) (z - Z.of_nat (S n))); [lia|]. by vm_compute.
    + destruct (Z.leb_spec (- 2 ^ 63) (z - Z.of_nat (S n))); [lia|]. by vm_compute.
Qed.

(** X29. [decrease_count] takes one off the count each time it is called,
    with no floor at zero: after [n] calls a session that stood at [count],
    an integer of 64 bits, stands at [count - n], below zero if [n] is
    larger.  The only floor is the least integer of 64 bits: a call at that
    count turns it into the REAL of the same value, which further calls
    leave as it is.  Each call returns [True], and the counts of the other
    users are not touched.  (All this for a user id that is an integer of
    64 bits; any other raises [OverflowError].) *)
Theorem decrease_count_repeated (user_id count : Z) (n : nat) (db : session_database) :
  int64 user_id = true ->
  head (counts_of user_id db) = Some (CInt count) ->
  int64 count = true ->
  let db' := Nat.iter n (fun db => (decrease_count user_id db).1) db in
  (- 2 ^ 63 <= count - Z.of_nat n ->
   get_session user_id db' = Ok (Some (session_dict user_id (count - Z.of_nat n))))
  /\ (count - Z.of_nat n < - 2 ^ 63 ->
      get_session user_id db' = Ok (Some (stored_dict user_id (CReal floor_real))))
  /\ (decrease_count user_id db').2 = Ok true
  /\ forall uid, uid <> user_id -> counts_of uid db' = counts_of uid db.
Proof.
  intros Hu Hc Hz. cbn zeta.
  set (step := fun db => (decrease_count user_id db).1).
  assert (Hstep : forall d, step d = update_count minus_one user_id d).
  { intros d. unfold step, decrease_count. by rewrite Hu. }
  assert (G : counts_of user_id (Nat.iter n step db)
              = Nat.iter n minus_one <$> counts_of user_id db
              /\ forall uid, uid <> user_id ->
                   counts_of uid (Nat.iter n step db) = counts_of uid db).
  { induction n as [|n [IH1 IH2]].
    - change (Nat.iter 0 step db) with db. split; [|reflexivity].
      cbn [Nat.iter]. symmetry. apply list_fmap_id.
    - rewrite Nat.iter_succ, Hstep. split.
      + rewrite sessions_of_update, Z.eqb_refl, IH1, <- list_fmap_compose.
        apply list_fmap_ext. intros i c _. reflexivity.
      + intros uid Hne. rewrite sessions_of_update.
        replace (uid =? user_id) with false by (symmetry; by apply Z.eqb_neq).
        rewrite list_fmap_id. by apply IH2. }
  destruct G as [G1 G2].
  assert (Hget : get_session user_id (Nat.iter n step db)
                 = Ok (Some (stored_dict user_id (Nat.iter n minus_one (CInt count))))).
  { rewrite get_session_first, G1.
    destruct (counts_of user_id db) as [|c l]; [done|]. by injection Hc as ->. }
  rewrite Hget, (minus_one_repeated count n Hz).
  split; [|split; [|split; [|exact G2]]].
  - intros H. by destruct (Z.leb_spec (- 2 ^ 63) (count - Z.of_nat n)); [|lia].
  - intros H. by destruct (Z.leb_spec (- 2 ^ 63) (count - Z.of_nat n)); [lia|].
  - unfold decrease_count. by rewrite Hu.
Qed.



(** A connection that knows user 7, who is not premium, and holds no
    session yet. *)
Definition fresh : session_database :=
  {| sessions := [];
     known_users := Some [HandlerFacts.new_user 7 true (Flag false) false true 0 "en"] |}.


Lemma set_count_get_session_witness :
  sessions_of 7 (add_session 5 7 fresh).1 <> []
  /\ (exists db',
        set_count 7 2 (add_session 5 7 fresh).1 = (db', Ok true)
        /\ get_session 7 db' = Ok (Some (session_dict 7 2)))
  /\ set_count 7 (2 ^ 63) (add_session 5 7 fresh).1
     = ((add_session 5 7 fresh).1, Raise too_large)
  /\ set_count 5 2 (add_session 5 7 fresh).1 = ((add_session 5 7 fresh).1, Ok false)
  /\ set_count (2 ^ 63) 2 (add_session 5 7 fresh).1
     = ((add_session 5 7 fresh).1, Raise too_large).
Proof.
  assert (H : sessions_of 7 (add_session 5 7 fresh).1 <> []) by done.
  split; [exact H|]. split; [|split; [|split]].
  - destruct (proj1 (set_count_get_session 7 2 (add_session 5 7 fresh).1) eq_refl H eq_refl)
      as (db' & H1 & H2 & _).
    exists db'. by split.
  - exact (proj1 (proj2 (set_count_get_session 7 (2 ^ 63) (add_session 5 7 fresh).1))
             eq_refl H eq_refl).
  - exact (proj1 (proj1 (proj2 (proj2 (set_count_get_session 5 2 (add_session 5 7 fresh).1)))
                    eq_refl eq_refl)).
  - exact (proj2 (proj2 (proj2 (set_count_get_session (2 ^ 63) 2 (add_session 5 7 fresh).1)))
             eq_refl).
Defined.

Lemma decrease_count_repeated_witness :
  head (counts_of 7 (add_session 5 7 fresh).1) = Some (CInt 5)
  /\ get_session 7 (Nat.iter 6 (fun db => (decrease_count 7 db).1) (add_session 5 7 fresh).1)
     = Ok (Some (session_dict 7 (-1)))
  /\ get_session 7 (Nat.iter 2 (fun db => (decrease_count 7 db).1)
                      (add_session (- 2 ^ 63 + 1) 7 fresh).1)
     = Ok (Some [("user_id", PInt 7);
                 ("free_notifications_count", PFloat (-9223372036854775808))]).
Proof.
  split; [reflexivity|]. split.
  - exact (proj1 (decrease_count_repeated 7 5 6 (add_session 5 7 fresh).1
                    eq_refl eq_refl eq_refl) ltac:(lia)).
  - exact (proj1 (proj2 (decrease_count_repeated 7 (- 2 ^ 63 + 1) 2
                           (add_session (- 2 ^ 63 + 1) 7 fresh).1 eq_refl eq_refl eq_refl))
             ltac:(lia)).
Defined.

(** What the affinity of the column makes of some REALs. *)
Example integer_affinity_examples :
  integer_affinity 5 = CInt 5
  /\ integer_affinity 5.5 = CReal 5.5
  /\ integer_affinity 4611686018427387904 = CInt (2 ^ 62)
  /\ integer_affinity (-9223372036854775808) = CReal (-9223372036854775808)
  /\ minus_one (CInt (- 2 ^ 63)) = CReal (-9223372036854775808).
Proof. repeat split; by vm_compute. Qed.

(** After a session is added for the user [fresh] knows, [fetch_count]
    raises. *)
Example fetch_count_raises :
  fetch_count 7 true (add_session 5 7 fresh).1
  = ((add_session 5 7 fresh).1, Raise (KeyError "0")).
Proof. reflexivity. Qed.

End SessionsFacts.

